(** * Trivia game server: protocol codec and command dispatcher

    A shallow embedding of [chatlib.py] (the frame codec) and of the
    handlers of [multi_server.py] (the session store and the command
    dispatcher), with the properties of the specification stated and
    settled on that embedding.

    Conventions of the embedding.
    - A Python [str] is a [string]; a character is a code point in
      [0, 255] (the Latin-1 range), so every ASCII string is represented
      exactly and the non-ASCII characters that matter for [str.isdigit]
      and [str.strip] in that range are present.
    - A Python [int] is a [Z]; lengths and indices are [nat].  [int] of
      a string has the limit of CPython on the digits of a literal
      (4300); [str] of an integer is its decimal form, and the same
      limit on that conversion is not represented: where a statement
      reads a decimal form back, the integer is within the limit by
      hypothesis ([within_int_limit]).
    - A Python [dict] is an insertion-ordered association list.
    - A function that may raise returns a [result]; the handlers, which
      read and mutate the module globals, run in a state-and-exception
      monad over the record [state].
    - [random.choice] takes the drawn index as an explicit argument.
    - [print] calls are not represented. *)

From Stdlib Require Import String Ascii List ZArith Lia Bool Arith.
From Stdlib Require Import Permutation Sorted.
Import ListNotations.

Local Open Scope string_scope.
Local Open Scope nat_scope.

(** ** Exceptions and results *)

Inductive exn : Type :=
| KeyError
| IndexError
| ValueError
| OSError.

Inductive result (A : Type) : Type :=
| Ok (a : A)
| Raise (e : exn).

Arguments Ok {A} a.
Arguments Raise {A} e.

(** ** Python string primitives *)

Module PyStr.

Definition len (s : string) : nat := String.length s.

Fixpoint repeat_char (c : ascii) (n : nat) : string :=
  match n with
  | O => EmptyString
  | S n' => String c (repeat_char c n')
  end.

(** [s.ljust(width)]: pad with spaces on the right. *)
Definition ljust (s : string) (width : nat) : string :=
  s ++ repeat_char " "%char (width - len s).

(** [s.zfill(width)]: pad with zeros on the left, after a leading sign. *)
Definition zfill (s : string) (width : nat) : string :=
  if width <=? len s then s
  else
    match s with
    | String c r =>
        if (Ascii.eqb c "+" || Ascii.eqb c "-")%bool
        then String c (repeat_char "0"%char (width - len s) ++ r)
        else repeat_char "0"%char (width - len s) ++ s
    | EmptyString => repeat_char "0"%char width
    end.

(** [s[lo:hi]] for non-negative bounds; out-of-range bounds are clamped. *)
Definition slice (s : string) (lo hi : nat) : string :=
  String.substring lo (hi - lo) s.

(** [s[i]] for a non-negative index. *)
Definition index (s : string) (i : nat) : result string :=
  match String.get i s with
  | Some c => Ok (String c EmptyString)
  | None => Raise IndexError
  end.

(** [sub in s] *)
Fixpoint contains (sub s : string) : bool :=
  (String.prefix sub s ||
   match s with
   | EmptyString => false
   | String _ r => contains sub r
   end)%bool.

(** Whitespace in the sense of [str.isspace], code points below 256. *)
Definition isspace_char (c : ascii) : bool :=
  let n := nat_of_ascii c in
  ((9 <=? n) && (n <=? 13) || (28 <=? n) && (n <=? 32)
   || (n =? 133) || (n =? 160))%bool.

Fixpoint lstrip (s : string) : string :=
  match s with
  | EmptyString => EmptyString
  | String c r => if isspace_char c then lstrip r else s
  end.

Fixpoint rstrip (s : string) : string :=
  match s with
  | EmptyString => EmptyString
  | String c r =>
      match rstrip r with
      | EmptyString => if isspace_char c then EmptyString
                       else String c EmptyString
      | r' => String c r'
      end
  end.

(** [s.strip()] *)
Definition strip (s : string) : string := lstrip (rstrip s).

(** The decimal digits ['0'..'9']. *)
Definition isdecimal_char (c : ascii) : bool :=
  let n := nat_of_ascii c in ((48 <=? n) && (n <=? 57))%bool.

(** Digits in the sense of [str.isdigit], code points below 256: the
    decimal digits and the superscripts two, three and one. *)
Definition isdigit_char (c : ascii) : bool :=
  let n := nat_of_ascii c in
  (isdecimal_char c || (n =? 178) || (n =? 179) || (n =? 185))%bool.

Fixpoint all_chars (p : ascii -> bool) (s : string) : bool :=
  match s with
  | EmptyString => true
  | String c r => (p c && all_chars p r)%bool
  end.

(** [s.isdigit()]: at least one character, all of them digits. *)
Definition isdigit (s : string) : bool :=
  match s with
  | EmptyString => false
  | _ => all_chars isdigit_char s
  end.

Definition digit_value (c : ascii) : Z := Z.of_nat (nat_of_ascii c - 48).

Definition digit_char (d : nat) : ascii := ascii_of_nat (48 + d).

(** [str(n)] for a natural number: its decimal digits. *)
Fixpoint str_nat_aux (fuel n : nat) (acc : string) : string :=
  match fuel with
  | O => acc
  | S fuel' =>
      let acc' := String (digit_char (n mod 10)) acc in
      if n / 10 =? 0 then acc' else str_nat_aux fuel' (n / 10) acc'
  end.

Definition str_of_nat (n : nat) : string := str_nat_aux (S n) n EmptyString.

(** [str(z)] for an integer. *)
Definition str_of_Z (z : Z) : string :=
  if (z <? 0)%Z then String "-"%char (str_of_nat (Z.to_nat (- z)))
  else str_of_nat (Z.to_nat z).

(** Whitespace that [int] skips around a literal. *)
Definition int_space_char (c : ascii) : bool :=
  let n := nat_of_ascii c in
  ((9 <=? n) && (n <=? 13) || (n =? 32) || (n =? 133) || (n =? 160))%bool.

Fixpoint int_lskip (s : string) : string :=
  match s with
  | EmptyString => EmptyString
  | String c r => if int_space_char c then int_lskip r else s
  end.

Fixpoint int_rskip (s : string) : string :=
  match s with
  | EmptyString => EmptyString
  | String c r =>
      match int_rskip r with
      | EmptyString => if int_space_char c then EmptyString
                       else String c EmptyString
      | r' => String c r'
      end
  end.

(** The digits of a base-10 literal: decimal digits, single underscores
    allowed between two digits. *)
Fixpoint int_digits (after_digit : bool) (acc : Z) (s : string)
  : option Z :=
  match s with
  | EmptyString => if after_digit then Some acc else None
  | String c r =>
      if isdecimal_char c
      then int_digits true (10 * acc + digit_value c)%Z r
      else if (Ascii.eqb c "_" && after_digit)%bool
           then int_digits false acc r
           else None
  end.

(** The value of a base-10 literal with its sign and the whitespace
    around it, whatever its length. *)
Definition int_literal (s : string) : option Z :=
  match int_lskip (int_rskip s) with
  | String "+"%char r => int_digits false 0%Z r
  | String "-"%char r => option_map Z.opp (int_digits false 0%Z r)
  | t => int_digits false 0%Z t
  end.

(** [sys.get_int_max_str_digits()]: the longest literal, in digits, that
    [int] converts. *)
Definition max_str_digits : nat := 4300.

(** The digits of a string: what [int] counts against the limit, leading
    zeros included, underscores, sign and whitespace excluded. *)
Fixpoint count_digits (s : string) : nat :=
  match s with
  | EmptyString => 0
  | String c r =>
      if isdecimal_char c then S (count_digits r) else count_digits r
  end.

(** [int(s)]; [None] stands for [ValueError], which is also what a
    literal of more than [max_str_digits] digits raises. *)
Definition int (s : string) : option Z :=
  if max_str_digits <? count_digits s then None else int_literal s.

(** [s.split(sep)] for a one-character separator. *)
Fixpoint split (sep : ascii) (s : string) : list string :=
  match s with
  | EmptyString => [EmptyString]
  | String c r =>
      if Ascii.eqb c sep then EmptyString :: split sep r
      else
        match split sep r with
        | f :: fs => String c f :: fs
        | [] => [String c EmptyString]
        end
  end.

(** [sep.join(fields)] *)
Definition join (sep : string) (fields : list string) : string :=
  String.concat sep fields.

(** [s.split()]: the words between runs of whitespace. *)
Fixpoint split_whitespace (s : string) : list string :=
  match s with
  | EmptyString => []
  | String c r =>
      if isspace_char c then split_whitespace r
      else
        match r with
        | EmptyString => [String c EmptyString]
        | String d _ =>
            if isspace_char d
            then String c EmptyString :: split_whitespace r
            else
              match split_whitespace r with
              | w :: ws => String c w :: ws
              | [] => [String c EmptyString]
              end
        end
  end.

End PyStr.

(** ** chatlib.py *)

Module chatlib.

Definition CMD_FIELD_LENGTH : nat := 16.
Definition LENGTH_FIELD_LENGTH : nat := 4.
Definition MAX_DATA_LENGTH : nat := 10 ^ LENGTH_FIELD_LENGTH - 1.
Definition MSG_HEADER_LENGTH : nat :=
  CMD_FIELD_LENGTH + 1 + LENGTH_FIELD_LENGTH + 1.
Definition MAX_MSG_LENGTH : nat := MSG_HEADER_LENGTH + MAX_DATA_LENGTH.
Definition DELIMITER : string := "|".
Definition DATA_DELIMITER : string := "#".

(** PROTOCOL_CLIENT *)
Definition login_msg : string := "LOGIN".
Definition logout_msg : string := "LOGOUT".
Definition getscore_msg : string := "MY_SCORE".
Definition getlogged_msg : string := "LOGGED".
Definition gethighscore_msg : string := "HIGHSCORE".
Definition getquestion_msg : string := "GET_QUESTION".
Definition sendanswer_msg : string := "SEND_ANSWER".

(** PROTOCOL_SERVER *)
Definition login_ok_msg : string := "LOGIN_OK".
Definition login_failed_msg : string := "ERROR".
Definition yourscore_msg : string := "YOUR_SCORE".
Definition highscore_msg : string := "ALL_SCORE".
Definition logged_msg : string := "LOGGED_ANSWER".
Definition correct_msg : string := "CORRECT_ANSWER".
Definition wrong_msg : string := "WRONG_ANSWER".
Definition question_msg : string := "YOUR_QUESTION".
Definition error_msg : string := "ERROR".
Definition noquestions_msg : string := "NO_QUESTIONS".

(** [build_message(cmd, data)]; [None] is the error sentinel. *)
Definition build_message (cmd data : string) : option string :=
  if ((CMD_FIELD_LENGTH <? PyStr.len cmd)
      || (MAX_DATA_LENGTH <? PyStr.len data))%bool then None
  else if (PyStr.contains DELIMITER cmd
           || PyStr.contains DATA_DELIMITER cmd)%bool then None
  else
    let padded_cmd := PyStr.ljust cmd CMD_FIELD_LENGTH in
    let length := PyStr.len data in
    let length_str :=
      PyStr.zfill (PyStr.str_of_nat length) LENGTH_FIELD_LENGTH in
    Some (padded_cmd ++ DELIMITER ++ length_str ++ DELIMITER ++ data).

(** [parse_message(message)]; [Ok None] is the pair [(None, None)]. *)
Definition parse_message (message : string)
  : result (option (string * string)) :=
  if PyStr.len message <? MSG_HEADER_LENGTH then Ok None
  else
    match PyStr.index message CMD_FIELD_LENGTH with
    | Raise e => Raise e
    | Ok c1 =>
    if negb (String.eqb c1 DELIMITER) then Ok None
    else
      match PyStr.index message
              (CMD_FIELD_LENGTH + 1 + LENGTH_FIELD_LENGTH) with
      | Raise e => Raise e
      | Ok c2 =>
      if negb (String.eqb c2 DELIMITER) then Ok None
      else
        let cmd := PyStr.strip (PyStr.slice message 0 CMD_FIELD_LENGTH) in
        let length_str :=
          PyStr.slice message (CMD_FIELD_LENGTH + 1)
            (CMD_FIELD_LENGTH + 1 + LENGTH_FIELD_LENGTH) in
        if negb (PyStr.isdigit length_str) then Ok None
        else
          match PyStr.int length_str with
          | None => Raise ValueError
          | Some msg_length =>
              let data_start := MSG_HEADER_LENGTH in
              let data :=
                PyStr.slice message data_start
                  (data_start + Z.to_nat msg_length) in
              if negb (Z.of_nat (PyStr.len data) =? msg_length)%Z
              then Ok None
              else Ok (Some (cmd, data))
          end
      end
    end.

(** [split_data(msg, expected_fields)] *)
Definition split_data (msg : string) (expected_fields : nat)
  : option (list string) :=
  match msg with
  | EmptyString =>
      if expected_fields =? 1 then Some [EmptyString] else None
  | _ =>
      let fields := PyStr.split "#"%char msg in
      if List.length fields =? expected_fields then Some fields else None
  end.

(** [join_data(msg_fields)] *)
Definition join_data (msg_fields : list string) : string :=
  PyStr.join DATA_DELIMITER msg_fields.

End chatlib.

(** ** Python dictionaries

    A [dict] keeps its keys in insertion order: assigning to a present key
    updates the value in place, assigning to an absent key appends. *)

Class Key (K : Type) : Type := {
  key_eqb : K -> K -> bool;
  key_eqb_spec : forall x y : K, reflect (x = y) (key_eqb x y)
}.

#[export] Instance string_Key : Key string :=
  {| key_eqb := String.eqb; key_eqb_spec := String.eqb_spec |}.

#[export] Instance Z_Key : Key Z :=
  {| key_eqb := Z.eqb; key_eqb_spec := Z.eqb_spec |}.

#[export] Instance nat_Key : Key nat :=
  {| key_eqb := Nat.eqb; key_eqb_spec := Nat.eqb_spec |}.

Definition pair_eqb {A B : Type} `{Key A} `{Key B} (x y : A * B) : bool :=
  (key_eqb (fst x) (fst y) && key_eqb (snd x) (snd y))%bool.

Definition pair_eqb_spec {A B : Type} `{Key A} `{Key B} (x y : A * B)
  : reflect (x = y) (pair_eqb x y) :=
  match x, y with
  | (a, b), (a', b') =>
      match key_eqb_spec a a' in reflect _ ba,
            key_eqb_spec b b' in reflect _ bb
            return reflect ((a, b) = (a', b')) (ba && bb)
      with
      | ReflectT _ Ha, ReflectT _ Hb => ReflectT _ (f_equal2 pair Ha Hb)
      | ReflectT _ _, ReflectF _ Hn =>
          ReflectF _ (fun E : (a, b) = (a', b') => Hn (f_equal snd E))
      | ReflectF _ Hn, _ =>
          ReflectF _ (fun E : (a, b) = (a', b') => Hn (f_equal fst E))
      end
  end.

#[export] Instance pair_Key {A B : Type} `{Key A} `{Key B} : Key (A * B) :=
  {| key_eqb := pair_eqb; key_eqb_spec := pair_eqb_spec |}.

Module PyDict.
Section Dict.
Context {K V : Type} `{Key K}.

Definition dict : Type := list (K * V).

(** [d.get(k)] *)
Fixpoint get (d : dict) (k : K) : option V :=
  match d with
  | [] => None
  | (k', v) :: d' => if key_eqb k' k then Some v else get d' k
  end.

(** [k in d] *)
Definition mem (k : K) (d : dict) : bool :=
  match get d k with Some _ => true | None => false end.

(** [d[k]] *)
Definition getitem (d : dict) (k : K) : result V :=
  match get d k with Some v => Ok v | None => Raise KeyError end.

(** [d[k] = v] *)
Fixpoint set (d : dict) (k : K) (v : V) : dict :=
  match d with
  | [] => [(k, v)]
  | (k', v') :: d' =>
      if key_eqb k' k then (k', v) :: d' else (k', v') :: set d' k v
  end.

(** [del d[k]] for a present key *)
Fixpoint del (d : dict) (k : K) : dict :=
  match d with
  | [] => []
  | (k', v') :: d' => if key_eqb k' k then d' else (k', v') :: del d' k
  end.

Definition keys (d : dict) : list K := map fst d.
Definition values (d : dict) : list V := map snd d.
Definition items (d : dict) : list (K * V) := d.

End Dict.
Arguments dict K V : clear implicits.
End PyDict.

(** [l[i]] on a list, with Python's negative indices. *)
Definition list_getitem {A : Type} (l : list A) (i : Z) : result A :=
  let n := Z.of_nat (List.length l) in
  let j := if (i <? 0)%Z then (n + i)%Z else i in
  if ((j <? 0) || (n <=? j))%Z then Raise IndexError
  else
    match nth_error l (Z.to_nat j) with
    | Some x => Ok x
    | None => Raise IndexError
    end.

(** [z in l] for a list (or a set) of integers. *)
Definition Z_in (z : Z) (l : list Z) : bool := existsb (Z.eqb z) l.

(** ** multi_server.py *)

Module multi_server.

(** users: username -> {password, score, questions_asked} *)
Record user : Type := mkUser {
  password : string;
  score : Z;
  questions_asked : list Z
}.

(** questions: question_number -> {question, answers, correct} *)
Record question_data : Type := mkQuestion {
  question : string;
  answers : list string;
  correct : Z
}.

(** A peer address, as [getpeername] returns it: host and port. *)
Definition address : Type := (string * nat)%type.

(** A socket; [getpeername] is [None] when the call raises. *)
Record socket : Type := mkSocket {
  fileno : nat;
  getpeername : option address
}.

(** The module globals, and the successive contents written to
    [users.txt] (newest first). *)
Record state : Type := mkState {
  users : PyDict.dict string user;
  questions : PyDict.dict Z question_data;
  logged_users : PyDict.dict address string;
  messages_to_send : list (socket * option string);
  users_txt : list string
}.

Definition ERROR_MSG : string := "Error! ".

(** *** The state-and-exception monad of the handlers *)

Definition M (A : Type) : Type := state -> result A * state.

Definition ret {A : Type} (a : A) : M A := fun s => (Ok a, s).

Definition bind {A B : Type} (m : M A) (f : A -> M B) : M B :=
  fun s =>
    match m s with
    | (Ok a, s') => f a s'
    | (Raise e, s') => (Raise e, s')
    end.

Definition raise {A : Type} (e : exn) : M A := fun s => (Raise e, s).

Definition lift {A : Type} (r : result A) : M A := fun s => (r, s).

Definition gets {A : Type} (f : state -> A) : M A := fun s => (Ok (f s), s).

Definition modify (f : state -> state) : M unit := fun s => (Ok tt, f s).

(** [try: m  except Exception: h] *)
Definition try_except {A : Type} (m : M A) (h : exn -> M A) : M A :=
  fun s =>
    match m s with
    | (Ok a, s') => (Ok a, s')
    | (Raise e, s') => h e s'
    end.

Declare Scope monad_scope.
Delimit Scope monad_scope with monad.
Notation "x <- m ;; k" := (bind m (fun x => k))
  (at level 61, m at next level, right associativity) : monad_scope.
Notation "m ;;; k" := (bind m (fun _ => k))
  (at level 61, right associativity) : monad_scope.
Local Open Scope monad_scope.

Definition set_users (u : PyDict.dict string user) (s : state) : state :=
  mkState u (questions s) (logged_users s) (messages_to_send s)
    (users_txt s).

Definition set_logged_users (l : PyDict.dict address string) (s : state)
  : state :=
  mkState (users s) (questions s) l (messages_to_send s) (users_txt s).

Definition set_messages_to_send (q : list (socket * option string))
  (s : state) : state :=
  mkState (users s) (questions s) (logged_users s) q (users_txt s).

Definition set_users_txt (f : list string) (s : state) : state :=
  mkState (users s) (questions s) (logged_users s) (messages_to_send s) f.

(** *** Data persistence *)

Definition newline : string := String (ascii_of_nat 10) EmptyString.

(** One line of [users.txt]:
    [username,password,score,question1 question2 ...] *)
Definition user_line (entry : string * user) : string :=
  let (username, udata) := entry in
  let q_asked_str :=
    PyStr.join " " (map PyStr.str_of_Z (questions_asked udata)) in
  username ++ "," ++ password udata ++ ","
    ++ PyStr.str_of_Z (score udata) ++ "," ++ q_asked_str ++ newline.

Definition users_file (u : PyDict.dict string user) : string :=
  String.concat "" (map user_line (PyDict.items u)).

(** [save_user_database()]: overwrite [users.txt] with all users. *)
Definition save_user_database : M bool :=
  modify (fun s => set_users_txt (users_file (users s) :: users_txt s) s)
  ;;; ret true.

(** *** Messaging *)

(** [build_and_send_message(conn, code, data)]: queue the built message. *)
Definition build_and_send_message (conn : socket) (code data : string)
  : M bool :=
  let full_msg := chatlib.build_message code data in
  modify (fun s =>
    set_messages_to_send (messages_to_send s ++ [(conn, full_msg)])%list s)
  ;;; ret true.

(** [recv_message_and_parse(conn)], given what [conn.recv(...).decode()]
    produced; [None] is the pair [(None, None)]. *)
Definition recv_message_and_parse (received : result string)
  : option (string * string) :=
  match received with
  | Raise _ => None
  | Ok full_msg =>
      if String.eqb full_msg "" then None
      else
        match chatlib.parse_message full_msg with
        | Ok r => r
        | Raise _ => None
        end
  end.

(** *** Handlers *)

(** [handle_login_message(conn, data)] *)
Definition handle_login_message (conn : socket) (data : string) : M unit :=
  match chatlib.split_data data 2 with
  | None =>
      build_and_send_message conn chatlib.error_msg "Invalid login data"
      ;;; ret tt
  | Some fields =>
      match fields with
      | [username; pass] =>
          us <- gets users ;;
          match PyDict.get us username with
          | None =>
              build_and_send_message conn chatlib.error_msg
                ("User '" ++ username ++ "' does not exist")
              ;;; ret tt
          | Some udata =>
              if negb (String.eqb (password udata) pass)
              then
                build_and_send_message conn chatlib.error_msg
                  "Incorrect password"
                ;;; ret tt
              else
                match getpeername conn with
                | None => raise OSError
                | Some client_addr =>
                    modify (fun s =>
                      set_logged_users
                        (PyDict.set (logged_users s) client_addr username)
                        s) ;;;
                    build_and_send_message conn chatlib.login_ok_msg
                      ("Welcome " ++ username ++ "!")
                    ;;; ret tt
                end
          end
      | _ => raise ValueError
      end
  end.

(** [handle_logout_message(conn)] *)
Definition handle_logout_message (conn : socket) : M unit :=
  match getpeername conn with
  | None => ret tt
  | Some client_addr =>
      lu <- gets logged_users ;;
      if PyDict.mem client_addr lu
      then
        modify (fun s =>
          set_logged_users (PyDict.del (logged_users s) client_addr) s) ;;;
        save_user_database ;;; ret tt
      else ret tt
  end.

(** [handle_getscore_message(conn, username)] *)
Definition handle_getscore_message (conn : socket) (username : string)
  : M unit :=
  us <- gets users ;;
  match PyDict.get us username with
  | None =>
      build_and_send_message conn chatlib.error_msg
        ("User '" ++ username ++ "' does not exist")
      ;;; ret tt
  | Some udata =>
      build_and_send_message conn chatlib.yourscore_msg
        (PyStr.str_of_Z (score udata))
      ;;; ret tt
  end.

(** Insertion into a list sorted by score, highest first; an entry goes
    before the entries of equal score, which it precedes in the input. *)
Fixpoint insert_by_score (e : string * user) (l : list (string * user))
  : list (string * user) :=
  match l with
  | [] => [e]
  | e' :: l' =>
      if (score (snd e) <? score (snd e'))%Z
      then e' :: insert_by_score e l'
      else e :: l
  end.

(** [sorted(items, key=score, reverse=True)]: stable. *)
Definition sorted_by_score (l : list (string * user))
  : list (string * user) :=
  fold_right insert_by_score [] l.

(** [handle_highscore_message(conn)] *)
Definition handle_highscore_message (conn : socket) : M unit :=
  us <- gets users ;;
  let sorted_users := sorted_by_score (PyDict.items us) in
  let highscore_str :=
    PyStr.join newline
      (map (fun e => fst e ++ ":" ++ PyStr.str_of_Z (score (snd e)))
         sorted_users) in
  build_and_send_message conn chatlib.highscore_msg highscore_str
  ;;; ret tt.

(** [handle_logged_message(conn)] *)
Definition handle_logged_message (conn : socket) : M unit :=
  lu <- gets logged_users ;;
  let usernames := PyDict.values lu in
  let logged_str := chatlib.join_data usernames in
  build_and_send_message conn chatlib.logged_msg logged_str ;;; ret tt.

(** [random.choice(seq)] on a non-empty list, [rnd] being the draw. *)
Definition random_choice {A : Type} (rnd : nat) (seq : list A)
  : result A :=
  match nth_error seq (rnd mod List.length seq) with
  | Some x => Ok x
  | None => Raise IndexError
  end.

(** [create_random_question(username)] *)
Definition create_random_question (username : string) (rnd : nat)
  : M (option (string * Z)) :=
  qs <- gets questions ;;
  match qs with
  | [] => ret None
  | _ =>
      us <- gets users ;;
      udata <- lift (PyDict.getitem us username) ;;
      let asked := questions_asked udata in
      let available_qs :=
        filter (fun q_num => negb (Z_in q_num asked)) (PyDict.keys qs) in
      match available_qs with
      | [] => ret None
      | _ =>
          q_num <- lift (random_choice rnd available_qs) ;;
          q_data <- lift (PyDict.getitem qs q_num) ;;
          let answers_str := PyStr.join "#" (answers q_data) in
          ret (Some (PyStr.str_of_Z q_num ++ "#" ++ question q_data
                       ++ "#" ++ answers_str, q_num))
      end
  end.

(** [users[username]["questions_asked"].append(q_num)] *)
Definition append_question_asked (username : string) (q_num : Z)
  : M unit :=
  us <- gets users ;;
  udata <- lift (PyDict.getitem us username) ;;
  modify (set_users
    (PyDict.set us username
       (mkUser (password udata) (score udata)
          (questions_asked udata ++ [q_num])%list))).

(** [handle_question_message(conn, username)] *)
Definition handle_question_message (conn : socket) (username : string)
  (rnd : nat) : M unit :=
  res <- create_random_question username rnd ;;
  match res with
  | Some (question_str, q_num) =>
      append_question_asked username q_num ;;;
      save_user_database ;;;
      build_and_send_message conn chatlib.question_msg question_str
      ;;; ret tt
  | None =>
      build_and_send_message conn chatlib.error_msg
        "No more questions available"
      ;;; ret tt
  end.

(** The [try] block of [handle_answer_message]:
    [q_num_str, ans_str = data.split("#")] and the two [int] calls;
    [None] when any of them raises. *)
Definition parse_answer (data : string) : option (Z * Z) :=
  match PyStr.split "#" data with
  | [q_num_str; ans_str] =>
      match PyStr.int q_num_str with
      | None => None
      | Some q_num =>
          match PyStr.int ans_str with
          | None => None
          | Some user_ans => Some (q_num, user_ans)
          end
      end
  | _ => None
  end.

(** [users[username]['score'] += 5] *)
Definition add_score (username : string) (points : Z) : M unit :=
  us <- gets users ;;
  udata <- lift (PyDict.getitem us username) ;;
  modify (set_users
    (PyDict.set us username
       (mkUser (password udata) (score udata + points)%Z
          (questions_asked udata)))).

(** [handle_answer_message(conn, username, data)] *)
Definition handle_answer_message (conn : socket) (username data : string)
  : M unit :=
  match parse_answer data with
  | None =>
      build_and_send_message conn chatlib.error_msg "Invalid answer format"
      ;;; ret tt
  | Some (q_num, user_ans) =>
      qs <- gets questions ;;
      match PyDict.get qs q_num with
      | None =>
          build_and_send_message conn chatlib.error_msg
            "Question does not exist"
          ;;; ret tt
      | Some q_data =>
          let correct_ans := correct q_data in
          if (user_ans =? correct_ans)%Z
          then
            add_score username 5 ;;;
            build_and_send_message conn chatlib.correct_msg "5" ;;; ret tt
          else
            correct_text <-
              lift (list_getitem (answers q_data) (correct_ans - 1)) ;;
            build_and_send_message conn chatlib.wrong_msg
              (PyStr.str_of_Z correct_ans ++ "," ++ correct_text)
            ;;; ret tt
      end
  end.

(** [handle_client_message(conn, cmd, data)]: [true] to keep the client
    connected, [false] to disconnect it. *)
Definition handle_client_message (conn : socket) (cmd data : string)
  (rnd : nat) : M bool :=
  match getpeername conn with
  | None => ret false
  | Some client_addr =>
      lu <- gets logged_users ;;
      match PyDict.get lu client_addr with
      | None =>
          if negb (String.eqb cmd chatlib.login_msg)
          then
            build_and_send_message conn chatlib.error_msg
              "You must login first"
            ;;; ret true
          else handle_login_message conn data ;;; ret true
      | Some username =>
          if String.eqb cmd chatlib.logout_msg
          then handle_logout_message conn ;;; ret false
          else
            (if String.eqb cmd chatlib.getscore_msg
             then handle_getscore_message conn username
             else if String.eqb cmd chatlib.gethighscore_msg
             then handle_highscore_message conn
             else if String.eqb cmd chatlib.getlogged_msg
             then handle_logged_message conn
             else if String.eqb cmd chatlib.getquestion_msg
             then handle_question_message conn username rnd
             else if String.eqb cmd chatlib.sendanswer_msg
             then handle_answer_message conn username data
             else
               build_and_send_message conn chatlib.error_msg
                 "Unsupported command"
               ;;; ret tt)
            ;;; ret true
      end
  end.

(** *** One turn of the main loop for a readable client socket

    [received] is what [sock.recv(...).decode()] produced and [rnd] the
    draw of [random.choice] during the turn.  The local list of sockets
    of [main], and closing sockets, are not represented; nor is the
    [except ConnectionResetError] clause, as [recv_message_and_parse]
    catches what [recv] raises and no handler raises that exception. *)
Definition client_turn (sock : socket) (received : result string)
  (rnd : nat) : M unit :=
  match getpeername sock with
  | None => ret tt
  | Some _ =>
      try_except
        (match recv_message_and_parse received with
         | None => handle_logout_message sock
         | Some (cmd, data) =>
             handle_client_message sock cmd data rnd ;;; ret tt
         end)
        (fun _ =>
           build_and_send_message sock chatlib.error_msg
             "Server error occurred"
           ;;; ret tt)
  end.

(** The sending phase of the main loop: every queued message leaves the
    queue; a tracked socket whose send raises is logged out.  [tracked]
    tells which sockets are in the local list of [main], [send_raises]
    which sends fail. *)
Definition send_queued (tracked : socket -> bool)
  (send_raises : socket -> string -> bool)
  (entry : socket * option string) : M unit :=
  let (conn, msg) := entry in
  match getpeername conn with
  | None => ret tt
  | Some _ =>
      let raises :=
        match msg with
        | None => true
        | Some m => send_raises conn m
        end in
      if (raises && tracked conn)%bool then handle_logout_message conn
      else ret tt
  end.

Fixpoint for_each {A : Type} (f : A -> M unit) (l : list A) : M unit :=
  match l with
  | [] => ret tt
  | x :: l' => f x ;;; for_each f l'
  end.

Definition send_queued_messages (tracked : socket -> bool)
  (send_raises : socket -> string -> bool) : M unit :=
  queue <- gets messages_to_send ;;
  modify (set_messages_to_send []) ;;;
  for_each (send_queued tracked send_raises) queue.

(** What happens in the main loop after start-up. *)
Inductive event : Type :=
| Readable (sock : socket) (received : result string) (rnd : nat)
| SendQueued (tracked : socket -> bool)
    (send_raises : socket -> string -> bool).

Definition step (e : event) (s : state) : state :=
  match e with
  | Readable sock received rnd => snd (client_turn sock received rnd s)
  | SendQueued tracked send_raises =>
      snd (send_queued_messages tracked send_raises s)
  end.

Definition run (es : list event) (s : state) : state :=
  fold_left (fun s e => step e s) es s.

(** *** Loading the users

    [users.txt] is read in text mode: a line ends at a line feed, at a
    carriage return, or at a carriage return followed by a line feed, and
    each of them is read as a line feed. *)

Definition line_feed : ascii := ascii_of_nat 10.
Definition carriage_return : ascii := ascii_of_nat 13.

(** [for line in file]: the lines, each with its line feed (the last one
    may lack it). *)
Fixpoint file_lines (content : string) : list string :=
  match content with
  | EmptyString => []
  | String c r =>
      if Ascii.eqb c line_feed then newline :: file_lines r
      else if Ascii.eqb c carriage_return
      then
        match r with
        | String d r' =>
            if Ascii.eqb d line_feed then newline :: file_lines r'
            else newline :: file_lines r
        | EmptyString => [newline]
        end
      else
        match file_lines r with
        | l :: ls => String c l :: ls
        | [] => [String c EmptyString]
        end
  end.

(** [[int(q) for q in words]] *)
Fixpoint int_list (words : list string) : result (list Z) :=
  match words with
  | [] => Ok []
  | w :: ws =>
      match PyStr.int w with
      | None => Raise ValueError
      | Some z =>
          match int_list ws with
          | Ok zs => Ok (z :: zs)
          | Raise e => Raise e
          end
      end
  end.

(** The body of the loop of [load_user_database] for one line. *)
Definition load_user_line (us : PyDict.dict string user) (line : string)
  : result (PyDict.dict string user) :=
  let line := PyStr.strip line in
  if String.eqb line "" then Ok us
  else
    let parts := PyStr.split "," line in
    if List.length parts <? 3 then Ok us
    else
      match parts with
      | p0 :: p1 :: p2 :: rest =>
          let username := PyStr.strip p0 in
          let pass := PyStr.strip p1 in
          match PyStr.int (PyStr.strip p2) with
          | None => Raise ValueError
          | Some score_value =>
              let asked :=
                match rest with
                | p3 :: _ =>
                    if String.eqb (PyStr.strip p3) "" then Ok []
                    else int_list (PyStr.split_whitespace (PyStr.strip p3))
                | [] => Ok []
                end in
              match asked with
              | Raise e => Raise e
              | Ok questions_asked_value =>
                  Ok (PyDict.set us username
                        (mkUser pass score_value questions_asked_value))
              end
          end
      | _ => Ok us
      end.

Fixpoint load_user_lines (us : PyDict.dict string user)
  (lines : list string) : result (PyDict.dict string user) :=
  match lines with
  | [] => Ok us
  | line :: lines' =>
      match load_user_line us line with
      | Ok us' => load_user_lines us' lines'
      | Raise e => Raise e
      end
  end.

(** [load_user_database()], given the content of [users.txt] ([None] when
    the file does not exist); the result is the new value of [users]. *)
Definition load_user_database (file : option string)
  : result (PyDict.dict string user) :=
  match file with
  | Some content => load_user_lines [] (file_lines content)
  | None =>
      Ok [("test", mkUser "test" 0 []);
          ("yossi", mkUser "123" 50 []);
          ("master", mkUser "master" 200 [])]
  end.

(** *** Loading the questions

    What [load_questions_from_web] does with the response of the trivia
    service.  The texts of an item are taken after [html.unescape];
    [shuffle n] stands for the [n]-th call of [random.shuffle] and
    gives the list as the call leaves it. *)

Record trivia_item : Type := mkItem {
  item_question : string;
  item_correct_answer : string;
  item_incorrect_answers : list string
}.

(** [l.index(x)] *)
Fixpoint list_index (l : list string) (x : string) : result nat :=
  match l with
  | [] => Raise ValueError
  | y :: l' =>
      if String.eqb y x then Ok 0
      else
        match list_index l' x with
        | Ok i => Ok (S i)
        | Raise e => Raise e
        end
  end.

(** The body of the loop for one item. *)
Definition load_question (shuffle : list string -> list string)
  (item : trivia_item) : result question_data :=
  let question_text := item_question item in
  let correct_answer := item_correct_answer item in
  let answers_list :=
    shuffle (item_incorrect_answers item ++ [correct_answer])%list in
  match list_index answers_list correct_answer with
  | Raise e => Raise e
  | Ok i =>
      let correct_index := (Z.of_nat i + 1)%Z in
      Ok (mkQuestion question_text answers_list correct_index)
  end.

(** [for idx, item in enumerate(results, start=...)]; when an item
    raises, the questions stored so far are kept. *)
Fixpoint load_question_items (shuffle : nat -> list string -> list string)
  (idx : nat) (items : list trivia_item)
  (qs : PyDict.dict Z question_data)
  : result unit * PyDict.dict Z question_data :=
  match items with
  | [] => (Ok tt, qs)
  | item :: items' =>
      match load_question (shuffle idx) item with
      | Raise e => (Raise e, qs)
      | Ok q_data =>
          load_question_items shuffle (S idx) items'
            (PyDict.set qs (Z.of_nat idx) q_data)
      end
  end.

(** [load_questions_from_web()], given the decoded response ([Raise] when
    the request or the decoding fails): the returned flag and the new
    value of [questions]. *)
Definition load_questions_from_web
  (shuffle : nat -> list string -> list string)
  (response : result (Z * list trivia_item))
  : bool * PyDict.dict Z question_data :=
  match response with
  | Raise _ => (false, [])
  | Ok (response_code, results) =>
      if negb (response_code =? 0)%Z then (false, [])
      else
        match load_question_items shuffle 1 results [] with
        | (Ok _, qs) => (true, qs)
        | (Raise _, qs) => (false, qs)
        end
  end.

End multi_server.

(** ** client.py

    The data that [play_question] handles between receiving a question
    and sending the answer, and what [get_logged_users] makes of the
    response; the menus, [input] and the text of what is printed are not
    represented. *)

Module client.

(** [recv_message_and_parse(conn)], given what [conn.recv(...).decode()]
    produced; [None] is the pair [(None, None)]. *)
Definition recv_message_and_parse (received : result string)
  : option (string * string) :=
  match received with
  | Raise _ => None
  | Ok full_msg =>
      if String.eqb full_msg "" then None
      else
        match chatlib.parse_message full_msg with
        | Ok r => r
        | Raise _ => None
        end
  end.

(** What [get_logged_users] displays: the list of the users, that no
    user is logged in, or that it failed to get the users. *)
Inductive logged_display : Type :=
| Logged_in (users_list : list string)
| No_users_logged_in
| Failed_to_get_logged_users.

(** [get_logged_users(conn)], given the response to its LOGGED message. *)
Definition get_logged_users (response : option (string * string))
  : logged_display :=
  match response with
  | Some (cmd, msg) =>
      if String.eqb cmd chatlib.logged_msg
      then
        if negb (String.eqb msg "")
        then Logged_in (PyStr.split "#" msg)
        else No_users_logged_in
      else Failed_to_get_logged_users
  | None => Failed_to_get_logged_users
  end.

(** Steps 5 and 8 of [play_question]: the fields of the YOUR_QUESTION
    data, and the data of the SEND_ANSWER message for the answer typed by
    the user; [None] when the client reports an invalid question format. *)
Definition play_question_answer (data user_answer : string)
  : option string :=
  match chatlib.split_data data 6 with
  | Some [question_id; question_text; ans1; ans2; ans3; ans4] =>
      Some (chatlib.join_data [question_id; user_answer])
  | _ => None
  end.

(** The answers that step 7 of [play_question] accepts. *)
Definition valid_answers : list string := ["1"; "2"; "3"; "4"].

End client.

Import multi_server.

(** * Vocabulary of the statements *)

(** A computation keeps a relation between the state before and after. *)
Definition preserves (R : state -> state -> Prop) {A : Type} (m : M A)
  : Prop :=
  forall s, R s (snd (m s)).

(** A character occurs in a string. *)
Definition occurs (c : ascii) (s : string) : Prop :=
  In c (list_ascii_of_string s).

(** The number of characters [str_nat_aux] puts in front of [acc]. *)
Fixpoint ndigits (fuel n : nat) : nat :=
  match fuel with
  | O => O
  | S fuel' => if n / 10 =? 0 then 1 else S (ndigits fuel' (n / 10))
  end.

(** A string with its trailing space characters removed: the padding that
    [ljust] adds, and nothing else. *)
Fixpoint trim_trailing_spaces (s : string) : string :=
  match s with
  | EmptyString => EmptyString
  | String c r =>
      match trim_trailing_spaces r with
      | EmptyString => if Ascii.eqb c " " then EmptyString
                       else String c EmptyString
      | r' => String c r'
      end
  end.

(** Every username stored as a value in the live-session mapping is a key
    of the users mapping. *)
Definition sessions_known (s : state) : Prop :=
  forall username,
    In username (PyDict.values (logged_users s)) ->
    exists udata, PyDict.get (users s) username = Some udata.

(** How a state may change: a user stays a user, with every question id
    of the asked history still there; a username in the live sessions was
    there before or is a user. *)
Definition evolves (s s' : state) : Prop :=
  (forall username udata,
      PyDict.get (users s) username = Some udata ->
      exists udata',
        PyDict.get (users s') username = Some udata'
        /\ incl (questions_asked udata) (questions_asked udata'))
  /\ (forall username,
         In username (PyDict.values (logged_users s')) ->
         In username (PyDict.values (logged_users s))
         \/ exists udata, PyDict.get (users s') username = Some udata).

(** Every user is still a user, with the same asked history. *)
Definition same_history (s s' : state) : Prop :=
  forall username udata,
    PyDict.get (users s) username = Some udata ->
    exists udata',
      PyDict.get (users s') username = Some udata'
      /\ questions_asked udata' = questions_asked udata.

(** The question id is in the asked history of the user. *)
Definition asked (s : state) (username : string) (q_num : Z) : Prop :=
  exists udata,
    PyDict.get (users s) username = Some udata
    /\ In q_num (questions_asked udata).

(** The data of a SEND_ANSWER message is two integers joined by ['#']:
    the question id and the chosen answer. *)
Definition answer_data (data : string) (q_num user_ans : Z) : Prop :=
  exists q_num_str ans_str,
    data = q_num_str ++ "#" ++ ans_str
    /\ ~ occurs "#" q_num_str /\ ~ occurs "#" ans_str
    /\ PyStr.int q_num_str = Some q_num
    /\ PyStr.int ans_str = Some user_ans.

(** The frame of a response: what [build_message] makes of a command and
    its data, and what [parse_message] reads back as that command and
    that data. *)
Definition frame_of (code data frame : string) : Prop :=
  chatlib.build_message code data = Some frame
  /\ chatlib.parse_message frame = Ok (Some (code, data)).

(** The commands of the responses that the server sends. *)
Definition server_commands : list string :=
  [chatlib.login_ok_msg; chatlib.error_msg; chatlib.yourscore_msg;
   chatlib.highscore_msg; chatlib.logged_msg; chatlib.correct_msg;
   chatlib.wrong_msg; chatlib.question_msg].

(** The same SEND_ANSWER message handled once for every draw of [rnds]. *)
Definition answer_times (rnds : list nat) (conn : socket) (data : string)
  (s : state) : state :=
  fold_left
    (fun s rnd =>
       snd (handle_client_message conn chatlib.sendanswer_msg data rnd s))
    rnds s.

(** The user and the question id of the question that an event issues:
    a GET_QUESTION message from a logged-in connection for which
    [create_random_question] finds a question. *)
Definition issued (e : event) (s : state) : option (string * Z) :=
  match e with
  | Readable sock received rnd =>
      match getpeername sock, recv_message_and_parse received with
      | Some client_addr, Some (cmd, data) =>
          match PyDict.get (logged_users s) client_addr with
          | Some username =>
              if String.eqb cmd chatlib.getquestion_msg
              then
                match fst (create_random_question username rnd s) with
                | Ok (Some (_, q_num)) => Some (username, q_num)
                | _ => None
                end
              else None
          | None => None
          end
      | _, _ => None
      end
  | SendQueued _ _ => None
  end.

(** The questions issued along a run, in order. *)
Fixpoint issued_log (es : list event) (s : state) : list (string * Z) :=
  match es with
  | [] => []
  | e :: es' =>
      match issued e s with
      | Some uq => uq :: issued_log es' (step e s)
      | None => issued_log es' (step e s)
      end
  end.

(** The payload of a YOUR_QUESTION message. *)
Definition question_payload (q_num : Z) (q_data : question_data) : string :=
  PyStr.str_of_Z q_num ++ "#" ++ question q_data ++ "#"
    ++ PyStr.join "#" (answers q_data).

(** *** A small server state for the examples *)

Definition yossi_addr : address := ("127.0.0.1", 4242).

Definition yossi_sock : socket := mkSocket 4 (Some yossi_addr).

Definition one_question : PyDict.dict Z question_data :=
  [(1%Z, mkQuestion "2 + 2 = ?" ["3"; "4"; "5"; "22"] 2)].

Definition default_users : PyDict.dict string user :=
  [("test", mkUser "test" 0 []);
   ("yossi", mkUser "123" 50 []);
   ("master", mkUser "master" 200 [])].

(** After start-up: nobody is logged in, nothing is queued, and
    [users.txt] holds the users. *)
Definition started : state :=
  mkState default_users one_question [] [] [users_file default_users].

(** yossi is logged in and has not been asked anything. *)
Definition yossi_logged_in : state :=
  mkState default_users one_question [(yossi_addr, "yossi")] []
    [users_file default_users].

(** yossi is logged in and has been asked the only question. *)
Definition yossi_exhausted : state :=
  let us :=
    [("test", mkUser "test" 0 []);
     ("yossi", mkUser "123" 50 [1%Z]);
     ("master", mkUser "master" 200 [])] in
  mkState us one_question [(yossi_addr, "yossi")] [] [users_file us].

(** A question whose correct answer is a text of 10000 characters. *)
Definition long_answer_question : question_data :=
  mkQuestion "a?" [PyStr.repeat_char "a" (10 ^ 4); "b"; "c"; "d"] 1.

(** yossi is logged in, and the bank has that question. *)
Definition yossi_long_answer : state :=
  mkState default_users [(1%Z, long_answer_question)]
    [(yossi_addr, "yossi")] [] [users_file default_users].

(** The superscript two, U+00B2. *)
Definition superscript_two : ascii := ascii_of_nat 178.

(** ** Further vocabulary *)

(** An integer that [int] reads back from its decimal form: one of at
    most [max_str_digits] digits. *)
Definition within_int_limit (z : Z) : Prop :=
  (Z.abs z < 10 ^ Z.of_nat PyStr.max_str_digits)%Z.

(** The number of occurrences of a character in a string. *)
Definition count_char (c : ascii) (s : string) : nat :=
  count_occ ascii_dec (list_ascii_of_string s) c.

(** No field contains the data delimiter. *)
Definition no_delimiter (fields : list string) : Prop :=
  Forall (fun f => ~ occurs "#" f) fields.

(** The data of a LOGIN message is the name of a user and the password of
    that user, joined by ['#']. *)
Definition credentials (s : state) (data username : string) : Prop :=
  exists udata,
    PyDict.get (users s) username = Some udata
    /\ data = username ++ "#" ++ password udata
    /\ ~ occurs "#" username /\ ~ occurs "#" (password udata).

(** The state with one more message in the queue. *)
Definition queued (s : state) (conn : socket) (msg : option string)
  : state :=
  set_messages_to_send (messages_to_send s ++ [(conn, msg)])%list s.

(** The state after the session of an address has been released: the
    session is deleted and the users are written to [users.txt]. *)
Definition released (s : state) (client_addr : address) : state :=
  mkState (users s) (questions s)
    (PyDict.del (logged_users s) client_addr)
    (messages_to_send s) (users_file (users s) :: users_txt s).


(** The commands of a logged-in client. *)
Definition client_commands : list string :=
  [chatlib.logout_msg; chatlib.getscore_msg; chatlib.gethighscore_msg;
   chatlib.getlogged_msg; chatlib.getquestion_msg; chatlib.sendanswer_msg].

(** A handler that, when it returns, has queued exactly one entry, for
    the given socket: what [build_message] makes of one of the commands
    of the server and a text; and that queues nothing when it raises. *)
Definition replies_once (conn : socket) (m : M unit) : Prop :=
  forall s,
    match m s with
    | (Ok _, s') =>
        exists code text,
          messages_to_send s'
          = (messages_to_send s
             ++ [(conn, chatlib.build_message code text)])%list
          /\ In code server_commands
    | (Raise _, s') => messages_to_send s' = messages_to_send s
    end.

(** A user record after some events: same name and password, a score
    that has grown by a multiple of 5, an asked history that has grown at
    its end. *)
Definition user_grows (e e' : string * user) : Prop :=
  fst e' = fst e
  /\ password (snd e') = password (snd e)
  /\ (exists k, score (snd e') = score (snd e) + 5 * Z.of_nat k)%Z
  /\ exists more,
       questions_asked (snd e') = (questions_asked (snd e) ++ more)%list.

(** The question bank is the same, and the users are the same users, in
    the same order, each one grown. *)
Definition users_kept (s s' : state) : Prop :=
  questions s' = questions s
  /\ Forall2 user_grows (users s) (users s').





(** A name or a password that [users.txt] can hold: no comma, no line
    feed, no carriage return, and no whitespace at its ends. *)
Definition clean_field (f : string) : Prop :=
  ~ occurs "," f /\ ~ occurs line_feed f /\ ~ occurs carriage_return f
  /\ PyStr.strip f = f.

(** A users mapping that [users.txt] can hold. *)
Definition clean_users (us : PyDict.dict string user) : Prop :=
  NoDup (PyDict.keys us)
  /\ Forall (fun e => clean_field (fst e) /\ clean_field (password (snd e)))
       us.

(** The scores and the question ids of the users are integers that [int]
    reads back from their decimal forms. *)
Definition users_within_limit (us : PyDict.dict string user) : Prop :=
  Forall (fun e => within_int_limit (score (snd e))
                   /\ Forall within_int_limit (questions_asked (snd e)))
    us.

(** The characters of the decimal form of an integer. *)
Definition numeric_char (c : ascii) : bool :=
  (PyStr.isdecimal_char c || Ascii.eqb c "-")%bool.

(** The characters of a list of integers joined by spaces. *)
Definition numeric_or_space_char (c : ascii) : bool :=
  (numeric_char c || Ascii.eqb c " ")%bool.

(** The characters that are not whitespace. *)
Definition visible_char (c : ascii) : bool := negb (PyStr.isspace_char c).

(** The asked history as [users.txt] has it. *)
Definition asked_field (l : list Z) : string :=
  PyStr.join " " (map PyStr.str_of_Z l).

(** A line of [users.txt] without its line feed. *)
Definition user_line_body (username : string) (udata : user) : string :=
  username ++ "," ++ password udata ++ ","
    ++ PyStr.str_of_Z (score udata) ++ ","
    ++ asked_field (questions_asked udata).

(** A question of the bank made from an item of the trivia service: the
    text of the item, its answers in some order, and a correct index that
    points at the correct answer. *)
Definition question_of (item : trivia_item) (q_data : question_data)
  : Prop :=
  question q_data = item_question item
  /\ Permutation (answers q_data)
       (item_incorrect_answers item ++ [item_correct_answer item])
  /\ (1 <= correct q_data <= Z.of_nat (List.length (answers q_data)))%Z
  /\ list_getitem (answers q_data) (correct q_data - 1)
     = Ok (item_correct_answer item).

(** A user record as last saved, against the record in memory: the same
    name, password and asked history; the score in memory is the saved
    one or more, by a multiple of 5. *)
Definition record_behind (e e' : string * user) : Prop :=
  fst e' = fst e
  /\ password (snd e') = password (snd e)
  /\ questions_asked (snd e') = questions_asked (snd e)
  /\ exists k, (score (snd e') = score (snd e) + 5 * Z.of_nat k)%Z.

(** The score of the second record is not below that of the first. *)
Definition score_above (e e' : string * user) : Prop :=
  (score (snd e) <= score (snd e'))%Z.

(** [users.txt] holds the users of some earlier moment, with scores not
    below those of [floor], and the users in memory differ from them in
    their scores only. *)
Definition disk_behind (floor : PyDict.dict string user) (s : state)
  : Prop :=
  exists saved,
    hd_error (users_txt s) = Some (users_file saved)
    /\ Forall2 record_behind saved (users s)
    /\ Forall2 score_above floor saved.

(** A step that leaves [users.txt] behind memory in scores only, when it
    was so before. *)
Definition keeps_disk (floor : PyDict.dict string user) (s s' : state)
  : Prop :=
  disk_behind floor s -> disk_behind floor s'.

(** * The primitives on examples *)

Example build_login :
  chatlib.build_message "LOGIN" "aaaa#bbbb"
  = Some "LOGIN           |0009|aaaa#bbbb".
Proof. reflexivity. Qed.

Example parse_login :
  chatlib.parse_message "LOGIN           |0009|aaaa#bbbb"
  = Ok (Some ("LOGIN", "aaaa#bbbb")).
Proof. reflexivity. Qed.

Example int_examples :
  PyStr.int " 12 " = Some 12%Z /\ PyStr.int "-0_7" = Some (-7)%Z
  /\ PyStr.int "1__2" = None /\ PyStr.int "" = None
  /\ PyStr.int "+" = None /\ PyStr.int "1_" = None.
Proof. repeat split. Qed.

Example int_digit_limit :
  PyStr.int (PyStr.repeat_char "0" 4299 ++ "2") = Some 2%Z
  /\ PyStr.int (PyStr.repeat_char "0" 4300 ++ "2") = None
  /\ PyStr.int (PyStr.repeat_char "0" 4400 ++ "2") = None.
Proof. repeat split; vm_compute; reflexivity. Qed.

Example protocol_constants :
  chatlib.CMD_FIELD_LENGTH = 16 /\ chatlib.MSG_HEADER_LENGTH = 22
  /\ Z.of_nat chatlib.MAX_DATA_LENGTH = 9999%Z
  /\ Z.of_nat chatlib.MAX_MSG_LENGTH = 10021%Z.
Proof. repeat split; vm_compute; reflexivity. Qed.

Example split_examples :
  PyStr.split "#" "a#b" = ["a"; "b"] /\ PyStr.split "#" "" = [""]
  /\ PyStr.split "#" "a##" = ["a"; ""; ""].
Proof. repeat split. Qed.

(** * Properties of the string primitives *)

Section StringFacts.

Lemma length_append (a b : string) :
  String.length (a ++ b) = String.length a + String.length b.
Proof. induction a as [|c a IH]; simpl; [reflexivity | now rewrite IH]. Qed.

Lemma length_repeat_char (c : ascii) (n : nat) :
  String.length (PyStr.repeat_char c n) = n.
Proof. induction n; simpl; congruence. Qed.



Lemma substring_0_all (s : string) :
  String.substring 0 (String.length s) s = s.
Proof. induction s as [|c s IH]; simpl; [reflexivity | now rewrite IH]. Qed.


Lemma contains_char (c : ascii) (s : string) :
  PyStr.contains (String c EmptyString) s = true <-> occurs c s.
Proof.
  unfold occurs; induction s as [|d s IH]; simpl.
  - split; [discriminate | tauto].
  - rewrite orb_true_iff, IH.
    destruct (ascii_dec c d) as [->|Hne].
    + split; [now left | intros _; left]. now destruct s.
    + split; [intros [H|H]; [discriminate | now right]|].
      intros [H|H]; [congruence | now right].
Qed.

Lemma contains_char_false (c : ascii) (s : string) :
  PyStr.contains (String c EmptyString) s = false <-> ~ occurs c s.
Proof.
  rewrite <- contains_char.
  destruct (PyStr.contains (String c "") s); split; congruence.
Qed.

(** *** [strip] and padding *)

Lemma rstrip_spaces (n : nat) :
  PyStr.rstrip (PyStr.repeat_char " " n) = "".
Proof. induction n; simpl; [reflexivity | now rewrite IHn]. Qed.

Lemma rstrip_ljust (s : string) (n : nat) :
  PyStr.rstrip (s ++ PyStr.repeat_char " " n) = PyStr.rstrip s.
Proof.
  induction s as [|c s IH]; simpl; [apply rstrip_spaces | now rewrite IH].
Qed.

Lemma strip_ljust (s : string) (width : nat) :
  PyStr.strip (PyStr.ljust s width) = PyStr.strip s.
Proof. unfold PyStr.strip, PyStr.ljust. now rewrite rstrip_ljust. Qed.

Lemma length_ljust (s : string) (width : nat) :
  String.length s <= width -> String.length (PyStr.ljust s width) = width.
Proof.
  intros Hle. unfold PyStr.ljust, PyStr.len.
  rewrite length_append, length_repeat_char. lia.
Qed.

(** *** Decimal digits *)

Lemma digit_char_decimal (d : nat) :
  d < 10 ->
  PyStr.isdecimal_char (PyStr.digit_char d) = true
  /\ PyStr.digit_value (PyStr.digit_char d) = Z.of_nat d.
Proof.
  intros Hd.
  do 10 (destruct d as [|d]; [split; reflexivity|]). lia.
Qed.

Lemma length_str_nat_aux (fuel n : nat) (acc : string) :
  String.length (PyStr.str_nat_aux fuel n acc)
  = ndigits fuel n + String.length acc.
Proof.
  revert n acc; induction fuel as [|fuel IH]; intros n acc;
    cbn [PyStr.str_nat_aux ndigits]; [reflexivity|].
  destruct (n / 10 =? 0); [reflexivity|].
  rewrite IH; cbn [String.length]; lia.
Qed.

Lemma ndigits_bound (k fuel n : nat) :
  n < 10 ^ S k -> ndigits fuel n <= S k.
Proof.
  revert fuel n; induction k as [|k IH]; intros fuel n Hn;
    destruct fuel as [|fuel]; cbn [ndigits]; try lia.
  - destruct (Nat.eqb_spec (n / 10) 0) as [_|Hne]; [lia|].
    exfalso; apply Hne, Nat.div_small. simpl in Hn; lia.
  - destruct (Nat.eqb_spec (n / 10) 0) as [_|Hne]; [lia|].
    apply le_n_S, IH.
    apply Nat.Div0.div_lt_upper_bound.
    change (10 ^ S (S k)) with (10 * 10 ^ S k) in Hn. lia.
Qed.

Lemma all_decimal_str_nat_aux (fuel n : nat) (acc : string) :
  PyStr.all_chars PyStr.isdecimal_char acc = true ->
  PyStr.all_chars PyStr.isdecimal_char (PyStr.str_nat_aux fuel n acc)
  = true.
Proof.
  revert n acc; induction fuel as [|fuel IH]; intros n acc Hacc;
    cbn [PyStr.str_nat_aux]; [exact Hacc|].
  assert (Hd : PyStr.all_chars PyStr.isdecimal_char
                 (String (PyStr.digit_char (n mod 10)) acc) = true).
  { cbn [PyStr.all_chars]. rewrite Hacc, andb_true_r.
    apply digit_char_decimal, Nat.mod_upper_bound; lia. }
  destruct (n / 10 =? 0); [exact Hd | now apply IH].
Qed.

Lemma int_digits_str_nat_aux (fuel n : nat) (rest : string) (b : bool)
  (acc : Z) :
  n < fuel ->
  PyStr.int_digits b acc (PyStr.str_nat_aux fuel n rest)
  = PyStr.int_digits true (acc * 10 ^ Z.of_nat (ndigits fuel n)
                           + Z.of_nat n)%Z rest.
Proof.
  revert n rest b acc; induction fuel as [|fuel IH];
    intros n rest b acc Hn; [lia|].
  pose proof (Nat.div_mod_eq n 10) as Hdm.
  pose proof (Nat.mod_upper_bound n 10 ltac:(lia)) as Hm.
  destruct (digit_char_decimal (n mod 10) Hm) as [Hdec Hval].
  cbn [PyStr.str_nat_aux ndigits].
  destruct (Nat.eqb_spec (n / 10) 0) as [Hz|Hnz].
  - cbn [PyStr.int_digits]. rewrite Hdec, Hval. f_equal.
    change (Z.of_nat 1) with 1%Z. lia.
  - rewrite IH by (assert (n / 10 < n) by (apply Nat.div_lt; lia); lia).
    cbn [PyStr.int_digits]. rewrite Hdec, Hval. f_equal.
    rewrite Nat2Z.inj_succ, Z.pow_succ_r by lia.
    assert (Hn' : Z.of_nat n
                  = (10 * Z.of_nat (n / 10) + Z.of_nat (n mod 10))%Z)
      by lia.
    rewrite Hn'. ring.
Qed.

Lemma int_digits_zeros (k : nat) (s : string) (b : bool) :
  PyStr.int_digits b 0 (PyStr.repeat_char "0" k ++ s)
  = PyStr.int_digits (b || negb (k =? 0)) 0 s.
Proof.
  revert b; induction k as [|k IH]; intros b; simpl.
  - now rewrite orb_false_r.
  - rewrite IH. now rewrite orb_true_r.
Qed.

Lemma all_chars_append (p : ascii -> bool) (a b : string) :
  PyStr.all_chars p (a ++ b)
  = (PyStr.all_chars p a && PyStr.all_chars p b)%bool.
Proof.
  induction a as [|c a IH]; simpl; [reflexivity|].
  now rewrite IH, andb_assoc.
Qed.

Lemma all_chars_repeat (p : ascii -> bool) (c : ascii) (n : nat) :
  p c = true -> PyStr.all_chars p (PyStr.repeat_char c n) = true.
Proof. intros Hc; induction n; simpl; [reflexivity | now rewrite Hc]. Qed.

Lemma all_chars_weaken (p q : ascii -> bool) (s : string) :
  (forall c, p c = true -> q c = true) ->
  PyStr.all_chars p s = true -> PyStr.all_chars q s = true.
Proof.
  intros Hpq; induction s as [|c s IH]; simpl; [reflexivity|].
  rewrite !andb_true_iff. intros [Hc Hs]. auto.
Qed.

Lemma decimal_not_space (c : ascii) :
  PyStr.isdecimal_char c = true -> PyStr.int_space_char c = false.
Proof.
  unfold PyStr.isdecimal_char, PyStr.int_space_char.
  destruct (Nat.leb_spec 48 (nat_of_ascii c)),
           (Nat.leb_spec (nat_of_ascii c) 57); try discriminate.
  intros _.
  repeat match goal with
         | |- context [?a <=? ?b] => destruct (Nat.leb_spec a b); try lia
         | |- context [?a =? ?b] => destruct (Nat.eqb_spec a b); try lia
         end; reflexivity.
Qed.

Lemma int_lskip_decimal (s : string) :
  PyStr.all_chars PyStr.isdecimal_char s = true -> PyStr.int_lskip s = s.
Proof.
  destruct s as [|c s]; simpl; [reflexivity|].
  rewrite andb_true_iff; intros [Hc _].
  now rewrite (decimal_not_space c Hc).
Qed.

Lemma int_rskip_decimal (s : string) :
  PyStr.all_chars PyStr.isdecimal_char s = true -> PyStr.int_rskip s = s.
Proof.
  induction s as [|c s IH]; simpl; [reflexivity|].
  rewrite andb_true_iff; intros [Hc Hs].
  rewrite (IH Hs), (decimal_not_space c Hc). now destruct s.
Qed.

Lemma int_literal_decimal (s : string) :
  PyStr.all_chars PyStr.isdecimal_char s = true ->
  PyStr.int_literal s = PyStr.int_digits false 0 s.
Proof.
  intros Hs. unfold PyStr.int_literal.
  rewrite (int_rskip_decimal s Hs), (int_lskip_decimal s Hs).
  destruct s as [|c s]; [reflexivity|].
  simpl in Hs. apply andb_true_iff in Hs as [Hc _].
  destruct c as [[] [] [] [] [] [] [] []]; try reflexivity;
    discriminate Hc.
Qed.

(** *** The digit limit of [int] *)

Lemma count_digits_length (s : string) :
  PyStr.count_digits s <= String.length s.
Proof.
  induction s as [|c s IH]; cbn [PyStr.count_digits String.length];
    [lia|].
  destruct (PyStr.isdecimal_char c); lia.
Qed.

Lemma int_under_limit (s : string) :
  PyStr.count_digits s <= PyStr.max_str_digits ->
  PyStr.int s = PyStr.int_literal s.
Proof.
  intros Hs. unfold PyStr.int.
  now rewrite (proj2 (Nat.ltb_ge _ _) Hs).
Qed.

Lemma int_literal_of_int (s : string) (v : Z) :
  PyStr.int s = Some v ->
  PyStr.int_literal s = Some v
  /\ PyStr.count_digits s <= PyStr.max_str_digits.
Proof.
  unfold PyStr.int.
  destruct (Nat.ltb_spec PyStr.max_str_digits (PyStr.count_digits s));
    [discriminate|].
  intros Hv. split; [exact Hv | assumption].
Qed.

Lemma int_decimal (s : string) :
  PyStr.all_chars PyStr.isdecimal_char s = true ->
  String.length s <= PyStr.max_str_digits ->
  PyStr.int s = PyStr.int_digits false 0 s.
Proof.
  intros Hs Hlen. rewrite int_under_limit.
  - now apply int_literal_decimal.
  - pose proof (count_digits_length s). lia.
Qed.

End StringFacts.

(** * The frame codec *)

Section Codec.

Lemma decimal_not_sign (c : ascii) :
  PyStr.isdecimal_char c = true ->
  (Ascii.eqb c "+" || Ascii.eqb c "-")%bool = false.
Proof.
  destruct c as [[] [] [] [] [] [] [] []]; try reflexivity; discriminate.
Qed.

(** The length field that [build_message] writes. *)
Lemma length_field (n : nat) :
  n <= chatlib.MAX_DATA_LENGTH ->
  let z := PyStr.zfill (PyStr.str_of_nat n) chatlib.LENGTH_FIELD_LENGTH in
  String.length z = 4
  /\ PyStr.all_chars PyStr.isdecimal_char z = true
  /\ PyStr.int z = Some (Z.of_nat n).
Proof.
  intros Hn z.
  assert (Hlen : String.length (PyStr.str_of_nat n) = ndigits (S n) n).
  { unfold PyStr.str_of_nat. rewrite length_str_nat_aux.
    cbn [String.length]. lia. }
  assert (Hnd : ndigits (S n) n <= 4).
  { apply (ndigits_bound 3).
    unfold chatlib.MAX_DATA_LENGTH, chatlib.LENGTH_FIELD_LENGTH in Hn.
    assert (10 ^ 4 <> 0) by (apply Nat.pow_nonzero; discriminate).
    change (S 3) with 4. lia. }
  assert (Hpos : 1 <= ndigits (S n) n).
  { cbn [ndigits]. destruct (n / 10 =? 0); lia. }
  assert (Hdec : PyStr.all_chars PyStr.isdecimal_char (PyStr.str_of_nat n)
                 = true)
    by (apply all_decimal_str_nat_aux; reflexivity).
  assert (Hint : forall b, PyStr.int_digits b 0 (PyStr.str_of_nat n)
                           = Some (Z.of_nat n)).
  { intros b. unfold PyStr.str_of_nat.
    rewrite int_digits_str_nat_aux by lia. cbn [PyStr.int_digits].
    f_equal; lia. }
  assert (Hz : z = PyStr.repeat_char "0" (4 - ndigits (S n) n)
                   ++ PyStr.str_of_nat n).
  { subst z. unfold PyStr.zfill, PyStr.len, chatlib.LENGTH_FIELD_LENGTH.
    rewrite Hlen.
    destruct (Nat.leb_spec 4 (ndigits (S n) n)) as [Hge|Hlt].
    - replace (4 - ndigits (S n) n) with 0 by lia. reflexivity.
    - destruct (PyStr.str_of_nat n) as [|c r] eqn:Hs;
        [cbn [String.length] in Hlen; lia|].
      cbn [PyStr.all_chars] in Hdec.
      apply andb_true_iff in Hdec as [Hc _].
      now rewrite (decimal_not_sign c Hc). }
  assert (Hall : PyStr.all_chars PyStr.isdecimal_char z = true).
  { rewrite Hz, all_chars_append, Hdec, all_chars_repeat; reflexivity. }
  assert (Hfour : String.length z = 4)
    by (rewrite Hz, length_append, length_repeat_char, Hlen; lia).
  repeat split.
  - exact Hfour.
  - exact Hall.
  - rewrite (int_decimal z Hall), Hz, int_digits_zeros; [apply Hint|].
    rewrite Hfour. apply Nat.leb_le. reflexivity.
Qed.

Lemma isdigit_decimal (z : string) :
  String.length z = 4 ->
  PyStr.all_chars PyStr.isdecimal_char z = true -> PyStr.isdigit z = true.
Proof.
  intros Hlen Hall. destruct z as [|c r]; [discriminate|].
  unfold PyStr.isdigit.
  apply (all_chars_weaken PyStr.isdecimal_char); [|exact Hall].
  intros d Hd. unfold PyStr.isdigit_char. now rewrite Hd.
Qed.

(** [parse_message] on a message cut at the header boundaries. *)
Lemma parse_message_frame (p c1 z c2 rest : string) :
  String.length p = 16 -> String.length c1 = 1 ->
  String.length z = 4 -> String.length c2 = 1 ->
  chatlib.parse_message (p ++ c1 ++ z ++ c2 ++ rest)
  = if negb (String.eqb c1 "|") then Ok None
    else if negb (String.eqb c2 "|") then Ok None
    else if negb (PyStr.isdigit z) then Ok None
    else
      match PyStr.int z with
      | None => Raise ValueError
      | Some msg_length =>
          let data := String.substring 0 (Z.to_nat msg_length) rest in
          if negb (Z.of_nat (String.length data) =? msg_length)%Z
          then Ok None
          else Ok (Some (PyStr.strip p, data))
      end.
Proof.
  intros Hp Hc1 Hz Hc2.
  do 16 (destruct p as [|? p]; [discriminate Hp|]).
  destruct p; [clear Hp | discriminate Hp].
  destruct c1 as [|x1 [|]]; try discriminate Hc1. clear Hc1.
  do 4 (destruct z as [|? z]; [discriminate Hz|]).
  destruct z; [clear Hz | discriminate Hz].
  destruct c2 as [|x2 [|]]; try discriminate Hc2. clear Hc2.
  unfold chatlib.parse_message.
  cbn -[PyStr.isdigit PyStr.int PyStr.strip Z.of_nat Z.to_nat Z.eqb
        String.eqb].
  unfold chatlib.DELIMITER.
  destruct (PyStr.int _) as [msg_length|]; [|reflexivity].
  now rewrite Nat.sub_0_r.
Qed.

Lemma parse_message_short (message : string) :
  String.length message < chatlib.MSG_HEADER_LENGTH ->
  chatlib.parse_message message = Ok None.
Proof.
  intros Hlt. unfold chatlib.parse_message, PyStr.len.
  destruct (Nat.ltb_spec (String.length message) chatlib.MSG_HEADER_LENGTH);
    [reflexivity | lia].
Qed.

Lemma build_message_ok (cmd data : string) :
  String.length cmd <= chatlib.CMD_FIELD_LENGTH ->
  String.length data <= chatlib.MAX_DATA_LENGTH ->
  ~ occurs "|" cmd -> ~ occurs "#" cmd ->
  chatlib.build_message cmd data
  = Some (PyStr.ljust cmd 16 ++ "|"
          ++ PyStr.zfill (PyStr.str_of_nat (String.length data)) 4
          ++ "|" ++ data).
Proof.
  intros Hc Hd Hbar Hhash. unfold chatlib.build_message, PyStr.len.
  destruct (Nat.ltb_spec chatlib.CMD_FIELD_LENGTH (String.length cmd));
    [lia|].
  destruct (Nat.ltb_spec chatlib.MAX_DATA_LENGTH (String.length data));
    [lia|].
  apply contains_char_false in Hbar, Hhash.
  unfold chatlib.DELIMITER, chatlib.DATA_DELIMITER.
  rewrite Hbar, Hhash. reflexivity.
Qed.

Lemma build_message_too_long (cmd data : string) :
  chatlib.MAX_DATA_LENGTH < String.length data ->
  chatlib.build_message cmd data = None.
Proof.
  intros Hlong. unfold chatlib.build_message, PyStr.len.
  destruct (Nat.ltb_spec chatlib.MAX_DATA_LENGTH (String.length data));
    [now rewrite orb_true_r | lia].
Qed.

(** A command without whitespace at its ends and data within the limits
    make a frame. *)
Lemma frame_of_built (code data : string) :
  String.length code <= chatlib.CMD_FIELD_LENGTH ->
  ~ occurs "|" code -> ~ occurs "#" code ->
  PyStr.strip code = code ->
  String.length data <= chatlib.MAX_DATA_LENGTH ->
  exists frame, frame_of code data frame.
Proof.
  intros Hc Hbar Hhash Hstrip Hd. unfold frame_of.
  eexists; split; [apply build_message_ok; assumption|].
  destruct (length_field (String.length data) Hd) as (Hzl & Hzd & Hzi).
  change chatlib.LENGTH_FIELD_LENGTH with 4 in Hzl, Hzd, Hzi.
  rewrite parse_message_frame;
    [| now apply length_ljust | reflexivity | exact Hzl | reflexivity].
  cbn [String.eqb Ascii.eqb Bool.eqb negb].
  rewrite (isdigit_decimal _ Hzl Hzd), Hzi. cbn [negb].
  rewrite Nat2Z.id, substring_0_all, Z.eqb_refl, strip_ljust, Hstrip.
  reflexivity.
Qed.

(** A response of the server is a frame exactly when its data has at
    most 9999 characters. *)
Lemma server_reply (code data : string) :
  In code server_commands ->
  (String.length data <= chatlib.MAX_DATA_LENGTH ->
   exists frame, frame_of code data frame)
  /\ (chatlib.MAX_DATA_LENGTH < String.length data ->
      chatlib.build_message code data = None).
Proof.
  intros Hin. split; [|apply build_message_too_long].
  intros Hd. unfold server_commands in Hin. cbn [In] in Hin.
  repeat (destruct Hin as [<-|Hin];
          [ apply frame_of_built;
            [ apply Nat.leb_le; reflexivity
            | unfold occurs; simpl; intuition discriminate
            | unfold occurs; simpl; intuition discriminate
            | reflexivity
            | exact Hd ] |]).
  destruct Hin.
Qed.

(** C5: [build_message] returns the error sentinel exactly when the
    command is longer than 16 characters, or the data longer than 9999,
    or the command contains ['|'] or ['#']. *)
Theorem build_message_error_iff (cmd data : string) :
  chatlib.build_message cmd data = None
  <-> (chatlib.CMD_FIELD_LENGTH < String.length cmd
       \/ chatlib.MAX_DATA_LENGTH < String.length data
       \/ occurs "|" cmd \/ occurs "#" cmd).
Proof.
  split.
  - intros Hnone.
    destruct (Nat.ltb_spec chatlib.CMD_FIELD_LENGTH (String.length cmd))
      as [|Hc]; [tauto|].
    destruct (Nat.ltb_spec chatlib.MAX_DATA_LENGTH (String.length data))
      as [|Hd]; [tauto|].
    destruct (PyStr.contains "|" cmd) eqn:Hbar;
      [apply contains_char in Hbar; tauto|].
    destruct (PyStr.contains "#" cmd) eqn:Hhash;
      [apply contains_char in Hhash; tauto|].
    apply contains_char_false in Hbar, Hhash.
    rewrite build_message_ok in Hnone by assumption. discriminate.
  - unfold chatlib.build_message, PyStr.len.
    intros [H | [H | [H | H]]].
    + destruct (Nat.ltb_spec chatlib.CMD_FIELD_LENGTH (String.length cmd));
        [reflexivity | lia].
    + destruct (Nat.ltb_spec chatlib.MAX_DATA_LENGTH (String.length data));
        [now rewrite orb_true_r | lia].
    + apply contains_char in H. unfold chatlib.DELIMITER. rewrite H.
      now destruct (_ || _)%bool.
    + apply contains_char in H. unfold chatlib.DATA_DELIMITER. rewrite H.
      rewrite orb_true_r. now destruct (_ || _)%bool.
Qed.

(** C1, as the code has it: for a command of at most 16 characters
    without ['|'] and ['#'] and a data string of at most 9999 characters,
    [build_message] succeeds and [parse_message] gives back the command
    stripped of leading and trailing whitespace, and the data. *)
Theorem parse_build_message (cmd data : string) :
  String.length cmd <= chatlib.CMD_FIELD_LENGTH ->
  ~ occurs "|" cmd -> ~ occurs "#" cmd ->
  String.length data <= chatlib.MAX_DATA_LENGTH ->
  exists msg,
    chatlib.build_message cmd data = Some msg
    /\ chatlib.parse_message msg = Ok (Some (PyStr.strip cmd, data)).
Proof.
  intros Hc Hbar Hhash Hd.
  eexists; split; [apply build_message_ok; assumption|].
  destruct (length_field (String.length data) Hd) as (Hzl & Hzd & Hzi).
  change chatlib.LENGTH_FIELD_LENGTH with 4 in Hzl, Hzd, Hzi.
  rewrite parse_message_frame;
    [| now apply length_ljust | reflexivity | exact Hzl | reflexivity].
  cbn [String.eqb Ascii.eqb Bool.eqb negb].
  rewrite (isdigit_decimal _ Hzl Hzd), Hzi. cbn [negb].
  rewrite Nat2Z.id, substring_0_all, Z.eqb_refl, strip_ljust.
  reflexivity.
Qed.

Lemma parse_build_message_witness :
  exists msg,
    chatlib.build_message "LOGIN" "yossi#123" = Some msg
    /\ chatlib.parse_message msg = Ok (Some ("LOGIN", "yossi#123")).
Proof.
  apply (parse_build_message "LOGIN" "yossi#123");
    [ apply Nat.leb_le; reflexivity
    | unfold occurs; simpl; intuition discriminate
    | unfold occurs; simpl; intuition discriminate
    | apply Nat.leb_le; vm_compute; reflexivity ].
Defined.

(** C1, as stated, fails for a command that starts with whitespace:
    the command [" A"] is within the limits, and what comes back is
    ["A"], not the command with its trailing spaces trimmed. *)
Lemma parse_build_message_leading_space :
  String.length " A" <= chatlib.CMD_FIELD_LENGTH
  /\ ~ occurs "|" " A" /\ ~ occurs "#" " A"
  /\ String.length "" <= chatlib.MAX_DATA_LENGTH
  /\ chatlib.build_message " A" "" = Some " A              |0000|"
  /\ chatlib.parse_message " A              |0000|" = Ok (Some ("A", ""))
  /\ trim_trailing_spaces " A" = " A"
  /\ ~ (exists msg,
          chatlib.build_message " A" "" = Some msg
          /\ chatlib.parse_message msg
             = Ok (Some (trim_trailing_spaces " A", ""))).
Proof.
  repeat split;
    try (apply Nat.leb_le; vm_compute; reflexivity);
    try (unfold occurs; simpl; intuition discriminate).
  intros (msg & Hb & Hp). vm_compute in Hb. inversion Hb; subst msg.
  vm_compute in Hp. discriminate Hp.
Qed.

(** C6, at the input where the code departs from it: a length field
    with a superscript digit passes [isdigit], and [int] then raises
    instead of the error pair being returned. *)
Theorem parse_message_superscript_digit :
  let message :=
    "LOGIN           |00" ++ String superscript_two "0|" in
  String.length message = 22
  /\ PyStr.isdigit (PyStr.slice message 17 21) = true
  /\ PyStr.int (PyStr.slice message 17 21) = None
  /\ chatlib.parse_message message = Raise ValueError.
Proof. repeat split. Qed.

End Codec.

(** * Dictionaries *)

Section DictFacts.
Context {K V : Type} `{Key K}.

Lemma key_eqb_refl (k : K) : key_eqb k k = true.
Proof. destruct (key_eqb_spec k k); congruence. Qed.

Lemma key_eqb_neq (k k' : K) : k <> k' -> key_eqb k k' = false.
Proof. intros Hne; destruct (key_eqb_spec k k'); congruence. Qed.

Lemma get_set_same (d : PyDict.dict K V) (k : K) (v : V) :
  PyDict.get (PyDict.set d k v) k = Some v.
Proof.
  induction d as [|[k' v'] d IH]; simpl.
  - now rewrite key_eqb_refl.
  - destruct (key_eqb k' k) eqn:E; simpl; rewrite E; auto.
Qed.

Lemma get_set_other (d : PyDict.dict K V) (k k' : K) (v : V) :
  k <> k' -> PyDict.get (PyDict.set d k v) k' = PyDict.get d k'.
Proof.
  intros Hne; induction d as [|[k0 v0] d IH]; simpl.
  - now rewrite key_eqb_neq.
  - destruct (key_eqb_spec k0 k) as [->|Hk]; simpl.
    + now rewrite key_eqb_neq.
    + now rewrite IH.
Qed.

Lemma in_values_set (d : PyDict.dict K V) (k : K) (v x : V) :
  In x (PyDict.values (PyDict.set d k v)) ->
  x = v \/ In x (PyDict.values d).
Proof.
  unfold PyDict.values; induction d as [|[k' v'] d IH]; simpl.
  - intuition.
  - destruct (key_eqb k' k); simpl; intuition.
Qed.

Lemma in_values_del (d : PyDict.dict K V) (k : K) (x : V) :
  In x (PyDict.values (PyDict.del d k)) -> In x (PyDict.values d).
Proof.
  unfold PyDict.values; induction d as [|[k' v'] d IH]; simpl.
  - intuition.
  - destruct (key_eqb k' k); simpl; intuition.
Qed.



Lemma in_keys_get (d : PyDict.dict K V) (k : K) :
  In k (PyDict.keys d) -> exists v, PyDict.get d k = Some v.
Proof.
  unfold PyDict.keys; induction d as [|[k' v'] d IH]; simpl; [tauto|].
  destruct (key_eqb_spec k' k); [eauto|].
  intros [Hk|Hin]; [congruence | auto].
Qed.

End DictFacts.

(** * The monad of the handlers *)

Section Preservation.

(** A relation between the state before and after, kept by every step. *)
Variable R : state -> state -> Prop.
Hypothesis R_refl : forall s, R s s.
Hypothesis R_trans : forall a b c, R a b -> R b c -> R a c.

Lemma preserves_ret {A : Type} (a : A) : preserves R (ret a).
Proof. intros s; apply R_refl. Qed.

Lemma preserves_raise {A : Type} (e : exn) : preserves R (@raise A e).
Proof. intros s; apply R_refl. Qed.

Lemma preserves_lift {A : Type} (r : result A) : preserves R (lift r).
Proof. intros s; apply R_refl. Qed.


Lemma preserves_bind {A B : Type} (m : M A) (k : A -> M B) :
  preserves R m -> (forall a, preserves R (k a)) -> preserves R (bind m k).
Proof.
  intros Hm Hk s. unfold bind. specialize (Hm s).
  destruct (m s) as [[a|e] s']; simpl in *; [|exact Hm].
  eapply R_trans; [exact Hm | apply Hk].
Qed.

Lemma preserves_gets_bind {A B : Type} (f : state -> A) (k : A -> M B) :
  (forall s, R s (snd (k (f s) s))) -> preserves R (bind (gets f) k).
Proof. intros Hk s. apply Hk. Qed.

Lemma preserves_try_except {A : Type} (m : M A) (h : exn -> M A) :
  preserves R m -> (forall e, preserves R (h e)) ->
  preserves R (try_except m h).
Proof.
  intros Hm Hh s. unfold try_except. specialize (Hm s).
  destruct (m s) as [[a|e] s']; simpl in *; [exact Hm|].
  eapply R_trans; [exact Hm | apply Hh].
Qed.

Lemma preserves_for_each {A : Type} (f : A -> M unit) (l : list A) :
  (forall x, preserves R (f x)) -> preserves R (for_each f l).
Proof.
  intros Hf; induction l as [|x l IH]; simpl.
  - apply preserves_ret.
  - apply preserves_bind; auto.
Qed.

End Preservation.

(** * The session store along the handlers *)

(** Walk through a handler with the lemmas above, for a relation that is
    reflexive ([Rrefl]) and transitive ([Rtrans]); handlers already dealt
    with are taken from the context. *)
Ltac preserve_with Rrefl Rtrans :=
  repeat
    (match goal with
     | |- preserves _ (ret _) => apply (preserves_ret _ Rrefl)
     | |- preserves _ (raise _) => apply (preserves_raise _ Rrefl)
     | |- preserves _ (lift _) => apply (preserves_lift _ Rrefl)
     | |- preserves _ (gets _) => intros ?; apply Rrefl
     | |- preserves _ (bind _ _) =>
         apply (preserves_bind _ Rtrans); [|intros ?]
     | |- preserves _ (try_except _ _) =>
         apply (preserves_try_except _ Rtrans); [|intros ?]
     | |- preserves _ (for_each _ _) =>
         apply (preserves_for_each _ Rrefl Rtrans); intros ?
     | |- preserves _ (match ?x with _ => _ end) => destruct x
     | H : preserves _ ?m |- preserves _ ?m => exact H
     | H : forall a, preserves _ (?m a) |- preserves _ (?m _) => apply H
     | H : forall a b, preserves _ (?m a b) |- preserves _ (?m _ _) =>
         apply H
     | H : forall a b c, preserves _ (?m a b c)
       |- preserves _ (?m _ _ _) => apply H
     | H : forall a b c d, preserves _ (?m a b c d)
       |- preserves _ (?m _ _ _ _) => apply H
     end).

Section Evolution.

Lemma evolves_refl (s : state) : evolves s s.
Proof.
  split; [intros u ud Hu; exists ud; split; [exact Hu | apply incl_refl]
         | intros u Hu; now left].
Qed.

Lemma evolves_trans (a b c : state) :
  evolves a b -> evolves b c -> evolves a c.
Proof.
  intros [Hab1 Hab2] [Hbc1 Hbc2]; split.
  - intros u ud Hu.
    destruct (Hab1 u ud Hu) as (ud' & Hu' & Hi).
    destruct (Hbc1 u ud' Hu') as (ud'' & Hu'' & Hi').
    exists ud''; split; [exact Hu'' | eapply incl_tran; eassumption].
  - intros u Hu.
    destruct (Hbc2 u Hu) as [Hb|Hc]; [|now right].
    destruct (Hab2 u Hb) as [Ha|(ud & Hud)]; [now left|].
    destruct (Hbc1 u ud Hud) as (ud' & Hud' & _). right; eauto.
Qed.

Lemma evolves_sessions_known (s s' : state) :
  evolves s s' -> sessions_known s -> sessions_known s'.
Proof.
  intros [H1 H2] Hinv u Hu.
  destruct (H2 u Hu) as [Hold|Hnew]; [|exact Hnew].
  destruct (Hinv u Hold) as (ud & Hud).
  destruct (H1 u ud Hud) as (ud' & Hud' & _). eauto.
Qed.

(** A state that differs in the queue and in the file only. *)
Lemma evolves_same (s s' : state) :
  users s' = users s -> logged_users s' = logged_users s -> evolves s s'.
Proof.
  intros Hu Hl; split.
  - intros u ud Hget. rewrite Hu. exists ud; split;
      [exact Hget | apply incl_refl].
  - intros u Hin. rewrite Hl in Hin. now left.
Qed.

Lemma evolves_set_user (s : state) (username : string) (old new : user) :
  PyDict.get (users s) username = Some old ->
  incl (questions_asked old) (questions_asked new) ->
  evolves s (set_users (PyDict.set (users s) username new) s).
Proof.
  intros Hold Hincl; split; simpl.
  - intros u ud Hu. destruct (String.eqb_spec username u) as [<-|Hne].
    + rewrite get_set_same. exists new; split; [reflexivity|].
      rewrite Hold in Hu. now injection Hu as <-.
    + rewrite get_set_other by exact Hne.
      exists ud; split; [exact Hu | apply incl_refl].
  - intros u Hu; now left.
Qed.

Ltac preserve := preserve_with evolves_refl evolves_trans.

Lemma build_and_send_message_evolves (conn : socket) (code data : string) :
  preserves evolves (build_and_send_message conn code data).
Proof. intros s. now apply evolves_same. Qed.

Lemma save_user_database_evolves : preserves evolves save_user_database.
Proof. intros s. now apply evolves_same. Qed.

Lemma handle_login_message_evolves (conn : socket) (data : string) :
  preserves evolves (handle_login_message conn data).
Proof.
  pose proof build_and_send_message_evolves as Hsend.
  unfold handle_login_message.
  destruct (chatlib.split_data data 2) as [[|username [|pass [|? ?]]]|];
    try (now preserve).
  apply preserves_gets_bind; intros s.
  destruct (PyDict.get (users s) username) as [udata|] eqn:Hu;
    [|apply Hsend].
  destruct (negb _); [apply Hsend|].
  destruct (getpeername conn) as [client_addr|]; [|apply evolves_refl].
  split; simpl.
  - intros u ud Hget; exists ud; split; [exact Hget | apply incl_refl].
  - intros u Hin. apply in_values_set in Hin as [->|Hin]; eauto.
Qed.

Lemma handle_logout_message_evolves (conn : socket) :
  preserves evolves (handle_logout_message conn).
Proof.
  pose proof save_user_database_evolves as Hsave.
  unfold handle_logout_message. preserve.
  intros s; split; simpl.
  - intros u ud Hget; exists ud; split; [exact Hget | apply incl_refl].
  - intros u Hin. left. eapply in_values_del, Hin.
Qed.

Lemma handle_getscore_message_evolves (conn : socket) (username : string) :
  preserves evolves (handle_getscore_message conn username).
Proof.
  pose proof build_and_send_message_evolves as Hsend.
  unfold handle_getscore_message. preserve.
Qed.

Lemma handle_highscore_message_evolves (conn : socket) :
  preserves evolves (handle_highscore_message conn).
Proof.
  pose proof build_and_send_message_evolves as Hsend.
  unfold handle_highscore_message. preserve.
Qed.

Lemma handle_logged_message_evolves (conn : socket) :
  preserves evolves (handle_logged_message conn).
Proof.
  pose proof build_and_send_message_evolves as Hsend.
  unfold handle_logged_message. preserve.
Qed.

Lemma create_random_question_evolves (username : string) (rnd : nat) :
  preserves evolves (create_random_question username rnd).
Proof. unfold create_random_question. preserve. Qed.

Lemma append_question_asked_evolves (username : string) (q_num : Z) :
  preserves evolves (append_question_asked username q_num).
Proof.
  unfold append_question_asked. apply preserves_gets_bind; intros s.
  unfold bind, lift, PyDict.getitem.
  destruct (PyDict.get (users s) username) as [udata|] eqn:Hu;
    [|apply evolves_refl].
  apply (evolves_set_user s username udata); [exact Hu|].
  simpl. apply incl_appl, incl_refl.
Qed.

Lemma add_score_evolves (username : string) (points : Z) :
  preserves evolves (add_score username points).
Proof.
  unfold add_score. apply preserves_gets_bind; intros s.
  unfold bind, lift, PyDict.getitem.
  destruct (PyDict.get (users s) username) as [udata|] eqn:Hu;
    [|apply evolves_refl].
  apply (evolves_set_user s username udata); [exact Hu|].
  simpl. apply incl_refl.
Qed.

Lemma handle_question_message_evolves (conn : socket) (username : string)
  (rnd : nat) :
  preserves evolves (handle_question_message conn username rnd).
Proof.
  pose proof build_and_send_message_evolves as Hsend.
  pose proof save_user_database_evolves as Hsave.
  pose proof create_random_question_evolves as Hcreate.
  pose proof append_question_asked_evolves as Happend.
  unfold handle_question_message. preserve.
Qed.

Lemma handle_answer_message_evolves (conn : socket)
  (username data : string) :
  preserves evolves (handle_answer_message conn username data).
Proof.
  pose proof build_and_send_message_evolves as Hsend.
  pose proof add_score_evolves as Hadd.
  unfold handle_answer_message. preserve.
Qed.

Lemma handle_client_message_evolves (conn : socket) (cmd data : string)
  (rnd : nat) :
  preserves evolves (handle_client_message conn cmd data rnd).
Proof.
  pose proof build_and_send_message_evolves as Hsend.
  pose proof handle_login_message_evolves as Hlogin.
  pose proof handle_logout_message_evolves as Hlogout.
  pose proof handle_getscore_message_evolves as Hscore.
  pose proof handle_highscore_message_evolves as Hhigh.
  pose proof handle_logged_message_evolves as Hlogged.
  pose proof handle_question_message_evolves as Hquestion.
  pose proof handle_answer_message_evolves as Hanswer.
  unfold handle_client_message. preserve.
Qed.

Lemma client_turn_evolves (sock : socket) (received : result string)
  (rnd : nat) :
  preserves evolves (client_turn sock received rnd).
Proof.
  pose proof build_and_send_message_evolves as Hsend.
  pose proof handle_logout_message_evolves as Hlogout.
  pose proof handle_client_message_evolves as Hclient.
  unfold client_turn. preserve.
Qed.

Lemma send_queued_messages_evolves (tracked : socket -> bool)
  (send_raises : socket -> string -> bool) :
  preserves evolves (send_queued_messages tracked send_raises).
Proof.
  pose proof handle_logout_message_evolves as Hlogout.
  unfold send_queued_messages. preserve.
  - intros s. now apply evolves_same.
  - unfold send_queued. preserve.
Qed.

Lemma step_evolves (e : event) (s : state) : evolves s (step e s).
Proof.
  destruct e as [sock received rnd | tracked send_raises]; simpl.
  - apply client_turn_evolves.
  - apply send_queued_messages_evolves.
Qed.

Lemma run_evolves (es : list event) (s : state) : evolves s (run es s).
Proof.
  revert s; induction es as [|e es IH]; intros s; simpl.
  - apply evolves_refl.
  - eapply evolves_trans; [apply step_evolves | apply IH].
Qed.

End Evolution.

(** * Splitting the data field *)

Section Split.

Lemma split_nonempty (sep : ascii) (s : string) : PyStr.split sep s <> [].
Proof.
  destruct s as [|c r]; simpl; [discriminate|].
  destruct (Ascii.eqb c sep); [discriminate|].
  destruct (PyStr.split sep r); discriminate.
Qed.

Lemma occurs_cons (c d : ascii) (s : string) :
  occurs c (String d s) <-> d = c \/ occurs c s.
Proof. reflexivity. Qed.

Lemma split_without_sep (sep : ascii) (s : string) :
  ~ occurs sep s -> PyStr.split sep s = [s].
Proof.
  induction s as [|c r IH]; simpl; [reflexivity|].
  intros Hno. rewrite occurs_cons in Hno.
  destruct (Ascii.eqb_spec c sep) as [->|Hne]; [tauto|].
  rewrite IH by tauto. reflexivity.
Qed.

Lemma split_append (sep : ascii) (a b : string) :
  ~ occurs sep a ->
  PyStr.split sep (a ++ String sep b) = a :: PyStr.split sep b.
Proof.
  induction a as [|c r IH]; simpl; intros Hno.
  - now rewrite Ascii.eqb_refl.
  - rewrite occurs_cons in Hno.
    destruct (Ascii.eqb_spec c sep) as [->|Hne]; [tauto|].
    rewrite IH by tauto. reflexivity.
Qed.

Lemma split_one_field (sep : ascii) (s b : string) :
  PyStr.split sep s = [b] -> s = b /\ ~ occurs sep s.
Proof.
  revert b; induction s as [|c r IH]; simpl; intros b.
  - intros [= <-]. split; [reflexivity | intros []].
  - destruct (Ascii.eqb_spec c sep) as [->|Hne].
    + intros [= _ Hnil]. now apply split_nonempty in Hnil.
    + destruct (PyStr.split sep r) as [|f fs] eqn:Hr;
        [now apply split_nonempty in Hr|].
      intros [= <- ->]. destruct (IH f eq_refl) as [-> Hno].
      split; [reflexivity|]. rewrite occurs_cons. tauto.
Qed.

Lemma split_two_fields (sep : ascii) (s a b : string) :
  PyStr.split sep s = [a; b] ->
  s = a ++ String sep b /\ ~ occurs sep a /\ ~ occurs sep b.
Proof.
  revert a; induction s as [|c r IH]; simpl; intros a; [discriminate|].
  destruct (Ascii.eqb_spec c sep) as [->|Hne].
  - intros [= <- Hr]. destruct (split_one_field _ _ _ Hr) as [-> Hno].
    repeat split; [intros [] | exact Hno].
  - destruct (PyStr.split sep r) as [|f fs] eqn:Hr; [discriminate|].
    intros [= <- ->]. destruct (IH f eq_refl) as (-> & Hf & Hb).
    repeat split; [|exact Hb]. rewrite occurs_cons. tauto.
Qed.

(** The [try] block of [handle_answer_message] succeeds exactly on two
    integers joined by ['#']. *)
Lemma parse_answer_spec (data : string) (q_num user_ans : Z) :
  parse_answer data = Some (q_num, user_ans)
  <-> answer_data data q_num user_ans.
Proof.
  unfold parse_answer, answer_data; split.
  - destruct (PyStr.split "#" data) as [|a [|b [|? ?]]] eqn:Hs;
      try discriminate.
    destruct (PyStr.int a) as [q|] eqn:Ha; [|discriminate].
    destruct (PyStr.int b) as [u|] eqn:Hb; [|discriminate].
    intros [= <- <-].
    destruct (split_two_fields _ _ _ _ Hs) as (-> & Hna & Hnb).
    exists a, b. repeat split; assumption.
  - intros (a & b & -> & Hna & Hnb & Ha & Hb).
    change (a ++ "#" ++ b) with (a ++ String "#" b).
    rewrite split_append, split_without_sep by assumption.
    now rewrite Ha, Hb.
Qed.

Lemma parse_answer_none (data : string) :
  parse_answer data = None
  <-> forall q_num user_ans, ~ answer_data data q_num user_ans.
Proof.
  split.
  - intros Hnone q u Hd. apply parse_answer_spec in Hd. congruence.
  - intros Hno. destruct (parse_answer data) as [[q u]|] eqn:Hp;
      [|reflexivity].
    apply parse_answer_spec in Hp. now apply Hno in Hp.
Qed.

End Split.

(** * Answers *)

(** Unfold the monad operations at the head of a handler. *)
Ltac run_monad :=
  cbv beta iota zeta
    delta [bind gets lift modify ret raise try_except add_score
           append_question_asked build_and_send_message
           save_user_database PyDict.getitem].

Section Answers.

Local Arguments chatlib.build_message : simpl never.

Lemma list_getitem_in_range {A : Type} (l : list A) (i : Z) :
  (0 <= i < Z.of_nat (List.length l))%Z ->
  exists x, nth_error l (Z.to_nat i) = Some x /\ list_getitem l i = Ok x.
Proof.
  intros Hi. unfold list_getitem.
  destruct (Z.ltb_spec i 0); [lia|].
  destruct (Z.ltb_spec i 0); [lia|].
  destruct (Z.leb_spec (Z.of_nat (List.length l)) i); [lia|]. simpl.
  destruct (nth_error l (Z.to_nat i)) as [x|] eqn:Hx; [eauto|].
  apply nth_error_None in Hx. lia.
Qed.

(** SEND_ANSWER from a logged-in connection goes to the answer handler. *)
Lemma dispatch_send_answer (s : state) (conn : socket)
  (client_addr : address) (username data : string) (rnd : nat) :
  getpeername conn = Some client_addr ->
  PyDict.get (logged_users s) client_addr = Some username ->
  handle_client_message conn chatlib.sendanswer_msg data rnd s
  = bind (handle_answer_message conn username data) (fun _ => ret true) s.
Proof.
  intros Hpeer Hlogged. unfold handle_client_message.
  rewrite Hpeer. unfold bind at 1, gets. now rewrite Hlogged.
Qed.

Lemma handle_answer_message_correct (s : state) (conn : socket)
  (username data : string) (udata : user) (q_num : Z)
  (q_data : question_data) :
  PyDict.get (users s) username = Some udata ->
  parse_answer data = Some (q_num, correct q_data) ->
  PyDict.get (questions s) q_num = Some q_data ->
  handle_answer_message conn username data s
  = (Ok tt,
     set_messages_to_send
       (messages_to_send s
        ++ [(conn, chatlib.build_message chatlib.correct_msg "5")])%list
       (set_users
          (PyDict.set (users s) username
             (mkUser (password udata) (score udata + 5)
                (questions_asked udata))) s)).
Proof.
  intros Hu Hp Hq. unfold handle_answer_message. rewrite Hp.
  run_monad. rewrite Hq, Z.eqb_refl. run_monad. now rewrite Hu.
Qed.

Lemma handle_answer_message_wrong (s : state) (conn : socket)
  (username data : string) (q_num user_ans : Z) (q_data : question_data) :
  parse_answer data = Some (q_num, user_ans) ->
  PyDict.get (questions s) q_num = Some q_data ->
  user_ans <> correct q_data ->
  (1 <= correct q_data <= Z.of_nat (List.length (answers q_data)))%Z ->
  exists correct_text,
    nth_error (answers q_data) (Z.to_nat (correct q_data - 1))
    = Some correct_text
    /\ handle_answer_message conn username data s
       = (Ok tt,
          set_messages_to_send
            (messages_to_send s
             ++ [(conn,
                  chatlib.build_message chatlib.wrong_msg
                    (PyStr.str_of_Z (correct q_data) ++ ","
                     ++ correct_text))])%list s).
Proof.
  intros Hp Hq Hne Hrange.
  destruct (list_getitem_in_range (answers q_data) (correct q_data - 1))
    as (text & Hnth & Hget); [lia|].
  exists text; split; [exact Hnth|].
  unfold handle_answer_message. rewrite Hp.
  run_monad. rewrite Hq.
  destruct (Z.eqb_spec user_ans (correct q_data)); [contradiction|].
  run_monad. now rewrite Hget.
Qed.

(** [handle_answer_message] never writes [users.txt]. *)
Lemma handle_answer_message_users_txt (s : state) (conn : socket)
  (username data : string) :
  users_txt (snd (handle_answer_message conn username data s))
  = users_txt s.
Proof.
  unfold handle_answer_message.
  destruct (parse_answer data) as [[q_num user_ans]|]; [|reflexivity].
  run_monad.
  destruct (PyDict.get (questions s) q_num) as [q_data|]; [|reflexivity].
  destruct (user_ans =? correct q_data)%Z; run_monad.
  - destruct (PyDict.get (users s) username); reflexivity.
  - destruct (list_getitem _ _); reflexivity.
Qed.

(** The text of a WRONG_ANSWER response that does not fit in a frame:
    what is queued for the connection is no message. *)
Lemma handle_answer_message_wrong_long (s : state) (conn : socket)
  (username data : string) (q_num user_ans : Z) (q_data : question_data)
  (correct_text : string) :
  parse_answer data = Some (q_num, user_ans) ->
  PyDict.get (questions s) q_num = Some q_data ->
  user_ans <> correct q_data ->
  (1 <= correct q_data <= Z.of_nat (List.length (answers q_data)))%Z ->
  nth_error (answers q_data) (Z.to_nat (correct q_data - 1))
  = Some correct_text ->
  chatlib.MAX_DATA_LENGTH
  < String.length (PyStr.str_of_Z (correct q_data)) + 1
    + String.length correct_text ->
  handle_answer_message conn username data s
  = (Ok tt,
     set_messages_to_send (messages_to_send s ++ [(conn, None)])%list s).
Proof.
  intros Hp Hq Hne Hrange Hnth Hlong.
  destruct (handle_answer_message_wrong s conn username data q_num
              user_ans q_data Hp Hq Hne Hrange) as (text & Hnth' & Hrun).
  rewrite Hnth in Hnth'. injection Hnth' as <-.
  rewrite Hrun, build_message_too_long; [reflexivity|].
  rewrite !length_append. cbn [String.length]. lia.
Qed.

(** C3: SEND_ANSWER from an authenticated user for a question of the
    bank whose correct index is a position of its answers, with data
    [id#choice].  When the choice is the stored correct index, the score
    of the user grows by exactly 5 and the response is the CORRECT_ANSWER
    frame.  With any other choice the users are unchanged, and what is
    queued is what [build_message] makes of WRONG_ANSWER, the correct
    index and the text of the correct answer: a WRONG_ANSWER frame with
    that index and that text, provided the two fit in the 9999
    characters of a data field. *)
Theorem send_answer_correct_or_wrong (s : state) (conn : socket)
  (client_addr : address) (username data : string) (udata : user)
  (q_num user_ans : Z) (q_data : question_data) (rnd : nat) :
  getpeername conn = Some client_addr ->
  PyDict.get (logged_users s) client_addr = Some username ->
  PyDict.get (users s) username = Some udata ->
  answer_data data q_num user_ans ->
  PyDict.get (questions s) q_num = Some q_data ->
  (1 <= correct q_data <= Z.of_nat (List.length (answers q_data)))%Z ->
  let r := handle_client_message conn chatlib.sendanswer_msg data rnd s in
  (user_ans = correct q_data ->
     fst r = Ok true
     /\ PyDict.get (users (snd r)) username
        = Some (mkUser (password udata) (score udata + 5)
                  (questions_asked udata))
     /\ (forall other, other <> username ->
           PyDict.get (users (snd r)) other = PyDict.get (users s) other)
     /\ messages_to_send (snd r)
        = (messages_to_send s
           ++ [(conn, Some "CORRECT_ANSWER  |0001|5")])%list
     /\ frame_of "CORRECT_ANSWER" "5" "CORRECT_ANSWER  |0001|5")
  /\ (user_ans <> correct q_data ->
        exists correct_text,
          nth_error (answers q_data) (Z.to_nat (correct q_data - 1))
          = Some correct_text
          /\ fst r = Ok true
          /\ users (snd r) = users s
          /\ messages_to_send (snd r)
             = (messages_to_send s
                ++ [(conn,
                     chatlib.build_message "WRONG_ANSWER"
                       (PyStr.str_of_Z (correct q_data) ++ ","
                        ++ correct_text))])%list
          /\ (String.length
                (PyStr.str_of_Z (correct q_data) ++ "," ++ correct_text)
              <= chatlib.MAX_DATA_LENGTH ->
              exists frame,
                frame_of "WRONG_ANSWER"
                  (PyStr.str_of_Z (correct q_data) ++ "," ++ correct_text)
                  frame
                /\ messages_to_send (snd r)
                   = (messages_to_send s ++ [(conn, Some frame)])%list)).
Proof.
  intros Hpeer Hlogged Hu Hd Hq Hrange r. subst r.
  apply parse_answer_spec in Hd.
  rewrite (dispatch_send_answer s conn client_addr username data rnd)
    by assumption.
  split.
  - intros ->. unfold bind.
    rewrite (handle_answer_message_correct s conn username data udata
               q_num q_data) by assumption.
    cbn [fst snd ret users messages_to_send set_messages_to_send
         set_users].
    repeat split.
    + apply get_set_same.
    + intros other Hne. apply get_set_other. congruence.
  - intros Hne.
    destruct (handle_answer_message_wrong s conn username data q_num
                user_ans q_data Hd Hq Hne Hrange) as (text & Hnth & Hrun).
    exists text. unfold bind. rewrite Hrun.
    cbn [fst snd ret users messages_to_send set_messages_to_send].
    repeat split; [exact Hnth|].
    intros Hfits.
    destruct (server_reply "WRONG_ANSWER"
                (PyStr.str_of_Z (correct q_data) ++ "," ++ text))
      as [Hframe _]; [unfold server_commands; simpl; tauto|].
    destruct (Hframe Hfits) as (frame & Hbuilt & Hparsed).
    exists frame. split; [split; assumption|].
    change chatlib.wrong_msg with "WRONG_ANSWER". now rewrite Hbuilt.
Qed.

Lemma send_answer_correct_or_wrong_witness :
  (let r :=
     handle_client_message yossi_sock "SEND_ANSWER" "1#2" 0
       yossi_logged_in in
   PyDict.get (users (snd r)) "yossi" = Some (mkUser "123" 55 [])
   /\ messages_to_send (snd r)
      = [(yossi_sock, Some "CORRECT_ANSWER  |0001|5")])
  /\ (let r :=
        handle_client_message yossi_sock "SEND_ANSWER" "1#3" 0
          yossi_logged_in in
      users (snd r) = users yossi_logged_in
      /\ exists frame,
           frame_of "WRONG_ANSWER" "2,4" frame
           /\ messages_to_send (snd r) = [(yossi_sock, Some frame)]).
Proof.
  split.
  - destruct (send_answer_correct_or_wrong yossi_logged_in yossi_sock
                yossi_addr "yossi" "1#2" (mkUser "123" 50 []) 1 2
                (mkQuestion "2 + 2 = ?" ["3"; "4"; "5"; "22"] 2) 0)
      as [Hcorrect _];
      [ reflexivity | reflexivity | reflexivity
      | exists "1", "2"; unfold occurs; simpl; intuition discriminate
      | reflexivity | simpl; lia | ].
    destruct (Hcorrect eq_refl) as (_ & Hscore & _ & Hqueue & _).
    split; [exact Hscore | exact Hqueue].
  - destruct (send_answer_correct_or_wrong yossi_logged_in yossi_sock
                yossi_addr "yossi" "1#3" (mkUser "123" 50 []) 1 3
                (mkQuestion "2 + 2 = ?" ["3"; "4"; "5"; "22"] 2) 0)
      as [_ Hwrong];
      [ reflexivity | reflexivity | reflexivity
      | exists "1", "3"; unfold occurs; simpl; intuition discriminate
      | reflexivity | simpl; lia | ].
    destruct (Hwrong ltac:(discriminate))
      as (text & Hnth & _ & Husers & _ & Hframe).
    injection Hnth as <-.
    split; [exact Husers|].
    apply Hframe. apply Nat.leb_le. vm_compute. reflexivity.
Defined.

(** C3, as stated, fails for a question whose correct answer is a long
    text.  yossi is logged in, question 1 is in the bank with correct
    index 1, and the choice 2 is another index in [1,4]; the text of the
    response has 10002 characters, [build_message] fails, and what the
    server queues for yossi is no message: no WRONG_ANSWER is sent, and
    the sending phase that follows logs yossi out. *)
Lemma send_answer_wrong_long_text :
  let s := yossi_long_answer in
  let r := handle_client_message yossi_sock "SEND_ANSWER" "1#2" 0 s in
  PyDict.get (logged_users s) yossi_addr = Some "yossi"
  /\ PyDict.get (questions s) 1%Z = Some long_answer_question
  /\ answer_data "1#2" 1 2
  /\ (1 <= 2 <= 4)%Z /\ 2%Z <> correct long_answer_question
  /\ r = (Ok true, queued s yossi_sock None)
  /\ ~ (exists frame,
          messages_to_send (snd r) = [(yossi_sock, Some frame)])
  /\ logged_users
       (snd (send_queued_messages (fun _ => true) (fun _ _ => false)
               (snd r)))
     = [].
Proof.
  intros s r.
  assert (Hrun : r = (Ok true, queued s yossi_sock None)).
  { subst r s. change "SEND_ANSWER" with chatlib.sendanswer_msg.
    rewrite (dispatch_send_answer yossi_long_answer yossi_sock yossi_addr
               "yossi" "1#2" 0) by reflexivity.
    unfold bind.
    rewrite (handle_answer_message_wrong_long yossi_long_answer yossi_sock
               "yossi" "1#2" 1 2 long_answer_question
               (PyStr.repeat_char "a" (10 ^ 4)));
      [ reflexivity | reflexivity | reflexivity | discriminate
      | unfold long_answer_question; cbn [correct answers List.length]; lia
      | reflexivity | ].
    rewrite length_repeat_char.
    change (String.length (PyStr.str_of_Z (correct long_answer_question)))
      with 1.
    unfold chatlib.MAX_DATA_LENGTH.
    change chatlib.LENGTH_FIELD_LENGTH with 4. lia. }
  split; [reflexivity|]. split; [reflexivity|].
  split; [exists "1", "2"; unfold occurs; simpl; intuition discriminate|].
  split; [lia|]. split; [discriminate|]. split; [exact Hrun|].
  rewrite Hrun. split; [|reflexivity].
  intros (frame & Hframe). discriminate Hframe.
Qed.

(** C7: SEND_ANSWER from an authenticated user whose data is not two
    integers joined by ['#'], or whose question id is not in the bank,
    gets an ERROR response, and nothing but the queue changes. *)
Theorem send_answer_error (s : state) (conn : socket)
  (client_addr : address) (username data : string) (rnd : nat) :
  getpeername conn = Some client_addr ->
  PyDict.get (logged_users s) client_addr = Some username ->
  (forall q_num user_ans, ~ answer_data data q_num user_ans)
  \/ (exists q_num user_ans,
        answer_data data q_num user_ans
        /\ PyDict.get (questions s) q_num = None) ->
  exists text frame,
    chatlib.build_message "ERROR" text = Some frame
    /\ chatlib.parse_message frame = Ok (Some ("ERROR", text))
    /\ handle_client_message conn chatlib.sendanswer_msg data rnd s
       = (Ok true,
          set_messages_to_send
            (messages_to_send s ++ [(conn, Some frame)])%list s)
    /\ users (snd (handle_client_message conn chatlib.sendanswer_msg
                     data rnd s))
       = users s.
Proof.
  intros Hpeer Hlogged Hbad.
  rewrite (dispatch_send_answer s conn client_addr username data rnd)
    by assumption.
  unfold bind, handle_answer_message.
  destruct Hbad as [Hno | (q_num & user_ans & Hd & Hq)].
  - apply parse_answer_none in Hno. rewrite Hno.
    exists "Invalid answer format",
      "ERROR           |0021|Invalid answer format".
    repeat split.
  - apply parse_answer_spec in Hd. rewrite Hd.
    exists "Question does not exist",
      "ERROR           |0023|Question does not exist".
    run_monad. rewrite Hq. repeat split.
Qed.

Lemma send_answer_error_witness :
  exists text frame,
    chatlib.build_message "ERROR" text = Some frame
    /\ chatlib.parse_message frame = Ok (Some ("ERROR", text))
    /\ handle_client_message yossi_sock chatlib.sendanswer_msg "1#two" 0
         yossi_logged_in
       = (Ok true,
          set_messages_to_send
            (messages_to_send yossi_logged_in
             ++ [(yossi_sock, Some frame)])%list yossi_logged_in)
    /\ users (snd (handle_client_message yossi_sock
                     chatlib.sendanswer_msg "1#two" 0 yossi_logged_in))
       = users yossi_logged_in.
Proof.
  apply (send_answer_error yossi_logged_in yossi_sock yossi_addr "yossi"
           "1#two" 0); [reflexivity | reflexivity |].
  left. apply parse_answer_none. reflexivity.
Defined.

End Answers.

(** * Repeated answers and persistence *)

Section Scoring.

Local Arguments chatlib.build_message : simpl never.

(** C9: the answer handler does not look at the asked history.  Whatever
    the history of the user, each correct SEND_ANSWER for a question of
    the bank adds 5 points, the first time and on every repetition. *)
Theorem repeated_correct_answer (rnds : list nat) (s : state)
  (conn : socket) (client_addr : address) (username data : string)
  (udata : user) (q_num : Z) (q_data : question_data) :
  getpeername conn = Some client_addr ->
  PyDict.get (logged_users s) client_addr = Some username ->
  PyDict.get (users s) username = Some udata ->
  answer_data data q_num (correct q_data) ->
  PyDict.get (questions s) q_num = Some q_data ->
  PyDict.get (users (answer_times rnds conn data s)) username
  = Some (mkUser (password udata)
            (score udata + 5 * Z.of_nat (List.length rnds))
            (questions_asked udata)).
Proof.
  intros Hpeer Hlogged Hu Hd Hq. apply parse_answer_spec in Hd.
  revert s udata Hlogged Hu Hq.
  induction rnds as [|rnd rnds IH]; intros s udata Hlogged Hu Hq.
  - simpl. rewrite Hu. destruct udata; simpl. do 2 f_equal. lia.
  - unfold answer_times in *. cbn [fold_left].
    rewrite (dispatch_send_answer s conn client_addr username data rnd)
      by assumption.
    unfold bind at 1.
    rewrite (handle_answer_message_correct s conn username data udata
               q_num q_data) by assumption.
    cbn [snd ret].
    rewrite (IH _ (mkUser (password udata) (score udata + 5)
                     (questions_asked udata)));
      [| exact Hlogged | apply get_set_same | exact Hq ].
    cbn [password score questions_asked List.length].
    do 2 f_equal. lia.
Qed.

Lemma repeated_correct_answer_witness :
  ~ In 1%Z (questions_asked (mkUser "123" 50 []))
  /\ PyDict.get
       (users (answer_times [0; 0; 0] yossi_sock "1#2" yossi_logged_in))
       "yossi"
     = Some (mkUser "123" 65 []).
Proof.
  split; [intros [] |].
  apply (repeated_correct_answer [0; 0; 0] yossi_logged_in yossi_sock
           yossi_addr "yossi" "1#2" (mkUser "123" 50 []) 1
           (mkQuestion "2 + 2 = ?" ["3"; "4"; "5"; "22"] 2));
    [ reflexivity | reflexivity | reflexivity
    | exists "1", "2"; unfold occurs; simpl; intuition discriminate
    | reflexivity ].
Defined.

(** A literal of more digits than [int] converts is not an answer: the
    data is a legal data field, [int] raises, and the response is the
    ERROR for an invalid answer format, with the users unchanged. *)
Example send_answer_over_limit :
  let data := "1#" ++ PyStr.repeat_char "0" 4400 ++ "2" in
  String.length data <= chatlib.MAX_DATA_LENGTH
  /\ parse_answer data = None
  /\ handle_client_message yossi_sock "SEND_ANSWER" data 0 yossi_logged_in
     = (Ok true,
        queued yossi_logged_in yossi_sock
          (Some "ERROR           |0021|Invalid answer format")).
Proof.
  intros data. split; [apply Nat.leb_le; vm_compute; reflexivity|].
  split; vm_compute; reflexivity.
Qed.

(** C4, on the code: the answer handler never writes [users.txt].  After
    yossi's correct answer the score in memory is 55 and the file still
    has the line with 50. *)
Theorem send_answer_not_saved :
  (forall s conn username data,
      users_txt (snd (handle_answer_message conn username data s))
      = users_txt s)
  /\ let s' :=
       snd (handle_client_message yossi_sock "SEND_ANSWER" "1#2" 0
              yossi_logged_in) in
     PyDict.get (users s') "yossi" = Some (mkUser "123" 55 [])
     /\ users_txt s' = users_txt yossi_logged_in
     /\ hd_error (users_txt s')
        = Some ("test,test,0," ++ newline ++ "yossi,123,50," ++ newline
                ++ "master,master,200," ++ newline)
     /\ hd_error (users_txt s') <> Some (users_file (users s')).
Proof.
  split; [exact handle_answer_message_users_txt|].
  repeat split. discriminate.
Qed.

(** C2, on the code: when the user has been asked every question of the
    bank, the response to GET_QUESTION is an ERROR message with the text
    "No more questions available"; NO_QUESTIONS is not sent. *)
Theorem get_question_exhausted_sends_error :
  forall rnd,
    handle_client_message yossi_sock "GET_QUESTION" "" rnd yossi_exhausted
    = (Ok true,
       set_messages_to_send
         [(yossi_sock,
           Some "ERROR           |0027|No more questions available")]
         yossi_exhausted)
    /\ chatlib.parse_message
         "ERROR           |0027|No more questions available"
       = Ok (Some (chatlib.error_msg, "No more questions available"))
    /\ chatlib.error_msg <> chatlib.noquestions_msg.
Proof. intros rnd. repeat split. discriminate. Qed.

End Scoring.

(** * Questions *)

Section Questions.

Local Arguments chatlib.build_message : simpl never.

Lemma Z_in_spec (z : Z) (l : list Z) : Z_in z l = true <-> In z l.
Proof.
  unfold Z_in. rewrite existsb_exists. split.
  - intros (x & Hin & Heq). apply Z.eqb_eq in Heq. now subst.
  - intros Hin. exists z. split; [exact Hin | apply Z.eqb_refl].
Qed.

Lemma Z_in_false (z : Z) (l : list Z) : Z_in z l = false <-> ~ In z l.
Proof.
  rewrite <- Z_in_spec. destruct (Z_in z l); split; congruence.
Qed.

Lemma random_choice_in {A : Type} (rnd : nat) (seq : list A) :
  seq <> [] -> exists x, random_choice rnd seq = Ok x /\ In x seq.
Proof.
  intros Hne. unfold random_choice.
  assert (Hlt : rnd mod List.length seq < List.length seq).
  { apply Nat.mod_upper_bound. destruct seq; [congruence | discriminate]. }
  destruct (nth_error seq (rnd mod List.length seq)) as [x|] eqn:Hx.
  - exists x; split; [reflexivity | eapply nth_error_In, Hx].
  - apply nth_error_None in Hx. lia.
Qed.

(** What [create_random_question] returns for a user of the users
    mapping: nothing when every question id of the bank is in the asked
    history, or else a question of the bank whose id is not in it.  It
    does not raise and does not change the state. *)
Lemma create_random_question_spec (s : state) (username : string)
  (udata : user) (rnd : nat) :
  PyDict.get (users s) username = Some udata ->
  (create_random_question username rnd s = (Ok None, s)
   /\ forall q_num, In q_num (PyDict.keys (questions s)) ->
                    In q_num (questions_asked udata))
  \/ (exists q_num q_data,
        create_random_question username rnd s
        = (Ok (Some (question_payload q_num q_data, q_num)), s)
        /\ PyDict.get (questions s) q_num = Some q_data
        /\ ~ In q_num (questions_asked udata)).
Proof.
  intros Hu. unfold create_random_question. run_monad.
  destruct (questions s) as [|kv qs] eqn:Hqs.
  - left; split; [reflexivity | intros q []].
  - rewrite Hu.
    set (avail := filter _ _).
    destruct avail as [|a av] eqn:Hav.
    + left; split; [reflexivity|]. intros q Hin.
      destruct (Z_in q (questions_asked udata)) eqn:Hq;
        [now apply Z_in_spec|].
      assert (Hf : In q avail)
        by (apply filter_In; split; [exact Hin | now rewrite Hq]).
      rewrite Hav in Hf. destruct Hf.
    + right.
      destruct (random_choice_in rnd (a :: av)) as (q & Hq & Hin);
        [discriminate|].
      rewrite Hq. rewrite <- Hav in Hin. apply filter_In in Hin as [Hk Hna].
      apply negb_true_iff, Z_in_false in Hna.
      destruct (in_keys_get (kv :: qs) q Hk) as (q_data & Hget).
      exists q, q_data. rewrite Hget. repeat split; assumption.
Qed.

(** GET_QUESTION from a logged-in connection goes to the question
    handler. *)
Lemma dispatch_get_question (s : state) (conn : socket)
  (client_addr : address) (username data : string) (rnd : nat) :
  getpeername conn = Some client_addr ->
  PyDict.get (logged_users s) client_addr = Some username ->
  handle_client_message conn chatlib.getquestion_msg data rnd s
  = bind (handle_question_message conn username rnd) (fun _ => ret true) s.
Proof.
  intros Hpeer Hlogged. unfold handle_client_message.
  rewrite Hpeer. unfold bind at 1, gets. now rewrite Hlogged.
Qed.

(** The state after a question has been issued. *)
Lemma handle_question_message_issues (s : state) (conn : socket)
  (username question_str : string) (udata : user) (q_num : Z)
  (rnd : nat) :
  PyDict.get (users s) username = Some udata ->
  create_random_question username rnd s
  = (Ok (Some (question_str, q_num)), s) ->
  let users' :=
    PyDict.set (users s) username
      (mkUser (password udata) (score udata)
         (questions_asked udata ++ [q_num])) in
  handle_question_message conn username rnd s
  = (Ok tt,
     mkState users' (questions s) (logged_users s)
       (messages_to_send s
        ++ [(conn, chatlib.build_message "YOUR_QUESTION" question_str)])
       (users_file users' :: users_txt s)).
Proof.
  intros Hu Hc users'. unfold handle_question_message.
  unfold bind at 1. rewrite Hc. run_monad. now rewrite Hu.
Qed.

Lemma handle_question_message_exhausted (s : state) (conn : socket)
  (username : string) (rnd : nat) :
  create_random_question username rnd s = (Ok None, s) ->
  handle_question_message conn username rnd s
  = (Ok tt,
     set_messages_to_send
       (messages_to_send s
        ++ [(conn,
             chatlib.build_message "ERROR" "No more questions available")])
       s).
Proof.
  intros Hc. unfold handle_question_message.
  unfold bind at 1. now rewrite Hc.
Qed.

Lemma asked_evolves (s s' : state) (username : string) (q_num : Z) :
  evolves s s' -> asked s username q_num -> asked s' username q_num.
Proof.
  intros [H1 _] (udata & Hu & Hin).
  destruct (H1 username udata Hu) as (udata' & Hu' & Hincl).
  exists udata'; split; [exact Hu' | now apply Hincl].
Qed.

(** An issued question was not in the asked history of the user, and is
    in it afterwards. *)
Lemma issued_fresh (e : event) (s : state) (username : string)
  (q_num : Z) :
  issued e s = Some (username, q_num) ->
  ~ asked s username q_num /\ asked (step e s) username q_num.
Proof.
  destruct e as [sock received rnd | tracked send_raises];
    [|discriminate].
  unfold issued, step, client_turn.
  destruct (getpeername sock) as [client_addr|] eqn:Hpeer; [|discriminate].
  destruct (recv_message_and_parse received) as [[cmd data]|];
    [|discriminate].
  destruct (PyDict.get (logged_users s) client_addr) as [u|] eqn:Hlogged;
    [|discriminate].
  destruct (String.eqb_spec cmd chatlib.getquestion_msg) as [->|];
    [|discriminate].
  destruct (create_random_question u rnd s) as [r s1] eqn:Hc.
  cbn [fst].
  destruct r as [[[qstr q]|]|]; try discriminate.
  intros [= -> ->].
  assert (Hu : exists udata, PyDict.get (users s) username = Some udata).
  { destruct (PyDict.get (users s) username) as [udata|] eqn:Hu; [eauto|].
    revert Hc. unfold create_random_question. run_monad.
    destruct (questions s); [discriminate|]. rewrite Hu. discriminate. }
  destruct Hu as (udata & Hu).
  destruct (create_random_question_spec s username udata rnd Hu)
    as [[Hnone _] | (q & q_data & Hsome & Hget & Hfresh)];
    [congruence|].
  rewrite Hsome in Hc. injection Hc as <- <- <-.
  split.
  - intros (udata' & Hu' & Hin). congruence.
  - unfold try_except, bind.
    rewrite (dispatch_get_question s sock client_addr username data rnd)
      by assumption.
    unfold bind.
    rewrite (handle_question_message_issues s sock username _ udata
               q rnd Hu Hsome).
    cbn [snd ret users].
    eexists; split; [apply get_set_same|].
    cbn [questions_asked]. apply in_or_app. right. now left.
Qed.

Lemma issued_log_fresh (es : list event) (s : state) :
  NoDup (issued_log es s)
  /\ forall username q_num,
       In (username, q_num) (issued_log es s) -> ~ asked s username q_num.
Proof.
  revert s; induction es as [|e es IH]; intros s; cbn [issued_log].
  - split; [constructor | intros u q []].
  - destruct (IH (step e s)) as [Hnd Hfresh].
    assert (Hlater : forall u q,
               In (u, q) (issued_log es (step e s)) -> ~ asked s u q).
    { intros u q Hin Hasked. apply (Hfresh u q Hin).
      eapply asked_evolves; [apply step_evolves | exact Hasked]. }
    destruct (issued e s) as [[u q]|] eqn:Hi; [|split; assumption].
    destruct (issued_fresh e s u q Hi) as [Hbefore Hafter].
    split.
    + constructor; [|exact Hnd]. intros Hin. now apply (Hfresh u q Hin).
    + intros u' q' [[= <- <-]|Hin]; [exact Hbefore | now apply Hlater].
Qed.

(** C8: a GET_QUESTION from an authenticated user either finds every
    question id of the bank in the asked history of the user and answers
    with an error, or issues a question of the bank whose id was not in
    the history, appends that id to the history, saves the users and
    sends the question.  Hence along any run of the server no question
    id is issued twice to the same user. *)
Theorem get_question_never_repeats (s : state) (conn : socket)
  (client_addr : address) (username data : string) (udata : user)
  (rnd : nat) :
  getpeername conn = Some client_addr ->
  PyDict.get (logged_users s) client_addr = Some username ->
  PyDict.get (users s) username = Some udata ->
  let r := handle_client_message conn chatlib.getquestion_msg data rnd s in
  ((forall q_num, In q_num (PyDict.keys (questions s)) ->
                  In q_num (questions_asked udata))
   /\ r = (Ok true,
           set_messages_to_send
             (messages_to_send s
              ++ [(conn,
                   chatlib.build_message "ERROR"
                     "No more questions available")]) s)
   \/ exists q_num q_data,
        PyDict.get (questions s) q_num = Some q_data
        /\ ~ In q_num (questions_asked udata)
        /\ fst r = Ok true
        /\ PyDict.get (users (snd r)) username
           = Some (mkUser (password udata) (score udata)
                     (questions_asked udata ++ [q_num]))
        /\ hd_error (users_txt (snd r)) = Some (users_file (users (snd r)))
        /\ messages_to_send (snd r)
           = (messages_to_send s
              ++ [(conn,
                   chatlib.build_message "YOUR_QUESTION"
                     (question_payload q_num q_data))])%list)
  /\ forall es, NoDup (issued_log es s).
Proof.
  intros Hpeer Hlogged Hu r. split; [|intros es; apply issued_log_fresh].
  subst r.
  rewrite (dispatch_get_question s conn client_addr username data rnd)
    by assumption.
  unfold bind.
  destruct (create_random_question_spec s username udata rnd Hu)
    as [[Hnone Hall] | (q & q_data & Hsome & Hget & Hfresh)].
  - left. split; [exact Hall|].
    now rewrite (handle_question_message_exhausted s conn username rnd).
  - right. exists q, q_data.
    rewrite (handle_question_message_issues s conn username _ udata q rnd
               Hu Hsome).
    cbn [fst snd ret users users_txt messages_to_send hd_error].
    repeat split; try assumption. apply get_set_same.
Qed.

End Questions.

(** *** The asked histories change with issued questions only *)

Section History.

Lemma same_history_refl (s : state) : same_history s s.
Proof. intros u ud Hu; eauto. Qed.

Lemma same_history_trans (a b c : state) :
  same_history a b -> same_history b c -> same_history a c.
Proof.
  intros Hab Hbc u ud Hu.
  destruct (Hab u ud Hu) as (ud' & Hu' & He).
  destruct (Hbc u ud' Hu') as (ud'' & Hu'' & He').
  exists ud''; split; [exact Hu'' | congruence].
Qed.

Lemma same_history_users (s s' : state) :
  users s' = users s -> same_history s s'.
Proof. intros He u ud Hu. rewrite He. eauto. Qed.

Ltac keep := preserve_with same_history_refl same_history_trans.

Ltac keep_at_state :=
  cbv beta iota;
  match goal with
  | |- same_history ?s (snd (?m ?s)) =>
      refine ((_ : preserves same_history m) s); keep
  end.

Lemma build_and_send_message_history (conn : socket) (code data : string) :
  preserves same_history (build_and_send_message conn code data).
Proof. intros s. now apply same_history_users. Qed.

Lemma handle_login_message_history (conn : socket) (data : string) :
  preserves same_history (handle_login_message conn data).
Proof.
  pose proof build_and_send_message_history as Hsend.
  unfold handle_login_message. keep.
  all: intros st; now apply same_history_users.
Qed.

Lemma handle_logout_message_history (conn : socket) :
  preserves same_history (handle_logout_message conn).
Proof.
  unfold handle_logout_message. keep.
  all: intros st; now apply same_history_users.
Qed.

Lemma handle_getscore_message_history (conn : socket) (username : string) :
  preserves same_history (handle_getscore_message conn username).
Proof.
  pose proof build_and_send_message_history as Hsend.
  unfold handle_getscore_message. keep.
Qed.

Lemma handle_highscore_message_history (conn : socket) :
  preserves same_history (handle_highscore_message conn).
Proof.
  pose proof build_and_send_message_history as Hsend.
  unfold handle_highscore_message. keep.
Qed.

Lemma handle_logged_message_history (conn : socket) :
  preserves same_history (handle_logged_message conn).
Proof.
  pose proof build_and_send_message_history as Hsend.
  unfold handle_logged_message. keep.
Qed.

Lemma add_score_history (username : string) (points : Z) :
  preserves same_history (add_score username points).
Proof.
  unfold add_score. apply preserves_gets_bind; intros s.
  unfold bind, lift, PyDict.getitem.
  destruct (PyDict.get (users s) username) as [udata|] eqn:Hu;
    [|apply same_history_refl].
  intros u ud Hget; simpl.
  destruct (String.eqb_spec username u) as [<-|Hne].
  + rewrite get_set_same. eexists; split; [reflexivity|].
    rewrite Hu in Hget. now injection Hget as <-.
  + rewrite get_set_other by exact Hne. eauto.
Qed.

Lemma handle_answer_message_history (conn : socket)
  (username data : string) :
  preserves same_history (handle_answer_message conn username data).
Proof.
  pose proof build_and_send_message_history as Hsend.
  pose proof add_score_history as Hadd.
  unfold handle_answer_message. keep.
Qed.

Lemma create_random_question_state (username : string) (rnd : nat)
  (s : state) :
  snd (create_random_question username rnd s) = s.
Proof.
  unfold create_random_question. run_monad.
  destruct (questions s) as [|kv qs]; [reflexivity|].
  destruct (PyDict.get (users s) username); [|reflexivity].
  destruct (filter _ _); [reflexivity|].
  destruct (random_choice _ _) as [q|]; [|reflexivity].
  destruct (PyDict.get (kv :: qs) q); reflexivity.
Qed.

(** An event that issues no question leaves every asked history as it
    was. *)
Lemma not_issued_same_history (e : event) (s : state) :
  issued e s = None -> same_history s (step e s).
Proof.
  pose proof build_and_send_message_history as Hsend.
  pose proof handle_login_message_history as Hlogin.
  pose proof handle_logout_message_history as Hlogout.
  pose proof handle_getscore_message_history as Hscore.
  pose proof handle_highscore_message_history as Hhigh.
  pose proof handle_logged_message_history as Hlogged.
  pose proof handle_answer_message_history as Hanswer.
  destruct e as [sock received rnd | tracked send_raises]; simpl.
  - unfold client_turn.
    destruct (getpeername sock) as [client_addr|] eqn:Hpeer;
      [|intros _; apply same_history_refl].
    intros Hnone. unfold try_except.
    match goal with
    | |- same_history s (snd match ?m s with _ => _ end) =>
        assert (Hbody : same_history s (snd (m s)));
          [| destruct (m s) as [[a|ex] s1]; [exact Hbody|];
             eapply same_history_trans; [exact Hbody | apply Hsend] ]
    end.
    destruct (recv_message_and_parse received) as [[cmd data]|];
      [|apply Hlogout].
    match goal with
    | |- same_history s (snd (bind ?m _ s)) =>
        assert (Hmsg : same_history s (snd (m s)));
          [| unfold bind; destruct (m s) as [[a|ex] s1]; exact Hmsg ]
    end.
    unfold handle_client_message. rewrite Hpeer. unfold bind at 1, gets.
    destruct (PyDict.get (logged_users s) client_addr) as [u|];
      [| destruct (negb _); keep_at_state ].
    destruct (String.eqb cmd chatlib.logout_msg); [keep_at_state|].
    destruct (String.eqb cmd chatlib.getscore_msg); [keep_at_state|].
    destruct (String.eqb cmd chatlib.gethighscore_msg); [keep_at_state|].
    destruct (String.eqb cmd chatlib.getlogged_msg); [keep_at_state|].
    destruct (String.eqb cmd chatlib.getquestion_msg);
      [| destruct (String.eqb cmd chatlib.sendanswer_msg); keep_at_state ].
    unfold handle_question_message, bind.
    pose proof (create_random_question_state u rnd s) as Hstate.
    destruct (create_random_question u rnd s) as [[[[qstr q]|]|ex] s1];
      cbn [fst snd] in *; subst s1; try discriminate Hnone.
    + now apply same_history_users.
    + apply same_history_refl.
  - intros _. unfold send_queued_messages. keep_at_state.
    + intros st. now apply same_history_users.
    + unfold send_queued. keep.
Qed.

End History.

Example issued_log_two_requests :
  let get_question :=
    Readable yossi_sock (Ok "GET_QUESTION    |0000|") 0 in
  issued_log [get_question; get_question] yossi_logged_in = [("yossi", 1%Z)]
  /\ messages_to_send (run [get_question; get_question] yossi_logged_in)
     = [(yossi_sock, Some "YOUR_QUESTION   |0020|1#2 + 2 = ?#3#4#5#22");
        (yossi_sock,
         Some "ERROR           |0027|No more questions available")].
Proof. split; reflexivity. Qed.

Lemma get_question_never_repeats_witness :
  let s := yossi_logged_in in
  let udata := mkUser "123" 50 [] in
  let r := handle_client_message yossi_sock chatlib.getquestion_msg "" 0 s in
  ((forall q_num, In q_num (PyDict.keys (questions s)) ->
                  In q_num (questions_asked udata))
   /\ r = (Ok true,
           set_messages_to_send
             (messages_to_send s
              ++ [(yossi_sock,
                   chatlib.build_message "ERROR"
                     "No more questions available")]) s)
   \/ exists q_num q_data,
        PyDict.get (questions s) q_num = Some q_data
        /\ ~ In q_num (questions_asked udata)
        /\ fst r = Ok true
        /\ PyDict.get (users (snd r)) "yossi"
           = Some (mkUser (password udata) (score udata)
                     (questions_asked udata ++ [q_num]))
        /\ hd_error (users_txt (snd r)) = Some (users_file (users (snd r)))
        /\ messages_to_send (snd r)
           = (messages_to_send s
              ++ [(yossi_sock,
                   chatlib.build_message "YOUR_QUESTION"
                     (question_payload q_num q_data))])%list)
  /\ forall es, NoDup (issued_log es s).
Proof.
  apply (get_question_never_repeats yossi_logged_in yossi_sock yossi_addr
           "yossi" "" (mkUser "123" 50 []) 0); reflexivity.
Defined.

(** * Sessions *)


(** C10: every username stored as a value of the live-session mapping is
    a key of the users mapping.  The property is kept by every dispatched
    command, and by every event of the main loop, so it holds all along a
    run that starts with it. *)
Theorem sessions_stay_known (es : list event) (s : state) :
  sessions_known s ->
  sessions_known (run es s)
  /\ forall conn cmd data rnd,
       sessions_known
         (snd (handle_client_message conn cmd data rnd (run es s))).
Proof.
  intros Hinv.
  assert (Hrun : sessions_known (run es s))
    by (eapply evolves_sessions_known; [apply run_evolves | exact Hinv]).
  split; [exact Hrun|].
  intros conn cmd data rnd.
  eapply evolves_sessions_known; [|exact Hrun].
  apply handle_client_message_evolves.
Qed.

Lemma sessions_stay_known_witness :
  let login := Readable yossi_sock (Ok "LOGIN           |0009|yossi#123") 0 in
  let stranger :=
    Readable yossi_sock (Ok "LOGIN           |0008|nobody#1") 0 in
  logged_users (run [stranger; login] started) = [(yossi_addr, "yossi")]
  /\ sessions_known (run [stranger; login] started)
  /\ forall conn cmd data rnd,
       sessions_known
         (snd (handle_client_message conn cmd data rnd
                 (run [stranger; login] started))).
Proof.
  intros login stranger. split; [reflexivity|].
  apply (sessions_stay_known [stranger; login] started).
  intros username [].
Defined.

(** * More on the frame codec *)

Section CodecExtras.

Lemma append_assoc (a b c : string) : (a ++ b) ++ c = a ++ (b ++ c).
Proof. induction a as [|x a IH]; simpl; [reflexivity | now rewrite IH]. Qed.

Lemma substring_0_prefix (a b : string) :
  String.substring 0 (String.length a) (a ++ b) = a.
Proof. induction a as [|c a IH]; simpl; [now destruct b | now rewrite IH]. Qed.

Lemma substring_0_length (s : string) (m : nat) :
  String.length (String.substring 0 m s) = Nat.min m (String.length s).
Proof. revert m; induction s as [|c s IH]; intros [|m]; simpl; auto. Qed.

(** A string cut at a position within it. *)
Lemma cut_at (n : nat) (s : string) :
  n <= String.length s ->
  exists a b, s = a ++ b /\ String.length a = n.
Proof.
  revert s; induction n as [|n IH]; intros s Hn.
  - exists "", s. split; reflexivity.
  - destruct s as [|c s]; [simpl in Hn; lia|].
    destruct (IH s) as (a & b & -> & Ha); [simpl in Hn; lia|].
    exists (String c a), b. simpl. split; congruence.
Qed.

(** *** [strip] *)

Lemma length_lstrip (s : string) :
  String.length (PyStr.lstrip s) <= String.length s.
Proof.
  induction s as [|c s IH]; simpl; [lia|].
  destruct (PyStr.isspace_char c); simpl; lia.
Qed.

Lemma length_rstrip (s : string) :
  String.length (PyStr.rstrip s) <= String.length s.
Proof.
  induction s as [|c s IH]; simpl; [lia|].
  destruct (PyStr.rstrip s); [destruct (PyStr.isspace_char c)|];
    simpl in *; lia.
Qed.

Lemma length_strip (s : string) :
  String.length (PyStr.strip s) <= String.length s.
Proof.
  unfold PyStr.strip.
  pose proof (length_lstrip (PyStr.rstrip s)). pose proof (length_rstrip s).
  lia.
Qed.

Lemma rstrip_idempotent (s : string) :
  PyStr.rstrip (PyStr.rstrip s) = PyStr.rstrip s.
Proof.
  induction s as [|c s IH]; simpl; [reflexivity|].
  destruct (PyStr.rstrip s) as [|d r] eqn:Hr.
  - destruct (PyStr.isspace_char c) eqn:Hc; simpl; [reflexivity|].
    now rewrite Hc.
  - cbn [PyStr.rstrip]. cbn [PyStr.rstrip] in IH.
    destruct (match PyStr.rstrip r with
              | "" => if PyStr.isspace_char d then "" else String d ""
              | String a s0 => String d (String a s0)
              end) eqn:Hm; [discriminate IH|].
    now rewrite IH.
Qed.

(** [rstrip] of what [lstrip] leaves is what [lstrip] leaves of
    [rstrip]. *)
Lemma rstrip_lstrip (s : string) :
  PyStr.rstrip (PyStr.lstrip s) = PyStr.lstrip (PyStr.rstrip s).
Proof.
  induction s as [|c s IH]; simpl; [reflexivity|].
  destruct (PyStr.isspace_char c) eqn:Hc.
  - rewrite IH. destruct (PyStr.rstrip s) as [|d r]; simpl;
      rewrite ?Hc; reflexivity.
  - cbn [PyStr.rstrip].
    destruct (PyStr.rstrip s) as [|d r]; simpl; rewrite ?Hc; reflexivity.
Qed.

Lemma lstrip_idempotent (s : string) :
  PyStr.lstrip (PyStr.lstrip s) = PyStr.lstrip s.
Proof.
  induction s as [|c s IH]; simpl; [reflexivity|].
  destruct (PyStr.isspace_char c) eqn:Hc; [exact IH|].
  simpl. now rewrite Hc.
Qed.

Lemma strip_idempotent (s : string) :
  PyStr.strip (PyStr.strip s) = PyStr.strip s.
Proof.
  unfold PyStr.strip.
  rewrite (rstrip_lstrip (PyStr.rstrip s)), rstrip_idempotent.
  apply lstrip_idempotent.
Qed.

End CodecExtras.

(** * Integers and their decimal form *)

Section Integers.

Lemma digit_value_bound (c : ascii) :
  PyStr.isdecimal_char c = true -> (0 <= PyStr.digit_value c <= 9)%Z.
Proof.
  unfold PyStr.isdecimal_char, PyStr.digit_value.
  destruct (Nat.leb_spec 48 (nat_of_ascii c)),
           (Nat.leb_spec (nat_of_ascii c) 57); try discriminate.
  intros _. lia.
Qed.

Lemma int_digits_bound (s : string) (b : bool) (acc v : Z) :
  (0 <= acc)%Z ->
  PyStr.int_digits b acc s = Some v ->
  (0 <= v < (acc + 1) * 10 ^ Z.of_nat (String.length s))%Z.
Proof.
  revert b acc; induction s as [|c s IH]; intros b acc Hacc;
    cbn [PyStr.int_digits String.length].
  - destruct b; [intros [= <-]; simpl; lia | discriminate].
  - rewrite Nat2Z.inj_succ, Z.pow_succ_r by lia.
    assert (Hp : (0 < 10 ^ Z.of_nat (String.length s))%Z)
      by (apply Z.pow_pos_nonneg; lia).
    destruct (PyStr.isdecimal_char c) eqn:Hc.
    + intros Hv. apply digit_value_bound in Hc.
      apply IH in Hv; [|lia]. nia.
    + destruct (Ascii.eqb c "_" && b)%bool; [|discriminate].
      intros Hv. apply IH in Hv; [|lia]. nia.
Qed.

Lemma length_int_lskip (s : string) :
  String.length (PyStr.int_lskip s) <= String.length s.
Proof.
  induction s as [|c s IH]; simpl; [lia|].
  destruct (PyStr.int_space_char c); simpl; lia.
Qed.

Lemma length_int_rskip (s : string) :
  String.length (PyStr.int_rskip s) <= String.length s.
Proof.
  induction s as [|c s IH]; simpl; [lia|].
  destruct (PyStr.int_rskip s); [destruct (PyStr.int_space_char c)|];
    simpl in *; lia.
Qed.

Lemma int_digits_count (s : string) (b : bool) (acc v : Z) :
  (0 <= acc)%Z ->
  PyStr.int_digits b acc s = Some v ->
  (0 <= v < (acc + 1) * 10 ^ Z.of_nat (PyStr.count_digits s))%Z.
Proof.
  revert b acc; induction s as [|c s IH]; intros b acc Hacc;
    cbn [PyStr.int_digits PyStr.count_digits].
  - destruct b; [intros [= <-]; simpl; lia | discriminate].
  - assert (Hp : (0 < 10 ^ Z.of_nat (PyStr.count_digits s))%Z)
      by (apply Z.pow_pos_nonneg; lia).
    destruct (PyStr.isdecimal_char c) eqn:Hc.
    + rewrite Nat2Z.inj_succ, Z.pow_succ_r by lia.
      intros Hv. apply digit_value_bound in Hc.
      apply IH in Hv; [|lia]. nia.
    + destruct (Ascii.eqb c "_" && b)%bool; [|discriminate].
      intros Hv. now apply IH in Hv.
Qed.

Lemma count_digits_int_lskip (s : string) :
  PyStr.count_digits (PyStr.int_lskip s) <= PyStr.count_digits s.
Proof.
  induction s as [|c s IH]; cbn [PyStr.int_lskip PyStr.count_digits];
    [lia|].
  destruct (PyStr.int_space_char c); cbn [PyStr.count_digits];
    destruct (PyStr.isdecimal_char c); lia.
Qed.

Lemma count_digits_int_rskip (s : string) :
  PyStr.count_digits (PyStr.int_rskip s) <= PyStr.count_digits s.
Proof.
  induction s as [|c s IH]; cbn [PyStr.int_rskip PyStr.count_digits];
    [lia|].
  destruct (PyStr.int_rskip s) as [|d r].
  - destruct (PyStr.int_space_char c); cbn [PyStr.count_digits];
      destruct (PyStr.isdecimal_char c); lia.
  - remember (String d r) as t. cbn [PyStr.count_digits].
    destruct (PyStr.isdecimal_char c); lia.
Qed.

(** What [int] accepts is within the limit. *)
Lemma int_limit (s : string) (v : Z) :
  PyStr.int s = Some v -> within_int_limit v.
Proof.
  intros Hv. apply int_literal_of_int in Hv as [Hv Hc].
  unfold within_int_limit. revert Hv. unfold PyStr.int_literal.
  pose proof (count_digits_int_lskip (PyStr.int_rskip s)) as Hl.
  pose proof (count_digits_int_rskip s) as Hr.
  assert (Hdigits : forall t w,
             PyStr.count_digits t <= PyStr.count_digits s ->
             PyStr.int_digits false 0 t = Some w ->
             (0 <= w < 10 ^ Z.of_nat PyStr.max_str_digits)%Z).
  { intros t w Ht Hw. apply int_digits_count in Hw; [|lia].
    assert ((10 ^ Z.of_nat (PyStr.count_digits t)
             <= 10 ^ Z.of_nat PyStr.max_str_digits)%Z)
      by (apply Z.pow_le_mono_r; lia).
    lia. }
  destruct (PyStr.int_lskip (PyStr.int_rskip s)) as [|c t] eqn:Ht.
  - discriminate.
  - assert (Hplain : PyStr.int_digits false 0 (String c t) = Some v ->
                     (Z.abs v < 10 ^ Z.of_nat PyStr.max_str_digits)%Z).
    { intros Hv. apply Hdigits in Hv; lia. }
    assert (Htail : PyStr.count_digits t <= PyStr.count_digits s).
    { cbn [PyStr.count_digits] in Hl.
      destruct (PyStr.isdecimal_char c); lia. }
    destruct c as [[] [] [] [] [] [] [] []]; try exact Hplain.
    + intros Hv. apply Hdigits in Hv; lia.
    + destruct (PyStr.int_digits false 0 t) as [w|] eqn:Hw; [|discriminate].
      intros [= <-]. apply Hdigits in Hw; lia.
Qed.

Lemma within_int_limit_between (a b c : Z) :
  (a <= b <= c)%Z ->
  within_int_limit a -> within_int_limit c -> within_int_limit b.
Proof. unfold within_int_limit. lia. Qed.

(** What [int] accepts has fewer digits than the string has characters. *)
Lemma int_bound (s : string) (v : Z) :
  PyStr.int s = Some v ->
  (Z.abs v < 10 ^ Z.of_nat (String.length s))%Z.
Proof.
  intros Hint. apply int_literal_of_int in Hint as [Hint _].
  revert Hint. unfold PyStr.int_literal.
  pose proof (length_int_lskip (PyStr.int_rskip s)) as Hl.
  pose proof (length_int_rskip s) as Hr.
  assert (Hmono : forall n : nat,
             n <= String.length s ->
             (10 ^ Z.of_nat n <= 10 ^ Z.of_nat (String.length s))%Z)
    by (intros n Hn; apply Z.pow_le_mono_r; lia).
  assert (Hdigits : forall t w,
             String.length t <= String.length s ->
             PyStr.int_digits false 0 t = Some w ->
             (0 <= w < 10 ^ Z.of_nat (String.length s))%Z).
  { intros t w Ht Hw. apply int_digits_bound in Hw; [|lia].
    specialize (Hmono _ Ht). lia. }
  destruct (PyStr.int_lskip (PyStr.int_rskip s)) as [|c t] eqn:Ht.
  - discriminate.
  - simpl in Hl.
    assert (Hplain : PyStr.int_digits false 0 (String c t) = Some v ->
                     (Z.abs v < 10 ^ Z.of_nat (String.length s))%Z).
    { intros Hv. apply Hdigits in Hv; [lia | simpl; lia]. }
    destruct c as [[] [] [] [] [] [] [] []]; try exact Hplain.
    + intros Hv. apply Hdigits in Hv; [lia | lia].
    + destruct (PyStr.int_digits false 0 t) as [w|] eqn:Hw; [|discriminate].
      intros [= <-]. apply Hdigits in Hw; [lia | lia].
Qed.

Lemma int_digits_str_of_nat (b : bool) (n : nat) :
  PyStr.int_digits b 0 (PyStr.str_of_nat n) = Some (Z.of_nat n).
Proof.
  unfold PyStr.str_of_nat.
  rewrite int_digits_str_nat_aux by lia. cbn [PyStr.int_digits].
  f_equal; lia.
Qed.

Lemma all_decimal_str_of_nat (n : nat) :
  PyStr.all_chars PyStr.isdecimal_char (PyStr.str_of_nat n) = true.
Proof. apply all_decimal_str_nat_aux. reflexivity. Qed.

Lemma str_of_nat_nonempty (n : nat) : PyStr.str_of_nat n <> "".
Proof.
  unfold PyStr.str_of_nat. cbn [PyStr.str_nat_aux].
  destruct (n / 10 =? 0); [discriminate|].
  intros He. apply (f_equal String.length) in He.
  rewrite length_str_nat_aux in He. simpl in He. lia.
Qed.

Lemma int_literal_str_of_Z (z : Z) :
  PyStr.int_literal (PyStr.str_of_Z z) = Some z.
Proof.
  unfold PyStr.str_of_Z.
  destruct (Z.ltb_spec z 0) as [Hneg|Hpos].
  - pose proof (all_decimal_str_of_nat (Z.to_nat (- z))) as Hdec.
    pose proof (str_of_nat_nonempty (Z.to_nat (- z))) as Hne.
    unfold PyStr.int_literal. cbn [PyStr.int_rskip].
    rewrite (int_rskip_decimal _ Hdec).
    destruct (PyStr.str_of_nat (Z.to_nat (- z))) as [|d ds] eqn:Hs;
      [congruence|].
    cbn [PyStr.int_lskip].
    change (PyStr.int_space_char "-") with false. cbv beta iota.
    rewrite <- Hs, int_digits_str_of_nat.
    simpl. f_equal. lia.
  - rewrite int_literal_decimal by apply all_decimal_str_of_nat.
    rewrite int_digits_str_of_nat. f_equal. lia.
Qed.

Lemma length_str_of_nat_limit (m n : nat) :
  (Z.of_nat n < 10 ^ Z.of_nat m)%Z -> 0 < m ->
  String.length (PyStr.str_of_nat n) <= m.
Proof.
  intros Hn Hm. destruct m as [|k]; [lia|].
  unfold PyStr.str_of_nat. rewrite length_str_nat_aux.
  cbn [String.length]. rewrite Nat.add_0_r.
  apply ndigits_bound. apply Nat2Z.inj_lt. rewrite Nat2Z.inj_pow.
  exact Hn.
Qed.

Lemma count_digits_str_of_Z (z : Z) :
  within_int_limit z ->
  PyStr.count_digits (PyStr.str_of_Z z) <= PyStr.max_str_digits.
Proof.
  unfold within_int_limit. intros Hz.
  assert (Hm : 0 < PyStr.max_str_digits) by (apply Nat.ltb_lt; reflexivity).
  unfold PyStr.str_of_Z.
  destruct (Z.ltb_spec z 0) as [Hneg|Hpos].
  - cbn [PyStr.count_digits].
    change (PyStr.isdecimal_char "-") with false. cbv iota.
    etransitivity; [apply count_digits_length|].
    apply length_str_of_nat_limit; [|exact Hm].
    rewrite Z2Nat.id by lia. lia.
  - etransitivity; [apply count_digits_length|].
    apply length_str_of_nat_limit; [|exact Hm].
    rewrite Z2Nat.id by lia. lia.
Qed.

(** [int(str(z)) == z], for an integer within the limit of [int]. *)
Lemma int_str_of_Z (z : Z) :
  within_int_limit z -> PyStr.int (PyStr.str_of_Z z) = Some z.
Proof.
  intros Hz. rewrite int_under_limit by now apply count_digits_str_of_Z.
  apply int_literal_str_of_Z.
Qed.

End Integers.

(** * Fields of the data part *)

Section Fields.

Lemma concat_cons (sep x : string) (ls : list string) :
  ls <> [] ->
  String.concat sep (x :: ls) = x ++ sep ++ String.concat sep ls.
Proof. destruct ls; [congruence | reflexivity]. Qed.

Lemma concat_cons_char (sep : string) (c : ascii) (f : string)
  (fs : list string) :
  String.concat sep (String c f :: fs)
  = String c (String.concat sep (f :: fs)).
Proof. destruct fs; reflexivity. Qed.

Lemma concat_split (sep : ascii) (s : string) :
  String.concat (String sep "") (PyStr.split sep s) = s.
Proof.
  induction s as [|c s IH]; simpl; [reflexivity|].
  destruct (Ascii.eqb_spec c sep) as [->|Hne].
  - rewrite concat_cons by apply split_nonempty. simpl. now rewrite IH.
  - destruct (PyStr.split sep s) as [|f fs] eqn:Hs;
      [now apply split_nonempty in Hs|].
    rewrite concat_cons_char. now rewrite IH.
Qed.

Lemma split_fields_without_sep (sep : ascii) (s : string) :
  Forall (fun f => ~ occurs sep f) (PyStr.split sep s).
Proof.
  induction s as [|c s IH]; simpl.
  - constructor; [intros [] | constructor].
  - destruct (Ascii.eqb_spec c sep) as [->|Hne].
    + constructor; [intros [] | exact IH].
    + destruct (PyStr.split sep s) as [|f fs];
        [constructor; [|constructor]|].
      * rewrite occurs_cons. intros [H|[]]. congruence.
      * inversion IH as [|? ? Hf Hfs]; subst.
        constructor; [|exact Hfs]. rewrite occurs_cons. tauto.
Qed.

Lemma length_split (sep : ascii) (s : string) :
  List.length (PyStr.split sep s) = S (count_char sep s).
Proof.
  unfold count_char. induction s as [|c s IH]; simpl; [reflexivity|].
  destruct (Ascii.eqb_spec c sep) as [->|Hne].
  - destruct (ascii_dec sep sep); [|congruence]. simpl. now rewrite IH.
  - destruct (ascii_dec c sep); [congruence|].
    destruct (PyStr.split sep s) as [|f fs]; [discriminate IH|].
    exact IH.
Qed.

Lemma split_concat (sep : ascii) (fields : list string) :
  fields <> [] ->
  Forall (fun f => ~ occurs sep f) fields ->
  PyStr.split sep (String.concat (String sep "") fields) = fields.
Proof.
  induction fields as [|f fs IH]; [congruence|].
  intros _ Hall. inversion Hall as [|? ? Hf Hfs]; subst.
  destruct fs as [|g gs].
  - simpl. now apply split_without_sep.
  - rewrite concat_cons by discriminate.
    change (f ++ String sep "" ++ String.concat (String sep "") (g :: gs))
      with (f ++ String sep (String.concat (String sep "") (g :: gs))).
    rewrite split_append by exact Hf.
    now rewrite IH.
Qed.

(** The empty message needs no case of its own: it has one field. *)
Lemma split_data_split (msg : string) (expected_fields : nat) :
  chatlib.split_data msg expected_fields
  = if List.length (PyStr.split "#" msg) =? expected_fields
    then Some (PyStr.split "#" msg) else None.
Proof.
  destruct msg as [|c r]; [|reflexivity].
  simpl. now destruct expected_fields as [|[|n]].
Qed.

(** X1: fields without ['#'] that are joined and split again, asking for
    as many fields as there were, come back as they were. *)
Theorem split_data_join_data (fields : list string) :
  fields <> [] -> no_delimiter fields ->
  chatlib.split_data (chatlib.join_data fields) (List.length fields)
  = Some fields.
Proof.
  intros Hne Hno. rewrite split_data_split.
  unfold chatlib.join_data, PyStr.join, chatlib.DATA_DELIMITER.
  rewrite (split_concat "#" fields Hne Hno), Nat.eqb_refl. reflexivity.
Qed.

Lemma split_data_join_data_witness :
  chatlib.split_data (chatlib.join_data ["yossi"; ""; "123"]) 3
  = Some ["yossi"; ""; "123"].
Proof.
  apply (split_data_join_data ["yossi"; ""; "123"]); [discriminate|].
  repeat constructor; unfold occurs; simpl; intuition discriminate.
Defined.

(** X2: what [split_data] returns has the expected number of fields,
    none of them contains ['#'], and joined again they are the message. *)
Theorem join_data_split_data (msg : string) (expected_fields : nat)
  (fields : list string) :
  chatlib.split_data msg expected_fields = Some fields ->
  chatlib.join_data fields = msg
  /\ List.length fields = expected_fields
  /\ no_delimiter fields.
Proof.
  rewrite split_data_split.
  destruct (Nat.eqb_spec (List.length (PyStr.split "#" msg)) expected_fields)
    as [Hlen|]; [|discriminate].
  intros [= <-]. repeat split.
  - apply concat_split.
  - exact Hlen.
  - apply split_fields_without_sep.
Qed.

Lemma join_data_split_data_witness :
  chatlib.join_data ["1"; "2 + 2 = ?"; "3"; "4"; "5"; "22"]
  = "1#2 + 2 = ?#3#4#5#22"
  /\ List.length ["1"; "2 + 2 = ?"; "3"; "4"; "5"; "22"] = 6
  /\ no_delimiter ["1"; "2 + 2 = ?"; "3"; "4"; "5"; "22"].
Proof.
  apply (join_data_split_data "1#2 + 2 = ?#3#4#5#22" 6). reflexivity.
Defined.

(** X3: [split_data] succeeds exactly when the expected number of fields
    is one more than the number of ['#'] in the message; for the empty
    message that is one field. *)
Theorem split_data_succeeds_iff (msg : string) (expected_fields : nat) :
  (exists fields, chatlib.split_data msg expected_fields = Some fields)
  <-> expected_fields = S (count_char "#" msg).
Proof.
  rewrite split_data_split, <- (length_split "#" msg).
  destruct (Nat.eqb_spec (List.length (PyStr.split "#" msg)) expected_fields).
  - split; [congruence | eauto].
  - split; [intros (fields & Hf); discriminate | congruence].
Qed.

End Fields.

(** * More on frames *)

Section Frames.

(** What [build_message] requires, read off its result. *)
Lemma build_message_some (cmd data msg : string) :
  chatlib.build_message cmd data = Some msg ->
  String.length cmd <= chatlib.CMD_FIELD_LENGTH
  /\ String.length data <= chatlib.MAX_DATA_LENGTH
  /\ ~ occurs "|" cmd /\ ~ occurs "#" cmd
  /\ msg = PyStr.ljust cmd 16 ++ "|"
           ++ PyStr.zfill (PyStr.str_of_nat (String.length data)) 4
           ++ "|" ++ data.
Proof.
  intros Hb.
  assert (Hc : String.length cmd <= chatlib.CMD_FIELD_LENGTH).
  { destruct (Nat.leb_spec (String.length cmd) chatlib.CMD_FIELD_LENGTH)
      as [|Hgt]; [assumption|].
    assert (Hn : chatlib.build_message cmd data = None)
      by (unfold chatlib.build_message, PyStr.len;
          destruct (Nat.ltb_spec chatlib.CMD_FIELD_LENGTH (String.length cmd));
          [reflexivity | lia]).
    congruence. }
  assert (Hd : String.length data <= chatlib.MAX_DATA_LENGTH).
  { destruct (Nat.leb_spec (String.length data) chatlib.MAX_DATA_LENGTH)
      as [|Hgt]; [assumption|].
    assert (Hn : chatlib.build_message cmd data = None)
      by (unfold chatlib.build_message, PyStr.len;
          destruct (Nat.ltb_spec chatlib.MAX_DATA_LENGTH
                      (String.length data));
          [now rewrite orb_true_r | lia]).
    congruence. }
  assert (Hbar : ~ occurs "|" cmd).
  { intros Ho. apply contains_char in Ho.
    revert Hb. unfold chatlib.build_message, chatlib.DELIMITER.
    rewrite Ho. now destruct (_ || _)%bool. }
  assert (Hhash : ~ occurs "#" cmd).
  { intros Ho. apply contains_char in Ho.
    revert Hb. unfold chatlib.build_message, chatlib.DATA_DELIMITER.
    rewrite Ho, orb_true_r. now destruct (_ || _)%bool. }
  repeat split; try assumption.
  rewrite build_message_ok in Hb by assumption. congruence.
Qed.

(** A built frame, followed by anything, parses to the stripped command
    and the data. *)
Lemma parse_message_built (cmd data extra : string) :
  String.length cmd <= chatlib.CMD_FIELD_LENGTH ->
  String.length data <= chatlib.MAX_DATA_LENGTH ->
  chatlib.parse_message
    ((PyStr.ljust cmd 16 ++ "|"
      ++ PyStr.zfill (PyStr.str_of_nat (String.length data)) 4
      ++ "|" ++ data) ++ extra)
  = Ok (Some (PyStr.strip cmd, data)).
Proof.
  intros Hc Hd.
  destruct (length_field (String.length data) Hd) as (Hzl & Hzd & Hzi).
  change chatlib.LENGTH_FIELD_LENGTH with 4 in Hzl, Hzd, Hzi.
  rewrite !append_assoc.
  rewrite parse_message_frame;
    [| now apply length_ljust | reflexivity | exact Hzl | reflexivity].
  cbn [String.eqb Ascii.eqb Bool.eqb negb].
  rewrite (isdigit_decimal _ Hzl Hzd), Hzi. cbn [negb].
  rewrite Nat2Z.id, substring_0_prefix, Z.eqb_refl, strip_ljust.
  reflexivity.
Qed.

(** X4: [parse_message] reads one frame and ignores whatever follows it:
    a built message followed by any characters parses as the message
    alone does. *)
Theorem parse_message_ignores_rest (cmd data msg extra : string) :
  chatlib.build_message cmd data = Some msg ->
  chatlib.parse_message (msg ++ extra) = Ok (Some (PyStr.strip cmd, data))
  /\ chatlib.parse_message (msg ++ extra) = chatlib.parse_message msg.
Proof.
  intros Hb.
  destruct (build_message_some cmd data msg Hb) as (Hc & Hd & _ & _ & ->).
  pose proof (parse_message_built cmd data "" Hc Hd) as Hnil.
  assert (Hr : forall s : string, s ++ "" = s)
    by (induction s as [|c s IH]; simpl; congruence).
  rewrite Hr in Hnil.
  split; [|rewrite Hnil]; now apply parse_message_built.
Qed.

Lemma parse_message_ignores_rest_witness :
  chatlib.parse_message
    ("MY_SCORE        |0000|" ++ "LOGGED          |0000|")
  = Ok (Some ("MY_SCORE", ""))
  /\ chatlib.parse_message
       ("MY_SCORE        |0000|" ++ "LOGGED          |0000|")
     = chatlib.parse_message "MY_SCORE        |0000|".
Proof.
  apply (parse_message_ignores_rest "MY_SCORE" ""). reflexivity.
Defined.

(** A message of at least 22 characters, cut at the header boundaries. *)
Lemma header_cut (message : string) :
  chatlib.MSG_HEADER_LENGTH <= String.length message ->
  exists p c1 z c2 rest,
    message = p ++ c1 ++ z ++ c2 ++ rest
    /\ String.length p = 16 /\ String.length c1 = 1
    /\ String.length z = 4 /\ String.length c2 = 1.
Proof.
  change chatlib.MSG_HEADER_LENGTH with 22. intros Hlen.
  destruct (cut_at 16 message) as (p & r1 & -> & Hp); [lia|].
  rewrite length_append in Hlen.
  destruct (cut_at 1 r1) as (c1 & r2 & -> & Hc1); [lia|].
  rewrite length_append in Hlen.
  destruct (cut_at 4 r2) as (z & r3 & -> & Hz); [lia|].
  rewrite length_append in Hlen.
  destruct (cut_at 1 r3) as (c2 & rest & -> & Hc2); [lia|].
  exists p, c1, z, c2, rest. repeat split; assumption.
Qed.

Lemma parse_message_limits (message cmd data : string) :
  chatlib.parse_message message = Ok (Some (cmd, data)) ->
  String.length cmd <= chatlib.CMD_FIELD_LENGTH
  /\ PyStr.strip cmd = cmd
  /\ String.length data <= chatlib.MAX_DATA_LENGTH
  /\ chatlib.MSG_HEADER_LENGTH + String.length data <= String.length message
  /\ data = PyStr.slice message chatlib.MSG_HEADER_LENGTH
              (chatlib.MSG_HEADER_LENGTH + String.length data).
Proof.
  intros Hparse.
  destruct (Nat.ltb_spec (String.length message) chatlib.MSG_HEADER_LENGTH)
    as [Hshort|Hlong];
    [rewrite parse_message_short in Hparse by assumption; discriminate|].
  destruct (header_cut message Hlong)
    as (p & c1 & z & c2 & rest & -> & Hp & Hc1 & Hz & Hc2).
  pose proof Hparse as Hframe.
  rewrite parse_message_frame in Hframe by assumption.
  destruct (negb (c1 =? "|")%string); [discriminate|].
  destruct (negb (c2 =? "|")%string); [discriminate|].
  destruct (negb (PyStr.isdigit z)); [discriminate|].
  destruct (PyStr.int z) as [msg_length|] eqn:Hint; [|discriminate].
  cbv zeta in Hframe.
  destruct (Z.eqb_spec
              (Z.of_nat (String.length
                           (String.substring 0 (Z.to_nat msg_length) rest)))
              msg_length) as [Hlen|]; [|discriminate].
  cbn [negb] in Hframe. injection Hframe as <- <-.
  set (data := String.substring 0 (Z.to_nat msg_length) rest) in *.
  assert (Hdata : String.length data = Z.to_nat msg_length) by lia.
  assert (Hmin : String.length data <= String.length rest).
  { unfold data. rewrite substring_0_length. lia. }
  apply int_bound in Hint. rewrite Hz in Hint.
  repeat split.
  - pose proof (length_strip p). change chatlib.CMD_FIELD_LENGTH with 16.
    lia.
  - apply strip_idempotent.
  - unfold chatlib.MAX_DATA_LENGTH, chatlib.LENGTH_FIELD_LENGTH.
    assert (Hpow : Z.of_nat (10 ^ 4) = 10000%Z) by (vm_compute; reflexivity).
    change (10 ^ Z.of_nat 4)%Z with 10000%Z in Hint. lia.
  - rewrite !length_append. change chatlib.MSG_HEADER_LENGTH with 22. lia.
  - change chatlib.MSG_HEADER_LENGTH with 22. unfold PyStr.slice.
    replace (22 + String.length data - 22) with (Z.to_nat msg_length)
      by lia.
    clear - Hp Hc1 Hz Hc2.
    do 16 (destruct p as [|? p]; [discriminate Hp|]).
    destruct p; [|discriminate Hp].
    destruct c1 as [|? [|]]; try discriminate Hc1.
    do 4 (destruct z as [|? z]; [discriminate Hz|]).
    destruct z; [|discriminate Hz].
    destruct c2 as [|? [|]]; try discriminate Hc2.
    reflexivity.
Qed.

(** X5: what [parse_message] returns is within the limits of the
    protocol: the command has at most 16 characters and no whitespace at
    its ends, the data has at most 9999 characters and is the part of the
    message right after the 22 characters of the header. *)
Theorem parse_message_bounds (message cmd data : string) :
  chatlib.parse_message message = Ok (Some (cmd, data)) ->
  String.length cmd <= chatlib.CMD_FIELD_LENGTH
  /\ PyStr.strip cmd = cmd
  /\ String.length data <= chatlib.MAX_DATA_LENGTH
  /\ chatlib.MSG_HEADER_LENGTH + String.length data <= String.length message
  /\ data = PyStr.slice message chatlib.MSG_HEADER_LENGTH
              (chatlib.MSG_HEADER_LENGTH + String.length data).
Proof. apply parse_message_limits. Qed.

Lemma parse_message_bounds_witness :
  String.length "LOGIN" <= chatlib.CMD_FIELD_LENGTH
  /\ PyStr.strip "LOGIN" = "LOGIN"
  /\ String.length "yossi#123" <= chatlib.MAX_DATA_LENGTH
  /\ chatlib.MSG_HEADER_LENGTH + String.length "yossi#123"
     <= String.length "  LOGIN         |0009|yossi#123 and more"
  /\ "yossi#123"
     = PyStr.slice "  LOGIN         |0009|yossi#123 and more"
         chatlib.MSG_HEADER_LENGTH
         (chatlib.MSG_HEADER_LENGTH + String.length "yossi#123").
Proof.
  apply (parse_message_bounds "  LOGIN         |0009|yossi#123 and more").
  reflexivity.
Defined.

(** X6: a built message has exactly 22 characters more than its data,
    and never more than [MAX_MSG_LENGTH], the size of the receive
    buffer. *)
Theorem build_message_length (cmd data msg : string) :
  chatlib.build_message cmd data = Some msg ->
  String.length msg = chatlib.MSG_HEADER_LENGTH + String.length data
  /\ String.length msg <= chatlib.MAX_MSG_LENGTH.
Proof.
  intros Hb.
  destruct (build_message_some cmd data msg Hb) as (Hc & Hd & _ & _ & ->).
  destruct (length_field (String.length data) Hd) as (Hzl & _ & _).
  change chatlib.LENGTH_FIELD_LENGTH with 4 in Hzl.
  assert (Hlen : String.length
                   (PyStr.ljust cmd 16 ++ "|"
                    ++ PyStr.zfill (PyStr.str_of_nat (String.length data)) 4
                    ++ "|" ++ data)
                 = chatlib.MSG_HEADER_LENGTH + String.length data).
  { rewrite !length_append, Hzl, (length_ljust cmd 16 Hc).
    change chatlib.MSG_HEADER_LENGTH with 22. simpl. lia. }
  split; [exact Hlen|].
  rewrite Hlen. unfold chatlib.MAX_MSG_LENGTH. lia.
Qed.

Lemma build_message_length_witness :
  String.length "LOGIN           |0009|yossi#123"
  = chatlib.MSG_HEADER_LENGTH + String.length "yossi#123"
  /\ String.length "LOGIN           |0009|yossi#123"
     <= chatlib.MAX_MSG_LENGTH.
Proof.
  apply (build_message_length "LOGIN" "yossi#123"). reflexivity.
Defined.

(** X7: what [parse_message] returns can be built again, unless the
    command field held a delimiter, and the built message parses to the
    same command and data. *)
Theorem build_parsed_message (message cmd data : string) :
  chatlib.parse_message message = Ok (Some (cmd, data)) ->
  ~ occurs "|" cmd -> ~ occurs "#" cmd ->
  exists msg,
    chatlib.build_message cmd data = Some msg
    /\ chatlib.parse_message msg = Ok (Some (cmd, data)).
Proof.
  intros Hparse Hbar Hhash.
  destruct (parse_message_limits message cmd data Hparse)
    as (Hc & Hstrip & Hd & _).
  eexists; split; [apply build_message_ok; assumption|].
  pose proof (parse_message_built cmd data "" Hc Hd) as Hnil.
  assert (Hr : forall s : string, s ++ "" = s)
    by (induction s as [|c s IH]; simpl; congruence).
  rewrite Hr, Hstrip in Hnil. exact Hnil.
Qed.

End Frames.

Lemma build_parsed_message_witness :
  exists msg,
    chatlib.build_message "LOGIN" "yossi#123" = Some msg
    /\ chatlib.parse_message msg = Ok (Some ("LOGIN", "yossi#123")).
Proof.
  apply (build_parsed_message "  LOGIN         |0009|yossi#123 and more");
    [ reflexivity
    | unfold occurs; simpl; intuition discriminate
    | unfold occurs; simpl; intuition discriminate ].
Defined.

(** * More on dictionaries *)

Section DictExtras.
Context {K V : Type} `{Key K}.


Lemma get_none_not_in_keys (d : PyDict.dict K V) (k : K) :
  PyDict.get d k = None <-> ~ In k (PyDict.keys d).
Proof.
  unfold PyDict.keys; induction d as [|[k0 v0] d IH]; simpl; [tauto|].
  destruct (key_eqb_spec k0 k) as [->|Hk].
  - split; [discriminate | tauto].
  - rewrite IH. tauto.
Qed.

Lemma get_del_same (d : PyDict.dict K V) (k : K) :
  NoDup (PyDict.keys d) -> PyDict.get (PyDict.del d k) k = None.
Proof.
  unfold PyDict.keys; induction d as [|[k0 v0] d IH]; simpl;
    [reflexivity|].
  intros Hnd. inversion Hnd as [|? ? Hnot Hrest]; subst.
  destruct (key_eqb_spec k0 k) as [->|Hk]; simpl.
  - now apply get_none_not_in_keys.
  - rewrite key_eqb_neq by exact Hk. now apply IH.
Qed.

Lemma keys_set_present (d : PyDict.dict K V) (k : K) (v : V) :
  In k (PyDict.keys d) -> PyDict.keys (PyDict.set d k v) = PyDict.keys d.
Proof.
  unfold PyDict.keys; induction d as [|[k0 v0] d IH]; simpl; [tauto|].
  destruct (key_eqb_spec k0 k) as [->|Hk]; simpl; [reflexivity|].
  intros [Heq|Hin]; [congruence|]. now rewrite IH.
Qed.

Lemma keys_set_absent (d : PyDict.dict K V) (k : K) (v : V) :
  ~ In k (PyDict.keys d) ->
  PyDict.keys (PyDict.set d k v) = (PyDict.keys d ++ [k])%list.
Proof.
  unfold PyDict.keys; induction d as [|[k0 v0] d IH]; simpl;
    [reflexivity|].
  intros Hnot. destruct (key_eqb_spec k0 k) as [->|Hk]; [tauto|].
  simpl. rewrite IH by tauto. reflexivity.
Qed.

Lemma in_dec_keys (d : PyDict.dict K V) (k : K) :
  In k (PyDict.keys d) \/ ~ In k (PyDict.keys d).
Proof.
  destruct (PyDict.get d k) as [v|] eqn:Hg.
  - left. unfold PyDict.keys. clear - Hg H.
    induction d as [|[k0 v0] d IH]; simpl in *; [discriminate|].
    destruct (key_eqb_spec k0 k); [now left | right; auto].
  - right. now apply get_none_not_in_keys.
Qed.

Lemma NoDup_keys_set (d : PyDict.dict K V) (k : K) (v : V) :
  NoDup (PyDict.keys d) -> NoDup (PyDict.keys (PyDict.set d k v)).
Proof.
  intros Hnd. destruct (in_dec_keys d k) as [Hin|Hnot].
  - now rewrite keys_set_present.
  - rewrite keys_set_absent by exact Hnot.
    apply NoDup_app; [exact Hnd | repeat constructor; intros [] |].
    intros x Hx [<-|[]]. contradiction.
Qed.

Lemma in_keys_del (d : PyDict.dict K V) (k x : K) :
  In x (PyDict.keys (PyDict.del d k)) -> In x (PyDict.keys d).
Proof.
  unfold PyDict.keys; induction d as [|[k0 v0] d IH]; simpl; [tauto|].
  destruct (key_eqb k0 k); simpl; intuition.
Qed.

Lemma NoDup_keys_del (d : PyDict.dict K V) (k : K) :
  NoDup (PyDict.keys d) -> NoDup (PyDict.keys (PyDict.del d k)).
Proof.
  induction d as [|[k0 v0] d IH]; simpl; [constructor|].
  intros Hnd. inversion Hnd as [|? ? Hnot Hrest]; subst.
  destruct (key_eqb k0 k); [exact Hrest|].
  change (NoDup (k0 :: PyDict.keys (PyDict.del d k))).
  constructor; [|now apply IH].
  intros Hin. apply Hnot. eapply in_keys_del, Hin.
Qed.

End DictExtras.

(** * The dispatcher, command by command *)

Section Dispatcher.

Local Arguments chatlib.build_message : simpl never.

Lemma dispatch_anonymous (s : state) (conn : socket)
  (client_addr : address) (cmd data : string) (rnd : nat) :
  getpeername conn = Some client_addr ->
  PyDict.get (logged_users s) client_addr = None ->
  handle_client_message conn cmd data rnd s
  = if negb (String.eqb cmd chatlib.login_msg)
    then (Ok true,
          queued s conn (chatlib.build_message "ERROR" "You must login first"))
    else bind (handle_login_message conn data) (fun _ => ret true) s.
Proof.
  intros Hpeer Hlogged. unfold handle_client_message.
  rewrite Hpeer. unfold bind at 1, gets. rewrite Hlogged.
  now destruct (negb _).
Qed.

Lemma handle_login_message_cases (s : state) (conn : socket)
  (client_addr : address) (data : string) :
  getpeername conn = Some client_addr ->
  (forall username,
      credentials s data username ->
      handle_login_message conn data s
      = (Ok tt,
         queued
           (set_logged_users
              (PyDict.set (logged_users s) client_addr username) s)
           conn
           (chatlib.build_message "LOGIN_OK" ("Welcome " ++ username ++ "!"))))
  /\ ((forall username, ~ credentials s data username) ->
      exists text,
        handle_login_message conn data s
        = (Ok tt, queued s conn (chatlib.build_message "ERROR" text))
        /\ String.length text <= String.length data + 21).
Proof.
  intros Hpeer. unfold handle_login_message. rewrite split_data_split.
  split.
  - intros username (udata & Hu & -> & Hnu & Hnp).
    change (username ++ "#" ++ password udata)
      with (username ++ String "#" (password udata)).
    rewrite split_append, split_without_sep by assumption.
    cbn [List.length Nat.eqb]. run_monad.
    rewrite Hu, String.eqb_refl, Hpeer. reflexivity.
  - intros Hno.
    destruct (Nat.eqb_spec (List.length (PyStr.split "#" data)) 2)
      as [Hlen|Hlen];
      [|eexists; split; [reflexivity | cbn [String.length]; lia]].
    destruct (PyStr.split "#" data) as [|username [|pass [|? ?]]] eqn:Hs;
      try discriminate Hlen.
    destruct (split_two_fields _ _ _ _ Hs) as (Hdata & Hnu & Hnp).
    run_monad.
    destruct (PyDict.get (users s) username) as [udata|] eqn:Hu.
    + destruct (String.eqb_spec (password udata) pass) as [Hp|Hp];
        [|eexists; split; [reflexivity | cbn [String.length]; lia]].
      exfalso. apply (Hno username).
      exists udata. subst pass. repeat split; assumption.
    + eexists; split; [reflexivity|].
      rewrite Hdata, !length_append. cbn [String.length].
      rewrite ?length_append. cbn [String.length]. lia.
Qed.

(** X8: a LOGIN from a connection that is not logged in, with data that
    leaves room for the text of the response (21 characters).  It opens a
    session exactly when the data is [username#password] for a user of
    the users mapping and the password of that user; the response is
    then the LOGIN_OK frame that welcomes the user.  In every other case
    the response is an ERROR frame and nothing but the queue changes.  A
    password that contains ['#'] can therefore not log in. *)
Theorem login_outcome (s : state) (conn : socket) (client_addr : address)
  (data : string) (rnd : nat) :
  getpeername conn = Some client_addr ->
  PyDict.get (logged_users s) client_addr = None ->
  String.length data + 21 <= chatlib.MAX_DATA_LENGTH ->
  let r := handle_client_message conn "LOGIN" data rnd s in
  (forall username,
      credentials s data username ->
      exists frame,
        frame_of "LOGIN_OK" ("Welcome " ++ username ++ "!") frame
        /\ r = (Ok true,
                queued
                  (set_logged_users
                     (PyDict.set (logged_users s) client_addr username) s)
                  conn (Some frame))
        /\ PyDict.get (logged_users (snd r)) client_addr = Some username)
  /\ ((forall username, ~ credentials s data username) ->
      exists text frame,
        frame_of "ERROR" text frame
        /\ r = (Ok true, queued s conn (Some frame))).
Proof.
  intros Hpeer Hlogged Hroom r. subst r.
  rewrite (dispatch_anonymous s conn client_addr "LOGIN" data rnd)
    by assumption.
  change (negb ("LOGIN" =? chatlib.login_msg)%string) with false.
  cbv iota. unfold bind.
  destruct (handle_login_message_cases s conn client_addr data Hpeer)
    as [Hyes Hno].
  split.
  - intros username Hc. rewrite (Hyes username Hc).
    destruct (server_reply "LOGIN_OK" ("Welcome " ++ username ++ "!"))
      as [Hframe _]; [unfold server_commands; simpl; tauto|].
    destruct Hframe as (frame & Hbuilt & Hparsed).
    { destruct Hc as (udata & _ & -> & _).
      revert Hroom. rewrite !length_append. cbn [String.length].
      rewrite ?length_append. cbn [String.length]. lia. }
    exists frame. split; [split; assumption|].
    rewrite Hbuilt. split; [reflexivity|].
    simpl. apply get_set_same.
  - intros Hnone. destruct (Hno Hnone) as (text & Ht & Hlen).
    destruct (server_reply "ERROR" text) as [Hframe _];
      [unfold server_commands; simpl; tauto|].
    destruct Hframe as (frame & Hbuilt & Hparsed); [lia|].
    exists text, frame. split; [split; assumption|].
    rewrite Ht, Hbuilt. reflexivity.
Qed.

Lemma login_outcome_witness :
  let r := handle_client_message yossi_sock "LOGIN" "yossi#123" 0 started in
  exists frame,
    frame_of "LOGIN_OK" ("Welcome " ++ "yossi" ++ "!") frame
    /\ r = (Ok true,
            queued
              (set_logged_users
                 (PyDict.set (logged_users started) yossi_addr "yossi")
                 started)
              yossi_sock (Some frame))
    /\ PyDict.get (logged_users (snd r)) yossi_addr = Some "yossi".
Proof.
  destruct (login_outcome started yossi_sock yossi_addr "yossi#123" 0)
    as [Hyes _];
    [ reflexivity | reflexivity
    | apply Nat.leb_le; vm_compute; reflexivity |].
  apply (Hyes "yossi").
  exists (mkUser "123" 50 []).
  repeat split; unfold occurs; simpl; intuition discriminate.
Defined.

(** X9: from a connection that is not logged in, every command but LOGIN
    is answered with the ERROR "You must login first"; the connection is
    kept and nothing but the queue changes. *)
Theorem anonymous_command_rejected (s : state) (conn : socket)
  (client_addr : address) (cmd data : string) (rnd : nat) :
  getpeername conn = Some client_addr ->
  PyDict.get (logged_users s) client_addr = None ->
  cmd <> "LOGIN" ->
  handle_client_message conn cmd data rnd s
  = (Ok true,
     queued s conn (Some "ERROR           |0020|You must login first")).
Proof.
  intros Hpeer Hlogged Hcmd.
  rewrite (dispatch_anonymous s conn client_addr cmd data rnd)
    by assumption.
  destruct (String.eqb_spec cmd chatlib.login_msg) as [He|_];
    [contradiction | reflexivity].
Qed.

Lemma anonymous_command_rejected_witness :
  handle_client_message yossi_sock "SEND_ANSWER" "1#2" 0 started
  = (Ok true,
     queued started yossi_sock
       (Some "ERROR           |0020|You must login first")).
Proof.
  apply (anonymous_command_rejected started yossi_sock yossi_addr);
    [reflexivity | reflexivity | discriminate].
Defined.

(** X10: from a logged-in connection, a command that is none of LOGOUT,
    MY_SCORE, HIGHSCORE, LOGGED, GET_QUESTION and SEND_ANSWER (LOGIN, for
    one) is answered with the ERROR "Unsupported command"; the connection
    is kept and nothing but the queue changes. *)
Theorem unsupported_command (s : state) (conn : socket)
  (client_addr : address) (username cmd data : string) (rnd : nat) :
  getpeername conn = Some client_addr ->
  PyDict.get (logged_users s) client_addr = Some username ->
  ~ In cmd client_commands ->
  handle_client_message conn cmd data rnd s
  = (Ok true,
     queued s conn (Some "ERROR           |0019|Unsupported command")).
Proof.
  intros Hpeer Hlogged Hcmd. unfold handle_client_message.
  rewrite Hpeer. unfold bind at 1, gets. rewrite Hlogged.
  unfold client_commands in Hcmd. cbn [In] in Hcmd.
  repeat match goal with
         | |- context [String.eqb cmd ?c] =>
             destruct (String.eqb_spec cmd c) as [He|_];
               [exfalso; apply Hcmd; rewrite He; tauto|]
         end.
  reflexivity.
Qed.

Lemma unsupported_command_witness :
  handle_client_message yossi_sock "LOGIN" "yossi#123" 0 yossi_logged_in
  = (Ok true,
     queued yossi_logged_in yossi_sock
       (Some "ERROR           |0019|Unsupported command")).
Proof.
  apply (unsupported_command yossi_logged_in yossi_sock yossi_addr "yossi");
    [reflexivity | reflexivity |].
  unfold client_commands; simpl. intuition discriminate.
Defined.

Lemma handle_logout_message_logged_in (s : state) (conn : socket)
  (client_addr : address) (username : string) :
  getpeername conn = Some client_addr ->
  PyDict.get (logged_users s) client_addr = Some username ->
  handle_logout_message conn s = (Ok tt, released s client_addr).
Proof.
  intros Hpeer Hlogged. unfold handle_logout_message. rewrite Hpeer.
  run_monad. unfold PyDict.mem. now rewrite Hlogged.
Qed.

Lemma handle_logout_message_absent (s : state) (conn : socket) :
  (forall client_addr,
      getpeername conn = Some client_addr ->
      PyDict.get (logged_users s) client_addr = None) ->
  handle_logout_message conn s = (Ok tt, s).
Proof.
  intros Habsent. unfold handle_logout_message.
  destruct (getpeername conn) as [client_addr|]; [|reflexivity].
  run_monad. unfold PyDict.mem. now rewrite (Habsent client_addr eq_refl).
Qed.



End Dispatcher.

(** * Responses and failures *)

Section Responses.

Local Arguments chatlib.build_message : simpl never.

Ltac reply_cases :=
  intros s;
  repeat (run_monad;
          match goal with
          | |- context [match ?x with _ => _ end] =>
              lazymatch x with
              | context [match _ with _ => _ end] => fail
              | _ => destruct x eqn:?
              end
          end);
  run_monad; cbn [messages_to_send set_messages_to_send set_users
                  set_logged_users set_users_txt];
  try reflexivity;
  try (do 2 eexists; split;
       [reflexivity | unfold server_commands; simpl; tauto]).

Lemma handle_login_message_replies (conn : socket) (data : string) :
  replies_once conn (handle_login_message conn data).
Proof. unfold handle_login_message. reply_cases. Qed.

Lemma handle_getscore_message_replies (conn : socket) (username : string) :
  replies_once conn (handle_getscore_message conn username).
Proof. unfold handle_getscore_message. reply_cases. Qed.

Lemma handle_highscore_message_replies (conn : socket) :
  replies_once conn (handle_highscore_message conn).
Proof. unfold handle_highscore_message. reply_cases. Qed.

Lemma handle_logged_message_replies (conn : socket) :
  replies_once conn (handle_logged_message conn).
Proof. unfold handle_logged_message. reply_cases. Qed.

Lemma handle_question_message_replies (conn : socket) (username : string)
  (rnd : nat) :
  replies_once conn (handle_question_message conn username rnd).
Proof.
  unfold handle_question_message, create_random_question. reply_cases.
Qed.

Lemma handle_answer_message_replies (conn : socket)
  (username data : string) :
  replies_once conn (handle_answer_message conn username data).
Proof. unfold handle_answer_message. reply_cases. Qed.

Lemma handle_logout_message_quiet (conn : socket) (s : state) :
  fst (handle_logout_message conn s) = Ok tt
  /\ messages_to_send (snd (handle_logout_message conn s))
     = messages_to_send s.
Proof.
  unfold handle_logout_message.
  destruct (getpeername conn); [|split; reflexivity].
  run_monad. destruct (PyDict.mem _ _); split; reflexivity.
Qed.

Lemma replies_once_then_true (conn : socket) (m : M unit) (s : state) :
  replies_once conn m ->
  match bind m (fun _ => ret true) s with
  | (Ok true, s') =>
      exists code text,
        messages_to_send s'
        = (messages_to_send s
           ++ [(conn, chatlib.build_message code text)])%list
        /\ In code server_commands
  | (_, s') => messages_to_send s' = messages_to_send s
  end.
Proof.
  intros Hm. specialize (Hm s). unfold bind.
  destruct (m s) as [[[]|e] s']; exact Hm.
Qed.

(** The queue after [handle_client_message]. *)
Lemma handle_client_message_replies (s : state) (conn : socket)
  (cmd data : string) (rnd : nat) :
  match handle_client_message conn cmd data rnd s with
  | (Ok true, s') =>
      exists code text,
        messages_to_send s'
        = (messages_to_send s
           ++ [(conn, chatlib.build_message code text)])%list
        /\ In code server_commands
  | (_, s') => messages_to_send s' = messages_to_send s
  end.
Proof.
  unfold handle_client_message.
  destruct (getpeername conn) as [client_addr|] eqn:Hpeer; [|reflexivity].
  unfold bind at 1, gets.
  destruct (PyDict.get (logged_users s) client_addr) as [username|].
  - destruct (String.eqb cmd chatlib.logout_msg).
    { unfold bind. destruct (handle_logout_message_quiet conn s) as [Hf Hq].
      destruct (handle_logout_message conn s) as [[[]|e] s'];
        [exact Hq | discriminate Hf]. }
    apply replies_once_then_true.
    destruct (String.eqb cmd chatlib.getscore_msg);
      [apply handle_getscore_message_replies|].
    destruct (String.eqb cmd chatlib.gethighscore_msg);
      [apply handle_highscore_message_replies|].
    destruct (String.eqb cmd chatlib.getlogged_msg);
      [apply handle_logged_message_replies|].
    destruct (String.eqb cmd chatlib.getquestion_msg);
      [apply handle_question_message_replies|].
    destruct (String.eqb cmd chatlib.sendanswer_msg);
      [apply handle_answer_message_replies|].
    intros s0. simpl. do 2 eexists.
    split; [reflexivity | unfold server_commands; simpl; tauto].
  - destruct (negb _).
    + simpl. do 2 eexists.
      split; [reflexivity | unfold server_commands; simpl; tauto].
    + apply replies_once_then_true, handle_login_message_replies.
Qed.

(** X12: whenever the dispatcher keeps the connection, it has queued
    exactly one entry, addressed to the sender: what [build_message]
    makes of one of the commands of the server and a text.  That is a
    frame which parses to that command and that text when the text has
    at most 9999 characters, and no message at all when it is longer.
    When the dispatcher drops the connection (LOGOUT) or raises, it
    queues nothing. *)
Theorem one_response_per_message (s : state) (conn : socket)
  (cmd data : string) (rnd : nat) :
  match handle_client_message conn cmd data rnd s with
  | (Ok true, s') =>
      exists code text,
        messages_to_send s'
        = (messages_to_send s
           ++ [(conn, chatlib.build_message code text)])%list
        /\ In code server_commands
        /\ (String.length text <= chatlib.MAX_DATA_LENGTH ->
            exists frame, frame_of code text frame)
        /\ (chatlib.MAX_DATA_LENGTH < String.length text ->
            chatlib.build_message code text = None)
  | (_, s') => messages_to_send s' = messages_to_send s
  end.
Proof.
  pose proof (handle_client_message_replies s conn cmd data rnd) as Hq.
  destruct (handle_client_message conn cmd data rnd s) as [[[]|e] s'];
    try exact Hq.
  destruct Hq as (code & text & Hqueue & Hcode).
  exists code, text.
  split; [exact Hqueue|]. split; [exact Hcode|].
  now apply server_reply.
Qed.

Lemma one_response_per_message_witness :
  let s' :=
    snd (handle_client_message yossi_sock "MY_SCORE" "" 0 yossi_logged_in)
  in
  exists code text,
    messages_to_send s'
    = (messages_to_send yossi_logged_in
       ++ [(yossi_sock, chatlib.build_message code text)])%list
    /\ In code server_commands
    /\ (String.length text <= chatlib.MAX_DATA_LENGTH ->
        exists frame, frame_of code text frame)
    /\ (chatlib.MAX_DATA_LENGTH < String.length text ->
        chatlib.build_message code text = None).
Proof.
  pose proof (one_response_per_message yossi_logged_in yossi_sock
                "MY_SCORE" "" 0) as Hq.
  change (handle_client_message yossi_sock "MY_SCORE" "" 0 yossi_logged_in)
    with (Ok true,
          queued yossi_logged_in yossi_sock
            (chatlib.build_message "YOUR_SCORE" "50")) in Hq |- *.
  exact Hq.
Defined.

(** X13: a turn of the main loop for a readable client socket never
    raises, whatever was received, and queues at most one message, for
    that socket. *)
Theorem client_turn_never_raises (s : state) (sock : socket)
  (received : result string) (rnd : nat) :
  fst (client_turn sock received rnd s) = Ok tt
  /\ exists new,
       messages_to_send (snd (client_turn sock received rnd s))
       = (messages_to_send s ++ new)%list
       /\ List.length new <= 1
       /\ Forall (fun entry => fst entry = sock) new.
Proof.
  unfold client_turn.
  destruct (getpeername sock);
    [| split; [reflexivity | exists []; rewrite app_nil_r; auto]].
  unfold try_except.
  destruct (recv_message_and_parse received) as [[cmd data]|].
  - unfold bind.
    pose proof (handle_client_message_replies s sock cmd data rnd) as Hq.
    destruct (handle_client_message sock cmd data rnd s) as [[[]|e] s'];
      cbn [fst snd ret].
    + destruct Hq as (code & text & -> & _). split; [reflexivity|].
      eexists [_]. repeat constructor.
    + split; [reflexivity|]. exists []. rewrite app_nil_r. auto.
    + split; [reflexivity|]. simpl. rewrite Hq.
      eexists [_]. repeat constructor.
  - destruct (handle_logout_message_quiet sock s) as [Hf Hq].
    destruct (handle_logout_message sock s) as [[[]|e] s'];
      [|discriminate Hf].
    split; [reflexivity|]. exists []. rewrite app_nil_r. auto.
Qed.

End Responses.

(** * Leaving, and what cannot go wrong *)

Section Leaving.

Local Arguments chatlib.build_message : simpl never.




(** X15: releasing a session is idempotent.  [handle_logout_message] on a
    connection without a session changes nothing, and a second call
    after a first changes nothing more. *)
Theorem logout_idempotent (s : state) (conn : socket) :
  NoDup (PyDict.keys (logged_users s)) ->
  let once := snd (handle_logout_message conn s) in
  handle_logout_message conn once = (Ok tt, once)
  /\ ((forall client_addr,
          getpeername conn = Some client_addr ->
          PyDict.get (logged_users s) client_addr = None) ->
      once = s).
Proof.
  intros Hnd once. split.
  - apply handle_logout_message_absent. intros client_addr Hpeer.
    subst once.
    destruct (PyDict.get (logged_users s) client_addr) as [username|]
      eqn:Hlogged.
    + rewrite (handle_logout_message_logged_in s conn client_addr username)
        by assumption.
      simpl. now apply get_del_same.
    + rewrite handle_logout_message_absent; [exact Hlogged|].
      intros a Ha. congruence.
  - intros Habsent. subst once.
    now rewrite handle_logout_message_absent.
Qed.

Lemma logout_idempotent_witness :
  let once := snd (handle_logout_message yossi_sock yossi_logged_in) in
  handle_logout_message yossi_sock once = (Ok tt, once)
  /\ ((forall client_addr,
          getpeername yossi_sock = Some client_addr ->
          PyDict.get (logged_users yossi_logged_in) client_addr = None) ->
      once = yossi_logged_in).
Proof.
  apply (logout_idempotent yossi_logged_in yossi_sock).
  repeat constructor. intros [].
Defined.








End Leaving.

(** * What a run keeps *)

Section Kept.

Lemma user_grows_refl (e : string * user) : user_grows e e.
Proof.
  repeat split.
  - exists 0%nat. simpl. lia.
  - exists []. now rewrite app_nil_r.
Qed.

Lemma user_grows_trans (a b c : string * user) :
  user_grows a b -> user_grows b c -> user_grows a c.
Proof.
  intros (Hn & Hp & (k & Hk) & (m & Hm)) (Hn' & Hp' & (k' & Hk') & (m' & Hm')).
  repeat split; try congruence.
  - exists (k + k')%nat. lia.
  - exists (m ++ m')%list. rewrite Hm', Hm. now rewrite app_assoc.
Qed.

Lemma users_kept_refl (s : state) : users_kept s s.
Proof.
  split; [reflexivity|].
  induction (users s); constructor; [apply user_grows_refl | assumption].
Qed.

Lemma Forall2_user_grows_trans (a b c : list (string * user)) :
  Forall2 user_grows a b -> Forall2 user_grows b c -> Forall2 user_grows a c.
Proof.
  intros Hab; revert c; induction Hab as [|x y a b Hxy Hab IH];
    intros c Hbc; inversion Hbc; subst; constructor.
  - eapply user_grows_trans; eassumption.
  - now apply IH.
Qed.

Lemma users_kept_trans (a b c : state) :
  users_kept a b -> users_kept b c -> users_kept a c.
Proof.
  intros [Hq Hu] [Hq' Hu']; split; [congruence|].
  eapply Forall2_user_grows_trans; eassumption.
Qed.

Lemma users_kept_same (s s' : state) :
  users s' = users s -> questions s' = questions s -> users_kept s s'.
Proof.
  intros Hu Hq; split; [exact Hq|]. rewrite Hu. apply users_kept_refl.
Qed.

Lemma Forall2_set_user (d : PyDict.dict string user) (username : string)
  (old new : user) :
  PyDict.get d username = Some old ->
  user_grows (username, old) (username, new) ->
  Forall2 user_grows d (PyDict.set d username new).
Proof.
  intros Hget Hgrow; induction d as [|[k v] d IH]; simpl in *;
    [discriminate|].
  destruct (String.eqb_spec k username) as [->|Hne].
  - injection Hget as ->. constructor; [exact Hgrow|].
    clear. induction d; constructor; [apply user_grows_refl | assumption].
  - constructor; [apply user_grows_refl | now apply IH].
Qed.

Lemma Forall2_user_grows_get (d d' : PyDict.dict string user)
  (username : string) (udata : user) :
  Forall2 user_grows d d' ->
  PyDict.get d username = Some udata ->
  exists udata',
    PyDict.get d' username = Some udata'
    /\ user_grows (username, udata) (username, udata').
Proof.
  intros Hall; induction Hall as [|[k v] [k' v'] d d' Hg Hall IH]; simpl;
    [discriminate|].
  destruct Hg as (Hn & Hrest). simpl in Hn. subst k'.
  destruct (String.eqb_spec k username) as [->|Hne]; [|exact IH].
  intros [= ->]. exists v'. split; [reflexivity|].
  split; [reflexivity | exact Hrest].
Qed.

Lemma Forall2_user_grows_keys (d d' : PyDict.dict string user) :
  Forall2 user_grows d d' -> PyDict.keys d' = PyDict.keys d.
Proof.
  unfold PyDict.keys.
  induction 1 as [|x y d d' (Hn & _) Hall IH]; simpl; congruence.
Qed.

Ltac kept := preserve_with users_kept_refl users_kept_trans.

Ltac kept_leaves :=
  kept; try (intros st; apply users_kept_same; reflexivity).

Lemma build_and_send_message_kept (conn : socket) (code data : string) :
  preserves users_kept (build_and_send_message conn code data).
Proof. intros s. now apply users_kept_same. Qed.

Lemma save_user_database_kept : preserves users_kept save_user_database.
Proof. intros s. now apply users_kept_same. Qed.

Lemma handle_login_message_kept (conn : socket) (data : string) :
  preserves users_kept (handle_login_message conn data).
Proof.
  pose proof build_and_send_message_kept as Hsend.
  unfold handle_login_message. kept_leaves.
Qed.

Lemma handle_logout_message_kept (conn : socket) :
  preserves users_kept (handle_logout_message conn).
Proof.
  pose proof save_user_database_kept as Hsave.
  unfold handle_logout_message. kept_leaves.
Qed.

Lemma handle_getscore_message_kept (conn : socket) (username : string) :
  preserves users_kept (handle_getscore_message conn username).
Proof.
  pose proof build_and_send_message_kept as Hsend.
  unfold handle_getscore_message. kept_leaves.
Qed.

Lemma handle_highscore_message_kept (conn : socket) :
  preserves users_kept (handle_highscore_message conn).
Proof.
  pose proof build_and_send_message_kept as Hsend.
  unfold handle_highscore_message. kept_leaves.
Qed.

Lemma handle_logged_message_kept (conn : socket) :
  preserves users_kept (handle_logged_message conn).
Proof.
  pose proof build_and_send_message_kept as Hsend.
  unfold handle_logged_message. kept_leaves.
Qed.

Lemma add_score_kept (username : string) (k : nat) :
  preserves users_kept (add_score username (5 * Z.of_nat k)).
Proof.
  unfold add_score. apply preserves_gets_bind; intros s.
  unfold bind, lift, PyDict.getitem.
  destruct (PyDict.get (users s) username) as [udata|] eqn:Hu;
    [|apply users_kept_refl].
  split; [reflexivity|]. simpl.
  apply (Forall2_set_user _ _ udata); [exact Hu|].
  repeat split; simpl.
  - now exists k.
  - exists []. simpl. now rewrite app_nil_r.
Qed.

Lemma append_question_asked_kept (username : string) (q_num : Z) :
  preserves users_kept (append_question_asked username q_num).
Proof.
  unfold append_question_asked. apply preserves_gets_bind; intros s.
  unfold bind, lift, PyDict.getitem.
  destruct (PyDict.get (users s) username) as [udata|] eqn:Hu;
    [|apply users_kept_refl].
  split; [reflexivity|]. simpl.
  apply (Forall2_set_user _ _ udata); [exact Hu|].
  repeat split; simpl.
  - exists 0%nat. simpl. lia.
  - now exists [q_num].
Qed.

Lemma handle_question_message_kept (conn : socket) (username : string)
  (rnd : nat) :
  preserves users_kept (handle_question_message conn username rnd).
Proof.
  pose proof build_and_send_message_kept as Hsend.
  pose proof save_user_database_kept as Hsave.
  pose proof append_question_asked_kept as Happend.
  unfold handle_question_message, create_random_question. kept_leaves.
Qed.

Lemma handle_answer_message_kept (conn : socket) (username data : string) :
  preserves users_kept (handle_answer_message conn username data).
Proof.
  pose proof build_and_send_message_kept as Hsend.
  assert (Hadd : forall u, preserves users_kept (add_score u 5))
    by (intros u; exact (add_score_kept u 1)).
  unfold handle_answer_message. kept_leaves.
  all: apply Hadd.
Qed.

Lemma handle_client_message_kept (conn : socket) (cmd data : string)
  (rnd : nat) :
  preserves users_kept (handle_client_message conn cmd data rnd).
Proof.
  pose proof build_and_send_message_kept as Hsend.
  pose proof handle_login_message_kept as Hlogin.
  pose proof handle_logout_message_kept as Hlogout.
  pose proof handle_getscore_message_kept as Hscore.
  pose proof handle_highscore_message_kept as Hhigh.
  pose proof handle_logged_message_kept as Hlogged.
  pose proof handle_question_message_kept as Hquestion.
  pose proof handle_answer_message_kept as Hanswer.
  unfold handle_client_message. kept_leaves.
Qed.

Lemma step_kept (e : event) (s : state) : users_kept s (step e s).
Proof.
  pose proof build_and_send_message_kept as Hsend.
  pose proof handle_logout_message_kept as Hlogout.
  pose proof handle_client_message_kept as Hclient.
  destruct e as [sock received rnd | tracked send_raises]; simpl.
  - revert s. change (preserves users_kept (client_turn sock received rnd)).
    unfold client_turn. kept_leaves.
  - revert s.
    change (preserves users_kept
              (send_queued_messages tracked send_raises)).
    unfold send_queued_messages, send_queued. kept_leaves.
Qed.

Lemma run_kept (es : list event) (s : state) : users_kept s (run es s).
Proof.
  revert s; induction es as [|e es IH]; intros s; simpl.
  - apply users_kept_refl.
  - eapply users_kept_trans; [apply step_kept | apply IH].
Qed.

(** X18: no event of the main loop adds, removes or reorders users,
    changes a password, or touches the question bank. *)
Theorem run_keeps_users_and_bank (es : list event) (s : state) :
  questions (run es s) = questions s
  /\ PyDict.keys (users (run es s)) = PyDict.keys (users s)
  /\ forall username udata,
       PyDict.get (users s) username = Some udata ->
       exists udata',
         PyDict.get (users (run es s)) username = Some udata'
         /\ password udata' = password udata.
Proof.
  destruct (run_kept es s) as [Hq Hu]. repeat split.
  - exact Hq.
  - now apply Forall2_user_grows_keys.
  - intros username udata Hget.
    destruct (Forall2_user_grows_get _ _ _ _ Hu Hget)
      as (udata' & Hget' & _ & Hp & _).
    eauto.
Qed.

(** X19: along a run the score of a user grows by a multiple of 5 and
    never decreases, and the asked history of a user only grows at its
    end. *)
Theorem run_grows_scores_and_histories (es : list event) (s : state)
  (username : string) (udata : user) :
  PyDict.get (users s) username = Some udata ->
  exists udata' k more,
    PyDict.get (users (run es s)) username = Some udata'
    /\ score udata' = (score udata + 5 * Z.of_nat k)%Z
    /\ questions_asked udata' = (questions_asked udata ++ more)%list.
Proof.
  intros Hget. destruct (run_kept es s) as [_ Hu].
  destruct (Forall2_user_grows_get _ _ _ _ Hu Hget)
    as (udata' & Hget' & _ & _ & (k & Hk) & (more & Hmore)).
  exists udata', k, more. auto.
Qed.

End Kept.

Lemma run_keeps_users_and_bank_witness :
  let es :=
    [Readable yossi_sock (Ok "LOGIN           |0009|yossi#123") 0;
     Readable yossi_sock (Ok "GET_QUESTION    |0000|") 0;
     Readable yossi_sock (Ok "SEND_ANSWER     |0003|1#2") 0] in
  PyDict.get (users (run es started)) "yossi" = Some (mkUser "123" 55 [1%Z])
  /\ questions (run es started) = questions started
  /\ PyDict.keys (users (run es started)) = PyDict.keys (users started)
  /\ forall username udata,
       PyDict.get (users started) username = Some udata ->
       exists udata',
         PyDict.get (users (run es started)) username = Some udata'
         /\ password udata' = password udata.
Proof.
  intros es. split; [reflexivity|].
  apply (run_keeps_users_and_bank es started).
Defined.

Lemma run_grows_scores_and_histories_witness :
  let es :=
    [Readable yossi_sock (Ok "GET_QUESTION    |0000|") 0;
     Readable yossi_sock (Ok "SEND_ANSWER     |0003|1#2") 0] in
  exists udata' k more,
    PyDict.get (users (run es yossi_logged_in)) "yossi" = Some udata'
    /\ score udata' = (score (mkUser "123" 50 []) + 5 * Z.of_nat k)%Z
    /\ questions_asked udata'
       = (questions_asked (mkUser "123" 50 []) ++ more)%list.
Proof.
  intros es.
  apply (run_grows_scores_and_histories es yossi_logged_in "yossi").
  reflexivity.
Defined.

(** * The names of the logged-in users *)

Section LoggedNames.

Local Arguments chatlib.build_message : simpl never.















(** The empty name: a user that [users.txt] can hold, whose session the
    client does not display. *)
Example logged_reply_empty_name :
  let s :=
    mkState [("", mkUser "pw" 0 [])] [] [(yossi_addr, "")] [] [] in
  load_user_database (Some ",pw,0,") = Ok (users s)
  /\ messages_to_send (snd (handle_client_message yossi_sock "LOGGED" "" 0 s))
     = [(yossi_sock, Some "LOGGED_ANSWER   |0000|")]
  /\ client.get_logged_users
       (client.recv_message_and_parse (Ok "LOGGED_ANSWER   |0000|"))
     = client.No_users_logged_in.
Proof. repeat split. Qed.

End LoggedNames.

(** * The high-score table *)

Section HighScore.

Local Arguments chatlib.build_message : simpl never.







Example highscore_table :
  messages_to_send
    (snd (handle_client_message yossi_sock "HIGHSCORE" "" 0 yossi_logged_in))
  = [(yossi_sock,
      Some ("ALL_SCORE       |0026|master:200" ++ newline ++ "yossi:50"
            ++ newline ++ "test:0"))].
Proof. reflexivity. Qed.

End HighScore.

(** * Responses that do not fit in a frame, and the sending phase *)

Section Sending.

Local Arguments chatlib.build_message : simpl never.

(** X22: the ERROR for an unknown user repeats the username.  When the
    username is so long that the text exceeds 9999 characters,
    [build_message] fails and what the server queues for the connection
    is no message at all. *)
Theorem login_unknown_long_username (s : state) (conn : socket)
  (client_addr : address) (username pass : string) (rnd : nat) :
  getpeername conn = Some client_addr ->
  PyDict.get (logged_users s) client_addr = None ->
  ~ occurs "#" username -> ~ occurs "#" pass ->
  PyDict.get (users s) username = None ->
  chatlib.MAX_DATA_LENGTH < String.length username + 22 ->
  handle_client_message conn "LOGIN" (username ++ "#" ++ pass) rnd s
  = (Ok true, queued s conn None).
Proof.
  intros Hpeer Hlogged Hnu Hnp Hu Hlong.
  rewrite (dispatch_anonymous s conn client_addr "LOGIN" _ rnd)
    by assumption.
  change (negb ("LOGIN" =? chatlib.login_msg)%string) with false.
  cbv iota. unfold bind, handle_login_message.
  rewrite split_data_split.
  change (username ++ "#" ++ pass) with (username ++ String "#" pass).
  rewrite split_append, split_without_sep by assumption.
  cbn [List.length Nat.eqb]. run_monad. rewrite Hu.
  rewrite build_message_too_long; [reflexivity|].
  rewrite !length_append. simpl. lia.
Qed.

Lemma login_unknown_long_username_witness :
  handle_client_message yossi_sock "LOGIN"
    (PyStr.repeat_char "a" (10 ^ 4) ++ "#" ++ "x") 0 started
  = (Ok true, queued started yossi_sock None).
Proof.
  apply (login_unknown_long_username started yossi_sock yossi_addr
           (PyStr.repeat_char "a" (10 ^ 4)) "x" 0).
  - reflexivity.
  - reflexivity.
  - apply contains_char_false. vm_compute. reflexivity.
  - unfold occurs; simpl; intuition discriminate.
  - vm_compute. reflexivity.
  - rewrite length_repeat_char. unfold chatlib.MAX_DATA_LENGTH.
    change chatlib.LENGTH_FIELD_LENGTH with 4. lia.
Defined.

Lemma handle_logout_message_effect (conn : socket) (s : state) :
  let r := handle_logout_message conn s in
  fst r = Ok tt
  /\ messages_to_send (snd r) = messages_to_send s
  /\ users (snd r) = users s
  /\ questions (snd r) = questions s
  /\ incl (PyDict.values (logged_users (snd r)))
          (PyDict.values (logged_users s)).
Proof.
  unfold handle_logout_message.
  destruct (getpeername conn) as [client_addr|];
    [| repeat split; apply incl_refl ].
  run_monad. destruct (PyDict.mem _ _); simpl; repeat split;
    try apply incl_refl.
  intros u Hu. eapply in_values_del, Hu.
Qed.

Lemma for_each_send_queued (tracked : socket -> bool)
  (send_raises : socket -> string -> bool)
  (queue : list (socket * option string)) (s : state) :
  let r := for_each (send_queued tracked send_raises) queue s in
  fst r = Ok tt
  /\ messages_to_send (snd r) = messages_to_send s
  /\ users (snd r) = users s
  /\ questions (snd r) = questions s
  /\ incl (PyDict.values (logged_users (snd r)))
          (PyDict.values (logged_users s))
  /\ ((forall conn msg,
          In (conn, msg) queue ->
          exists m, msg = Some m /\ send_raises conn m = false) ->
      snd r = s).
Proof.
  revert s; induction queue as [|[conn msg] queue IH]; intros s;
    cbn [for_each].
  - repeat split; try apply incl_refl.
  - unfold bind.
    assert (Hone : let r := send_queued tracked send_raises (conn, msg) s in
                   fst r = Ok tt
                   /\ messages_to_send (snd r) = messages_to_send s
                   /\ users (snd r) = users s
                   /\ questions (snd r) = questions s
                   /\ incl (PyDict.values (logged_users (snd r)))
                           (PyDict.values (logged_users s))
                   /\ ((exists m, msg = Some m /\ send_raises conn m = false)
                       -> snd r = s)).
    { unfold send_queued.
      destruct (getpeername conn);
        [| repeat split; apply incl_refl ].
      destruct msg as [m|].
      - destruct (send_raises conn m) eqn:Hr; cbn [andb].
        + destruct (tracked conn).
          * destruct (handle_logout_message_effect conn s)
              as (H1 & H2 & H3 & H4 & H5).
            repeat split; try assumption.
            intros (m' & [= <-] & Hno). congruence.
          * repeat split; apply incl_refl.
        + repeat split; apply incl_refl.
      - cbn [andb]. destruct (tracked conn).
        + destruct (handle_logout_message_effect conn s)
            as (H1 & H2 & H3 & H4 & H5).
          repeat split; try assumption.
          intros (m' & Hm & _). discriminate Hm.
        + repeat split; apply incl_refl. }
    cbv zeta in Hone.
    destruct (send_queued tracked send_raises (conn, msg) s) as [[[]|e] s1];
      cbn [fst snd] in Hone;
      destruct Hone as (H1 & H2 & H3 & H4 & H5 & H6); [|discriminate H1].
    destruct (IH s1) as (I1 & I2 & I3 & I4 & I5 & I6).
    repeat split; try congruence.
    + eapply incl_tran; eassumption.
    + intros Hall. rewrite I6.
      * apply H6. apply (Hall conn msg). now left.
      * intros c m' Hin. apply Hall. now right.
Qed.

(** X23: the sending phase never raises and always leaves the queue
    empty, whatever happens to the sends.  It changes neither the users
    nor the bank, and opens no session; when every queued entry is a
    message and no send fails, it changes nothing but the queue. *)
Theorem sending_phase (s : state) (tracked : socket -> bool)
  (send_raises : socket -> string -> bool) :
  let r := send_queued_messages tracked send_raises s in
  fst r = Ok tt
  /\ messages_to_send (snd r) = []
  /\ users (snd r) = users s
  /\ questions (snd r) = questions s
  /\ incl (PyDict.values (logged_users (snd r)))
          (PyDict.values (logged_users s))
  /\ ((forall conn msg,
          In (conn, msg) (messages_to_send s) ->
          exists m, msg = Some m /\ send_raises conn m = false) ->
      snd r = set_messages_to_send [] s).
Proof.
  unfold send_queued_messages. run_monad.
  destruct (for_each_send_queued tracked send_raises (messages_to_send s)
              (set_messages_to_send [] s))
    as (H1 & H2 & H3 & H4 & H5 & H6).
  repeat split; assumption.
Qed.

End Sending.

(** * Saving and loading the users *)

Example load_saved_default_users :
  load_user_database (Some (users_file default_users)) = Ok default_users
  /\ load_user_database
       (Some (users_file (users (run
          [Readable yossi_sock (Ok "GET_QUESTION    |0000|") 0;
           Readable yossi_sock (Ok "SEND_ANSWER     |0003|1#2") 0]
          yossi_logged_in))))
     = Ok [("test", mkUser "test" 0 []);
           ("yossi", mkUser "123" 55 [1%Z]);
           ("master", mkUser "master" 200 [])].
Proof. split; reflexivity. Qed.

Example load_examples :
  load_user_database (Some ("a , b ,7, 1  2 " ++ newline ++ newline
                             ++ "junk" ++ newline ++ "c,d,-3"))
  = Ok [("a", mkUser "b" 7 [1%Z; 2%Z]); ("c", mkUser "d" (-3) [])]
  /\ load_user_database (Some "a,b,seven") = Raise ValueError
  /\ PyStr.split_whitespace "  12   7 " = ["12"; "7"]
  /\ file_lines ("a" ++ String carriage_return (String line_feed "b"))
     = ["a" ++ newline; "b"].
Proof. repeat split. Qed.

Section Persistence.

Lemma occurs_append (c : ascii) (a b : string) :
  occurs c (a ++ b) <-> occurs c a \/ occurs c b.
Proof.
  unfold occurs. induction a as [|x a IH]; simpl; [tauto|].
  rewrite IH. tauto.
Qed.

Lemma all_chars_not_occurs (p : ascii -> bool) (c : ascii) (s : string) :
  PyStr.all_chars p s = true -> p c = false -> ~ occurs c s.
Proof.
  intros Hall Hc. unfold occurs.
  induction s as [|x s IH]; simpl; [tauto|].
  simpl in Hall. apply andb_true_iff in Hall as [Hx Hs].
  intros [->|Hin]; [congruence | now apply IH].
Qed.

Lemma numeric_str_of_Z (z : Z) :
  PyStr.all_chars numeric_char (PyStr.str_of_Z z) = true.
Proof.
  assert (Hnat : forall n,
             PyStr.all_chars numeric_char (PyStr.str_of_nat n) = true).
  { intros n. apply (all_chars_weaken PyStr.isdecimal_char);
      [|apply all_decimal_str_of_nat].
    intros c Hc. unfold numeric_char. now rewrite Hc. }
  unfold PyStr.str_of_Z. destruct (z <? 0)%Z; [|apply Hnat].
  cbn [PyStr.all_chars]. now rewrite Hnat.
Qed.

Lemma str_of_Z_nonempty (z : Z) : PyStr.str_of_Z z <> "".
Proof.
  unfold PyStr.str_of_Z. destruct (z <? 0)%Z; [discriminate|].
  apply str_of_nat_nonempty.
Qed.

Lemma numeric_visible (c : ascii) :
  numeric_char c = true -> visible_char c = true.
Proof.
  unfold numeric_char, visible_char, PyStr.isdecimal_char,
    PyStr.isspace_char.
  destruct (Ascii.eqb_spec c "-") as [->|_]; [reflexivity|].
  rewrite orb_false_r.
  destruct (Nat.leb_spec 48 (nat_of_ascii c)),
           (Nat.leb_spec (nat_of_ascii c) 57); try discriminate.
  intros _.
  repeat match goal with
         | |- context [?a <=? ?b] => destruct (Nat.leb_spec a b); try lia
         | |- context [?a =? ?b] => destruct (Nat.eqb_spec a b); try lia
         end; reflexivity.
Qed.

Lemma visible_str_of_Z (z : Z) :
  PyStr.all_chars visible_char (PyStr.str_of_Z z) = true.
Proof.
  apply (all_chars_weaken numeric_char);
    [exact numeric_visible | apply numeric_str_of_Z].
Qed.

(** *** [strip] on strings without whitespace at their ends *)

Lemma lstrip_head (s : string) (c : ascii) (r : string) :
  PyStr.lstrip s = String c r -> PyStr.isspace_char c = false.
Proof.
  induction s as [|x s IH]; simpl; [discriminate|].
  destruct (PyStr.isspace_char x) eqn:Hx; [exact IH|].
  intros [= <- _]. exact Hx.
Qed.

Lemma lstrip_visible_head (c : ascii) (r : string) :
  PyStr.isspace_char c = false -> PyStr.lstrip (String c r) = String c r.
Proof. intros Hc. simpl. now rewrite Hc. Qed.

Lemma rstrip_append_fixed (a b : string) :
  PyStr.rstrip b = b -> b <> "" -> PyStr.rstrip (a ++ b) = a ++ b.
Proof.
  intros Hb Hne. induction a as [|c a IH]; [exact Hb|].
  cbn [append PyStr.rstrip]. rewrite IH.
  destruct (a ++ b) eqn:Hab; [|reflexivity].
  destruct a; [simpl in Hab; congruence | discriminate Hab].
Qed.

Lemma rstrip_visible (s : string) :
  PyStr.all_chars visible_char s = true -> PyStr.rstrip s = s.
Proof.
  induction s as [|c s IH]; [reflexivity|].
  cbn [PyStr.all_chars PyStr.rstrip]. rewrite andb_true_iff.
  intros [Hc Hs]. rewrite (IH Hs).
  unfold visible_char in Hc. apply negb_true_iff in Hc.
  destruct s; [now rewrite Hc | reflexivity].
Qed.

Lemma rstrip_append_space (s : string) (c : ascii) :
  PyStr.isspace_char c = true ->
  PyStr.rstrip (s ++ String c "") = PyStr.rstrip s.
Proof.
  intros Hc. induction s as [|x s IH]; simpl; [now rewrite Hc|].
  now rewrite IH.
Qed.

Lemma strip_fixed_head (s : string) (c : ascii) (r : string) :
  PyStr.strip s = s -> s = String c r -> PyStr.isspace_char c = false.
Proof.
  intros Hs He. rewrite He in Hs at 2.
  unfold PyStr.strip in Hs. eapply lstrip_head, Hs.
Qed.

Lemma strip_fixed_rstrip (s : string) :
  PyStr.strip s = s -> PyStr.rstrip s = s.
Proof.
  intros Hs. rewrite <- Hs at 1. unfold PyStr.strip.
  rewrite rstrip_lstrip, rstrip_idempotent. exact Hs.
Qed.

(** *** Words *)

Lemma split_whitespace_word (w r : string) :
  PyStr.all_chars visible_char w = true -> w <> "" ->
  PyStr.split_whitespace (w ++ String " " r) = w :: PyStr.split_whitespace r.
Proof.
  induction w as [|c w IH]; [congruence|].
  cbn [PyStr.all_chars]. rewrite andb_true_iff. intros [Hc Hw] _.
  unfold visible_char in Hc. apply negb_true_iff in Hc.
  destruct w as [|d w].
  - simpl. now rewrite Hc.
  - specialize (IH Hw ltac:(discriminate)).
    cbn [append] in *. cbn [PyStr.split_whitespace]. rewrite Hc.
    cbn [PyStr.all_chars] in Hw. apply andb_true_iff in Hw as [Hd _].
    unfold visible_char in Hd. apply negb_true_iff in Hd. rewrite Hd.
    cbn [PyStr.split_whitespace] in IH. rewrite Hd in IH.
    now rewrite IH.
Qed.

Lemma split_whitespace_one (w : string) :
  PyStr.all_chars visible_char w = true -> w <> "" ->
  PyStr.split_whitespace w = [w].
Proof.
  induction w as [|c w IH]; [congruence|].
  cbn [PyStr.all_chars]. rewrite andb_true_iff. intros [Hc Hw] _.
  unfold visible_char in Hc. apply negb_true_iff in Hc.
  destruct w as [|d w].
  - simpl. now rewrite Hc.
  - specialize (IH Hw ltac:(discriminate)).
    cbn [PyStr.split_whitespace]. rewrite Hc.
    cbn [PyStr.all_chars] in Hw. apply andb_true_iff in Hw as [Hd _].
    unfold visible_char in Hd. apply negb_true_iff in Hd. rewrite Hd.
    cbn [PyStr.split_whitespace] in IH. rewrite Hd in IH.
    now rewrite IH.
Qed.

Lemma split_whitespace_join (ws : list string) :
  Forall (fun w => PyStr.all_chars visible_char w = true /\ w <> "") ws ->
  PyStr.split_whitespace (PyStr.join " " ws) = ws.
Proof.
  unfold PyStr.join. induction 1 as [|w ws [Hw Hne] Hall IH];
    [reflexivity|].
  destruct ws as [|w' ws].
  - simpl. now apply split_whitespace_one.
  - rewrite concat_cons by discriminate.
    change (w ++ " " ++ String.concat " " (w' :: ws))
      with (w ++ String " " (String.concat " " (w' :: ws))).
    rewrite split_whitespace_word by assumption. now rewrite IH.
Qed.

Lemma int_list_str_of_Z (l : list Z) :
  Forall within_int_limit l ->
  int_list (map PyStr.str_of_Z l) = Ok l.
Proof.
  induction 1 as [|z l Hz Hl IH]; [reflexivity|].
  cbn [map int_list]. now rewrite (int_str_of_Z z Hz), IH.
Qed.

Lemma int_list_limit (words : list string) (l : list Z) :
  int_list words = Ok l -> Forall within_int_limit l.
Proof.
  revert l; induction words as [|w ws IH]; intros l; cbn [int_list].
  - intros [= <-]. constructor.
  - destruct (PyStr.int w) as [z|] eqn:Hz; [|discriminate].
    destruct (int_list ws) as [zs|]; [|discriminate].
    intros [= <-]. constructor; [now apply (int_limit w) | now apply IH].
Qed.

End Persistence.

Section UserLines.

Lemma append_empty_r (s : string) : s ++ "" = s.
Proof. induction s as [|c s IH]; simpl; congruence. Qed.

Lemma eqb_empty_false (s : string) : s <> "" -> String.eqb s "" = false.
Proof. intros Hne. now apply String.eqb_neq. Qed.

Lemma user_line_body_newline (username : string) (udata : user) :
  user_line (username, udata) = user_line_body username udata ++ newline.
Proof.
  unfold user_line, user_line_body, asked_field.
  now rewrite !append_assoc.
Qed.

Lemma numeric_or_space_asked_field (l : list Z) :
  PyStr.all_chars numeric_or_space_char (asked_field l) = true.
Proof.
  assert (Hz : forall z,
             PyStr.all_chars numeric_or_space_char (PyStr.str_of_Z z)
             = true).
  { intros z. apply (all_chars_weaken numeric_char);
      [|apply numeric_str_of_Z].
    intros c Hc. unfold numeric_or_space_char. now rewrite Hc. }
  unfold asked_field, PyStr.join. induction l as [|z l IH]; [reflexivity|].
  destruct l as [|z' l]; [apply Hz|].
  cbn [map]. rewrite concat_cons by discriminate.
  rewrite !all_chars_append, Hz. cbn [map] in IH. now rewrite IH.
Qed.

Lemma asked_field_fixed (l : list Z) :
  l <> [] ->
  asked_field l <> ""
  /\ PyStr.rstrip (asked_field l) = asked_field l
  /\ PyStr.lstrip (asked_field l) = asked_field l.
Proof.
  unfold asked_field, PyStr.join.
  induction l as [|z l IH]; [congruence|]. intros _.
  pose proof (str_of_Z_nonempty z) as Hne.
  pose proof (visible_str_of_Z z) as Hvis.
  assert (Hhead : forall r,
             PyStr.str_of_Z z ++ r <> ""
             /\ PyStr.lstrip (PyStr.str_of_Z z ++ r) = PyStr.str_of_Z z ++ r).
  { intros r. destruct (PyStr.str_of_Z z) as [|c s]; [congruence|].
    cbn [PyStr.all_chars] in Hvis. apply andb_true_iff in Hvis as [Hc _].
    unfold visible_char in Hc. apply negb_true_iff in Hc.
    split; [discriminate|]. cbn [append]. now apply lstrip_visible_head. }
  destruct l as [|z' l].
  - cbn [map String.concat]. repeat split.
    + exact Hne.
    + now apply rstrip_visible.
    + rewrite <- (append_empty_r (PyStr.str_of_Z z)). apply Hhead.
  - cbn [map]. rewrite concat_cons by discriminate.
    destruct (IH ltac:(discriminate)) as (Hne' & Hr & _).
    cbn [map] in Hne', Hr.
    repeat split; try apply Hhead.
    rewrite <- append_assoc. now apply rstrip_append_fixed.
Qed.

Lemma strip_asked_field (l : list Z) :
  PyStr.strip (asked_field l) = asked_field l.
Proof.
  destruct l as [|z l]; [reflexivity|].
  destruct (asked_field_fixed (z :: l)) as (_ & Hr & Hl); [discriminate|].
  unfold PyStr.strip. now rewrite Hr.
Qed.

Lemma strip_str_of_Z (z : Z) :
  PyStr.strip (PyStr.str_of_Z z) = PyStr.str_of_Z z.
Proof.
  unfold PyStr.strip. rewrite rstrip_visible by apply visible_str_of_Z.
  pose proof (visible_str_of_Z z) as Hvis.
  destruct (PyStr.str_of_Z z) as [|c s]; [reflexivity|].
  cbn [PyStr.all_chars] in Hvis. apply andb_true_iff in Hvis as [Hc _].
  unfold visible_char in Hc. apply negb_true_iff in Hc.
  now apply lstrip_visible_head.
Qed.

Lemma strip_user_line (username : string) (udata : user) :
  PyStr.strip username = username ->
  PyStr.strip (user_line (username, udata))
  = user_line_body username udata.
Proof.
  intros Hu. rewrite user_line_body_newline. unfold PyStr.strip, newline.
  rewrite rstrip_append_space by reflexivity.
  assert (Hr : PyStr.rstrip (user_line_body username udata)
               = user_line_body username udata).
  { unfold user_line_body.
    rewrite <- !append_assoc.
    rewrite !append_assoc.
    change (username ++ "," ++ password udata ++ ","
            ++ PyStr.str_of_Z (score udata) ++ ","
            ++ asked_field (questions_asked udata))
      with (username ++ "," ++ password udata ++ ","
            ++ PyStr.str_of_Z (score udata)
            ++ (String "," (asked_field (questions_asked udata)))).
    rewrite <- !append_assoc.
    apply rstrip_append_fixed; [|discriminate].
    destruct (questions_asked udata) as [|z l] eqn:Hl; [reflexivity|].
    destruct (asked_field_fixed (z :: l)) as (Hne & Hfix & _);
      [discriminate|].
    change (String "," (asked_field (z :: l)))
      with ("," ++ asked_field (z :: l)).
    now apply rstrip_append_fixed. }
  rewrite Hr. unfold user_line_body.
  destruct username as [|c r]; [reflexivity|].
  cbn [append]. apply lstrip_visible_head.
  now apply (strip_fixed_head (String c r) c r).
Qed.

Lemma split_user_line_body (username : string) (udata : user) :
  ~ occurs "," username -> ~ occurs "," (password udata) ->
  PyStr.split "," (user_line_body username udata)
  = [username; password udata; PyStr.str_of_Z (score udata);
     asked_field (questions_asked udata)].
Proof.
  intros Hu Hp. unfold user_line_body.
  change (username ++ "," ++ password udata ++ ","
          ++ PyStr.str_of_Z (score udata) ++ ","
          ++ asked_field (questions_asked udata))
    with (username
          ++ String ","
               (password udata
                ++ String ","
                     (PyStr.str_of_Z (score udata)
                      ++ String "," (asked_field (questions_asked udata))))).
  rewrite !split_append, split_without_sep; try assumption;
    try reflexivity.
  - apply (all_chars_not_occurs numeric_or_space_char);
      [apply numeric_or_space_asked_field | reflexivity].
  - apply (all_chars_not_occurs numeric_char);
      [apply numeric_str_of_Z | reflexivity].
Qed.

(** One saved line, loaded. *)
Lemma load_user_line_saved (us : PyDict.dict string user)
  (username : string) (udata : user) :
  clean_field username -> clean_field (password udata) ->
  within_int_limit (score udata) ->
  Forall within_int_limit (questions_asked udata) ->
  load_user_line us (user_line (username, udata))
  = Ok (PyDict.set us username udata).
Proof.
  intros (Hu1 & _ & _ & Hu4) (Hp1 & _ & _ & Hp4) Hscore Hasked.
  unfold load_user_line. rewrite (strip_user_line username udata Hu4).
  rewrite eqb_empty_false.
  2:{ unfold user_line_body. destruct username; discriminate. }
  rewrite split_user_line_body by assumption.
  cbn [List.length Nat.ltb Nat.leb].
  rewrite Hu4, Hp4, strip_str_of_Z, (int_str_of_Z _ Hscore),
    strip_asked_field.
  destruct udata as [pw sc asked_list]. cbn [questions_asked] in *.
  destruct asked_list as [|z l]; [reflexivity|].
  destruct (asked_field_fixed (z :: l)) as (Hne & _ & _); [discriminate|].
  rewrite (eqb_empty_false _ Hne).
  unfold asked_field at 1. rewrite split_whitespace_join.
  - now rewrite int_list_str_of_Z.
  - clear Hasked.
    apply Forall_forall. intros w Hw. apply in_map_iff in Hw as (x & <- & _).
    split; [apply visible_str_of_Z | apply str_of_Z_nonempty].
Qed.

End UserLines.

Section UsersFile.

Lemma file_lines_line (body rest : string) :
  ~ occurs line_feed body -> ~ occurs carriage_return body ->
  file_lines ((body ++ newline) ++ rest)
  = (body ++ newline) :: file_lines rest.
Proof.
  induction body as [|c body IH]; intros Hlf Hcr.
  - reflexivity.
  - rewrite occurs_cons in Hlf, Hcr.
    cbn [append file_lines].
    destruct (Ascii.eqb_spec c line_feed) as [->|_]; [tauto|].
    destruct (Ascii.eqb_spec c carriage_return) as [->|_]; [tauto|].
    rewrite IH by tauto. reflexivity.
Qed.

Lemma user_line_body_one_line (username : string) (udata : user) :
  clean_field username -> clean_field (password udata) ->
  ~ occurs line_feed (user_line_body username udata)
  /\ ~ occurs carriage_return (user_line_body username udata).
Proof.
  intros (_ & Hu2 & Hu3 & _) (_ & Hp2 & Hp3 & _).
  assert (Hsep : forall c, c <> ","%char -> ~ occurs c ",")
    by (intros c Hc [He|[]]; congruence).
  assert (Hnum : forall c, numeric_or_space_char c = false ->
                           ~ occurs c (PyStr.str_of_Z (score udata))
                           /\ ~ occurs c
                                (asked_field (questions_asked udata))).
  { intros c Hc. split.
    - apply (all_chars_not_occurs numeric_char);
        [apply numeric_str_of_Z|].
      unfold numeric_or_space_char in Hc.
      now apply orb_false_iff in Hc as [Hc _].
    - apply (all_chars_not_occurs numeric_or_space_char);
        [apply numeric_or_space_asked_field | exact Hc]. }
  unfold user_line_body. rewrite !occurs_append.
  destruct (Hnum line_feed eq_refl) as [Hs1 Ha1].
  destruct (Hnum carriage_return eq_refl) as [Hs2 Ha2].
  pose proof (Hsep line_feed ltac:(discriminate)) as Hc1.
  pose proof (Hsep carriage_return ltac:(discriminate)) as Hc2.
  split; tauto.
Qed.

Lemma file_lines_users_file (us : PyDict.dict string user) :
  Forall (fun e => clean_field (fst e) /\ clean_field (password (snd e)))
    us ->
  file_lines (users_file us) = map user_line us.
Proof.
  unfold users_file, PyDict.items.
  induction 1 as [|[username udata] us [Hu Hp] Hall IH]; [reflexivity|].
  destruct (user_line_body_one_line username udata Hu Hp) as [Hlf Hcr].
  cbn [map]. destruct us as [|e us].
  - cbn [map String.concat]. rewrite user_line_body_newline.
    rewrite <- (append_empty_r (user_line_body username udata ++ newline))
      at 1.
    now rewrite file_lines_line.
  - rewrite concat_cons by discriminate.
    rewrite user_line_body_newline.
    change ("" ++ String.concat "" (map user_line (e :: us)))
      with (String.concat "" (map user_line (e :: us))).
    rewrite file_lines_line by assumption.
    now rewrite IH.
Qed.

Lemma set_absent {V : Type} (d : PyDict.dict string V) (k : string)
  (v : V) :
  ~ In k (PyDict.keys d) -> PyDict.set d k v = (d ++ [(k, v)])%list.
Proof.
  unfold PyDict.keys; induction d as [|[k0 v0] d IH]; simpl;
    [reflexivity|].
  intros Hnot. destruct (String.eqb_spec k0 k) as [->|Hne]; [tauto|].
  rewrite IH by tauto. reflexivity.
Qed.

Lemma load_user_lines_saved (acc us : PyDict.dict string user) :
  NoDup (PyDict.keys (acc ++ us)%list) ->
  Forall (fun e => clean_field (fst e) /\ clean_field (password (snd e)))
    us ->
  users_within_limit us ->
  load_user_lines acc (map user_line us) = Ok (acc ++ us)%list.
Proof.
  intros Hnd Hall; revert acc Hnd.
  induction Hall as [|[username udata] us [Hu Hp] Hall IH];
    intros acc Hnd Hlim.
  - simpl. now rewrite app_nil_r.
  - inversion Hlim as [|? ? [Hscore Hasked] Hlim']; subst.
    cbn [map load_user_lines].
    rewrite (load_user_line_saved acc username udata Hu Hp Hscore Hasked).
    unfold PyDict.keys in Hnd. rewrite map_app in Hnd. cbn [map fst] in Hnd.
    rewrite set_absent.
    + rewrite IH; [now rewrite <- app_assoc| |exact Hlim'].
      unfold PyDict.keys. rewrite <- app_assoc. cbn [app].
      now rewrite map_app.
    + apply NoDup_remove_2 in Hnd. intros Hin. apply Hnd.
      apply in_or_app. now left.
Qed.

Lemma load_users_file (us : PyDict.dict string user) :
  clean_users us -> users_within_limit us ->
  load_user_database (Some (users_file us)) = Ok us.
Proof.
  intros [Hnd Hall] Hlim. unfold load_user_database.
  rewrite file_lines_users_file by exact Hall.
  now apply (load_user_lines_saved [] us).
Qed.

(** X24: what [save_user_database] writes, [load_user_database] reads
    back as the same users, in the same order, with the same passwords,
    scores and asked histories, as long as no name and no password has a
    comma, a line break, or whitespace at its ends, and no score and no
    question id has more digits than [int] converts. *)
Theorem save_then_load (s : state) :
  clean_users (users s) ->
  users_within_limit (users s) ->
  exists content,
    hd_error (users_txt (snd (save_user_database s))) = Some content
    /\ load_user_database (Some content) = Ok (users s).
Proof.
  intros Hclean Hlim. exists (users_file (users s)).
  split; [reflexivity | now apply load_users_file].
Qed.

End UsersFile.

Lemma save_then_load_witness :
  exists content,
    hd_error (users_txt (snd (save_user_database yossi_exhausted)))
    = Some content
    /\ load_user_database (Some content) = Ok (users yossi_exhausted).
Proof.
  apply (save_then_load yossi_exhausted).
  - split.
    + repeat constructor; simpl; intuition discriminate.
    + repeat constructor; unfold occurs; simpl; intuition discriminate.
  - repeat constructor; vm_compute; reflexivity.
Defined.

Section LoadedUsers.

Lemma occurs_lstrip (c : ascii) (s : string) :
  occurs c (PyStr.lstrip s) -> occurs c s.
Proof.
  induction s as [|x s IH]; simpl; [tauto|].
  destruct (PyStr.isspace_char x); [|tauto].
  intros H. rewrite occurs_cons. right. now apply IH.
Qed.

Lemma occurs_rstrip (c : ascii) (s : string) :
  occurs c (PyStr.rstrip s) -> occurs c s.
Proof.
  induction s as [|x s IH]; simpl; [tauto|].
  rewrite occurs_cons.
  destruct (PyStr.rstrip s) as [|y r].
  - destruct (PyStr.isspace_char x); [intros [] |].
    intros [H|[]]. now left.
  - rewrite occurs_cons. intros [H|H]; [now left | right; now apply IH].
Qed.

Lemma occurs_strip (c : ascii) (s : string) :
  occurs c (PyStr.strip s) -> occurs c s.
Proof. intros H. now apply occurs_rstrip, occurs_lstrip. Qed.

Lemma occurs_split (c sep : ascii) (s f : string) :
  In f (PyStr.split sep s) -> occurs c f -> occurs c s.
Proof.
  revert f; induction s as [|x s IH]; intros f; simpl.
  - intros [<-|[]] [].
  - rewrite occurs_cons. destruct (Ascii.eqb x sep).
    + intros [<-|Hin]; [intros [] | right; eauto].
    + destruct (PyStr.split sep s) as [|g gs];
        [intros [<-|[]] [H|[]]; now left|].
      intros [<-|Hin].
      * rewrite occurs_cons. intros [H|H]; [now left|].
        right. apply (IH g); [now left | exact H].
      * right. apply (IH f); [now right | assumption].
Qed.

(** A line of a text file holds no line break but a line feed at its
    end. *)
Lemma file_lines_one_line (content line : string) :
  In line (file_lines content) ->
  exists body,
    (line = body ++ newline \/ line = body)
    /\ ~ occurs line_feed body /\ ~ occurs carriage_return body.
Proof.
  assert (Hnl : exists body,
             (newline = body ++ newline \/ newline = body)
             /\ ~ occurs line_feed body /\ ~ occurs carriage_return body).
  { exists "". split; [now left | split; intros []]. }
  remember (String.length content) as n eqn:Hn.
  revert content line Hn.
  induction n as [n IH] using lt_wf_ind; intros content line Hn.
  destruct content as [|c r]; [intros []|].
  cbn [file_lines].
  destruct (Ascii.eqb_spec c line_feed) as [->|Hlf].
  { intros [<-|Hin]; [exact Hnl|].
    apply (IH (String.length r)) with (content := r);
      [subst n; simpl; lia | reflexivity | exact Hin]. }
  destruct (Ascii.eqb_spec c carriage_return) as [->|Hcr].
  { destruct r as [|d r']; [intros [<-|[]]; exact Hnl|].
    destruct (Ascii.eqb d line_feed).
    - intros [<-|Hin]; [exact Hnl|].
      apply (IH (String.length r')) with (content := r');
        [subst n; simpl; lia | reflexivity | exact Hin].
    - intros [<-|Hin]; [exact Hnl|].
      apply (IH (String.length (String d r'))) with (content := String d r');
        [subst n; simpl; lia | reflexivity | exact Hin]. }
  assert (Hrec : forall l,
             In l (file_lines r) ->
             exists body,
               (l = body ++ newline \/ l = body)
               /\ ~ occurs line_feed body /\ ~ occurs carriage_return body).
  { intros l Hl.
    apply (IH (String.length r)) with (content := r);
      [subst n; simpl; lia | reflexivity | exact Hl]. }
  destruct (file_lines r) as [|l ls].
  - intros [<-|[]]. exists (String c "").
    split; [now right|]. split; intros [H|[]]; congruence.
  - intros [<-|Hin]; [|apply Hrec; now right].
    destruct (Hrec l (or_introl eq_refl)) as (body & Hl & Hb1 & Hb2).
    exists (String c body). split.
    + destruct Hl as [->| ->]; [now left | now right].
    + rewrite !occurs_cons. split; intros [H|H]; auto.
Qed.

Lemma strip_line_no_break (content line : string) (c : ascii) :
  In line (file_lines content) ->
  c = line_feed \/ c = carriage_return ->
  ~ occurs c (PyStr.strip line).
Proof.
  intros Hin Hc.
  destruct (file_lines_one_line content line Hin)
    as (body & Hl & Hb1 & Hb2).
  assert (Hbody : ~ occurs c body) by (destruct Hc as [-> | ->]; assumption).
  intros Ho. apply Hbody.
  destruct Hl as [-> | ->]; [|now apply occurs_strip].
  unfold PyStr.strip, newline in Ho.
  rewrite rstrip_append_space in Ho by reflexivity.
  now apply occurs_strip.
Qed.

Lemma Forall_set {V : Type} (P : string * V -> Prop)
  (d : PyDict.dict string V) (k : string) (v : V) :
  Forall P d -> P (k, v) -> Forall P (PyDict.set d k v).
Proof.
  intros Hall Hp; induction Hall as [|[k0 v0] d H0 Hall IH]; simpl.
  - repeat constructor. exact Hp.
  - destruct (String.eqb_spec k0 k) as [->|Hne].
    + constructor; assumption.
    + constructor; assumption.
Qed.

Lemma load_user_line_clean (content line : string)
  (us us' : PyDict.dict string user) :
  In line (file_lines content) ->
  clean_users us ->
  load_user_line us line = Ok us' ->
  clean_users us'.
Proof.
  intros Hin Hclean. unfold load_user_line.
  destruct (String.eqb (PyStr.strip line) ""); [now intros [= <-]|].
  destruct (List.length (PyStr.split "," (PyStr.strip line)) <? 3);
    [now intros [= <-]|].
  pose proof (split_fields_without_sep "," (PyStr.strip line)) as Hsep.
  assert (Hpart : forall f,
             In f (PyStr.split "," (PyStr.strip line)) ->
             clean_field (PyStr.strip f)).
  { intros f Hf. rewrite Forall_forall in Hsep. specialize (Hsep f Hf).
    assert (Hbreak : forall c, c = line_feed \/ c = carriage_return ->
                               ~ occurs c (PyStr.strip f)).
    { intros c Hc Ho.
      apply (strip_line_no_break content line c Hin Hc).
      apply (occurs_split c "," _ f Hf). now apply occurs_strip. }
    repeat split.
    - intros Ho. apply Hsep. now apply occurs_strip.
    - apply Hbreak. now left.
    - apply Hbreak. now right.
    - apply strip_idempotent. }
  destruct (PyStr.split "," (PyStr.strip line)) as [|p0 [|p1 [|p2 rest]]];
    try (now intros [= <-]).
  destruct (PyStr.int (PyStr.strip p2)) as [sc|]; [|discriminate].
  match goal with
  | |- match ?a with _ => _ end = _ -> _ =>
      destruct a as [asked_list|]; [|discriminate]
  end.
  intros [= <-]. destruct Hclean as [Hnd Hall]. split.
  - now apply NoDup_keys_set.
  - apply Forall_set; [exact Hall|].
    cbn [fst snd password]. split; apply Hpart; simpl; auto.
Qed.

Lemma load_user_lines_clean (content : string) (lines : list string)
  (us us' : PyDict.dict string user) :
  (forall line, In line lines -> In line (file_lines content)) ->
  clean_users us ->
  load_user_lines us lines = Ok us' ->
  clean_users us'.
Proof.
  revert us; induction lines as [|line lines IH]; intros us Hsub Hclean;
    simpl.
  - now intros [= <-].
  - destruct (load_user_line us line) as [us1|] eqn:H1; [|discriminate].
    apply IH; [intros l Hl; apply Hsub; now right|].
    apply (load_user_line_clean content line us us1);
      [apply Hsub; now left | exact Hclean | exact H1].
Qed.

Lemma load_user_database_clean (file : option string)
  (us : PyDict.dict string user) :
  load_user_database file = Ok us -> clean_users us.
Proof.
  destruct file as [content|]; simpl.
  - apply (load_user_lines_clean content); [auto|].
    split; constructor.
  - intros [= <-]. split.
    + repeat constructor; simpl; intuition discriminate.
    + repeat constructor; unfold occurs; simpl; intuition discriminate.
Qed.

Lemma load_user_line_limit (line : string)
  (us us' : PyDict.dict string user) :
  users_within_limit us ->
  load_user_line us line = Ok us' ->
  users_within_limit us'.
Proof.
  intros Hlim. unfold load_user_line.
  destruct (String.eqb (PyStr.strip line) ""); [now intros [= <-]|].
  destruct (List.length (PyStr.split "," (PyStr.strip line)) <? 3);
    [now intros [= <-]|].
  destruct (PyStr.split "," (PyStr.strip line)) as [|p0 [|p1 [|p2 rest]]];
    try (now intros [= <-]).
  destruct (PyStr.int (PyStr.strip p2)) as [sc|] eqn:Hsc; [|discriminate].
  apply int_limit in Hsc.
  assert (Hasked : forall l,
             match rest with
             | p3 :: _ =>
                 if String.eqb (PyStr.strip p3) "" then Ok []
                 else int_list (PyStr.split_whitespace (PyStr.strip p3))
             | [] => Ok []
             end = Ok l -> Forall within_int_limit l).
  { intros l. destruct rest as [|p3 rest'].
    - intros [= <-]. constructor.
    - destruct (String.eqb (PyStr.strip p3) "").
      + intros [= <-]. constructor.
      + apply int_list_limit. }
  match goal with
  | |- match ?a with _ => _ end = _ -> _ =>
      destruct a as [asked_list|]; [|discriminate]
  end.
  intros [= <-]. apply Forall_set; [exact Hlim|].
  cbn [snd score questions_asked]. split; [exact Hsc | now apply Hasked].
Qed.

Lemma load_user_lines_limit (lines : list string)
  (us us' : PyDict.dict string user) :
  users_within_limit us ->
  load_user_lines us lines = Ok us' ->
  users_within_limit us'.
Proof.
  revert us; induction lines as [|line lines IH]; intros us Hlim; simpl.
  - now intros [= <-].
  - destruct (load_user_line us line) as [us1|] eqn:H1; [|discriminate].
    apply IH. now apply (load_user_line_limit line us us1).
Qed.

(** Whatever is loaded has scores and question ids within the limit of
    [int], which read them. *)
Lemma load_user_database_limit (file : option string)
  (us : PyDict.dict string user) :
  load_user_database file = Ok us -> users_within_limit us.
Proof.
  destruct file as [content|]; simpl.
  - apply load_user_lines_limit. constructor.
  - intros [= <-]. repeat constructor; vm_compute; reflexivity.
Qed.

(** X25: whatever [load_user_database] returns, from any file or from no
    file, can be held by [users.txt]: the names are distinct, and no name
    or password has a comma, a line break or whitespace at its ends.
    Saving it and loading it again gives the same users. *)
Theorem load_then_save_then_load (file : option string)
  (us : PyDict.dict string user) :
  load_user_database file = Ok us ->
  clean_users us /\ load_user_database (Some (users_file us)) = Ok us.
Proof.
  intros Hload. pose proof (load_user_database_clean file us Hload) as Hc.
  pose proof (load_user_database_limit file us Hload) as Hlim.
  split; [exact Hc | now apply load_users_file].
Qed.

Lemma load_then_save_then_load_witness :
  let us := [("a", mkUser "b" 7 [1%Z; 2%Z]); ("c", mkUser "d" (-3) [])] in
  clean_users us /\ load_user_database (Some (users_file us)) = Ok us.
Proof.
  apply (load_then_save_then_load
           (Some ("a , b ,7, 1  2 " ++ newline ++ newline
                  ++ "junk" ++ newline ++ "c,d,-3"))).
  reflexivity.
Defined.

End LoadedUsers.

(** * A question, from the server to the client and back *)

Section QuestionRoundTrip.

Lemma question_payload_join (q_num : Z) (q_data : question_data) :
  answers q_data <> [] ->
  question_payload q_num q_data
  = chatlib.join_data
      (PyStr.str_of_Z q_num :: question q_data :: answers q_data).
Proof.
  intros Hne. unfold question_payload, chatlib.join_data, PyStr.join,
    chatlib.DATA_DELIMITER.
  rewrite concat_cons by discriminate.
  rewrite concat_cons by exact Hne. reflexivity.
Qed.

Lemma str_of_Z_no_delimiter (z : Z) : ~ occurs "#" (PyStr.str_of_Z z).
Proof.
  apply (all_chars_not_occurs numeric_char);
    [apply numeric_str_of_Z | reflexivity].
Qed.

(** X26: a question with four answers, none of which contains ['#'], nor
    the question text, and with an id of no more digits than [int]
    converts: the client splits the data of YOUR_QUESTION into its six
    fields, and for each of the answers ["1"] to ["4"] the data it sends
    back is read by the server as the id of that question and that
    answer. *)
Theorem question_round_trip (q_num : Z) (q_data : question_data)
  (user_answer : string) :
  List.length (answers q_data) = 4 ->
  no_delimiter (question q_data :: answers q_data) ->
  within_int_limit q_num ->
  In user_answer client.valid_answers ->
  exists data choice,
    client.play_question_answer (question_payload q_num q_data) user_answer
    = Some data
    /\ parse_answer data = Some (q_num, choice)
    /\ (1 <= choice <= 4)%Z
    /\ PyStr.str_of_Z choice = user_answer.
Proof.
  intros Hlen Hno Hlim Hin.
  assert (Hne : answers q_data <> [])
    by (intros He; rewrite He in Hlen; discriminate).
  assert (Hsplit : chatlib.split_data (question_payload q_num q_data) 6
                   = Some (PyStr.str_of_Z q_num :: question q_data
                           :: answers q_data)).
  { rewrite question_payload_join by exact Hne.
    replace 6 with (List.length (PyStr.str_of_Z q_num :: question q_data
                                 :: answers q_data))
      by (simpl; now rewrite Hlen).
    apply split_data_join_data; [discriminate|].
    constructor; [apply str_of_Z_no_delimiter | exact Hno]. }
  unfold client.play_question_answer. rewrite Hsplit.
  destruct (answers q_data) as [|a1 [|a2 [|a3 [|a4 [|? ?]]]]];
    try discriminate Hlen.
  assert (Hparse : forall choice,
             PyStr.int user_answer = Some choice ->
             ~ occurs "#" user_answer ->
             parse_answer
               (chatlib.join_data [PyStr.str_of_Z q_num; user_answer])
             = Some (q_num, choice)).
  { intros choice Hc Hnd. apply parse_answer_spec.
    exists (PyStr.str_of_Z q_num), user_answer.
    repeat split; try assumption.
    - apply str_of_Z_no_delimiter.
    - now apply int_str_of_Z. }
  unfold client.valid_answers in Hin. cbn [In] in Hin.
  destruct Hin as [<-|[<-|[<-|[<-|[]]]]].
  - exists (chatlib.join_data [PyStr.str_of_Z q_num; "1"]), 1%Z.
    repeat split; try lia.
    apply Hparse; [reflexivity | unfold occurs; simpl; intuition discriminate].
  - exists (chatlib.join_data [PyStr.str_of_Z q_num; "2"]), 2%Z.
    repeat split; try lia.
    apply Hparse; [reflexivity | unfold occurs; simpl; intuition discriminate].
  - exists (chatlib.join_data [PyStr.str_of_Z q_num; "3"]), 3%Z.
    repeat split; try lia.
    apply Hparse; [reflexivity | unfold occurs; simpl; intuition discriminate].
  - exists (chatlib.join_data [PyStr.str_of_Z q_num; "4"]), 4%Z.
    repeat split; try lia.
    apply Hparse; [reflexivity | unfold occurs; simpl; intuition discriminate].
Qed.

Lemma question_round_trip_witness :
  exists data choice,
    client.play_question_answer
      (question_payload 1 (mkQuestion "2 + 2 = ?" ["3"; "4"; "5"; "22"] 2))
      "2"
    = Some data
    /\ parse_answer data = Some (1%Z, choice)
    /\ (1 <= choice <= 4)%Z
    /\ PyStr.str_of_Z choice = "2".
Proof.
  apply (question_round_trip 1
           (mkQuestion "2 + 2 = ?" ["3"; "4"; "5"; "22"] 2) "2").
  - reflexivity.
  - repeat constructor; unfold occurs; simpl; intuition discriminate.
  - vm_compute. reflexivity.
  - simpl. tauto.
Defined.

Lemma count_char_append (c : ascii) (a b : string) :
  count_char c (a ++ b) = count_char c a + count_char c b.
Proof.
  unfold count_char. induction a as [|x a IH]; simpl; [reflexivity|].
  destruct (ascii_dec x c); simpl; now rewrite IH.
Qed.

Lemma count_char_occurs (c : ascii) (s : string) :
  occurs c s -> 1 <= count_char c s.
Proof.
  unfold occurs, count_char. intros Hin.
  now apply (count_occ_In ascii_dec) in Hin.
Qed.

(** X27: a question with four answers whose text contains ['#'] (a
    question about C#, say) has a YOUR_QUESTION data of more than six
    fields: the client cannot split it, and reports an invalid question
    format instead of asking the question. *)
Theorem question_with_delimiter (q_num : Z) (q_data : question_data)
  (user_answer : string) :
  List.length (answers q_data) = 4 ->
  occurs "#" (question q_data) ->
  chatlib.split_data (question_payload q_num q_data) 6 = None
  /\ client.play_question_answer (question_payload q_num q_data) user_answer
     = None.
Proof.
  intros Hlen Hocc.
  assert (Hnone : chatlib.split_data (question_payload q_num q_data) 6
                  = None).
  { rewrite split_data_split, length_split.
    destruct (answers q_data) as [|a1 [|a2 [|a3 [|a4 [|? ?]]]]] eqn:Ha;
      try discriminate Hlen.
    unfold question_payload. rewrite Ha.
    unfold PyStr.join. cbn [String.concat].
    rewrite !count_char_append.
    apply count_char_occurs in Hocc.
    change (count_char "#" "#") with 1.
    destruct (Nat.eqb_spec
                (S (count_char "#" (PyStr.str_of_Z q_num)
                    + (1 + (count_char "#" (question q_data)
                            + (1 + (count_char "#" a1
                                    + (1 + (count_char "#" a2
                                            + (1 + (count_char "#" a3
                                                    + (1 + count_char "#" a4)
                                               ))))))))))
                6) as [He|]; [lia | reflexivity]. }
  split; [exact Hnone|].
  unfold client.play_question_answer. now rewrite Hnone.
Qed.

Lemma question_with_delimiter_witness :
  let q_data :=
    mkQuestion "Who designed C#?" ["Hejlsberg"; "Gosling"; "Ritchie"; "Wall"]
      1 in
  chatlib.split_data (question_payload 7 q_data) 6 = None
  /\ client.play_question_answer (question_payload 7 q_data) "1" = None.
Proof.
  intros q_data. apply (question_with_delimiter 7 q_data "1").
  - reflexivity.
  - unfold occurs; simpl. tauto.
Defined.

End QuestionRoundTrip.

(** * Loading the questions *)

Example load_two_questions :
  load_questions_from_web (fun _ l => rev l)
    (Ok (0%Z,
         [mkItem "2 + 2 = ?" "4" ["3"; "5"; "22"];
          mkItem "Capital of France?" "Paris" ["Rome"; "Oslo"; "Bern"]]))
  = (true,
     [(1%Z, mkQuestion "2 + 2 = ?" ["4"; "22"; "5"; "3"] 1);
      (2%Z, mkQuestion "Capital of France?" ["Paris"; "Bern"; "Oslo"; "Rome"]
              1)])
  /\ load_questions_from_web (fun _ l => l) (Ok (5%Z, [])) = (false, []).
Proof. split; reflexivity. Qed.

Section QuestionBank.

Lemma list_index_in (l : list string) (x : string) :
  In x l ->
  exists i, list_index l x = Ok i /\ nth_error l i = Some x.
Proof.
  induction l as [|y l IH]; [intros []|].
  intros Hin. simpl.
  destruct (String.eqb_spec y x) as [->|Hne]; [now exists 0|].
  destruct Hin as [He|Hin]; [congruence|].
  destruct (IH Hin) as (i & -> & Hnth). now exists (S i).
Qed.

Lemma load_question_ok (shuffle : list string -> list string)
  (item : trivia_item) :
  (forall l, Permutation (shuffle l) l) ->
  exists q_data,
    load_question shuffle item = Ok q_data /\ question_of item q_data.
Proof.
  intros Hperm. unfold load_question.
  set (l := (item_incorrect_answers item ++ [item_correct_answer item])%list).
  assert (Hin : In (item_correct_answer item) (shuffle l)).
  { apply (Permutation_in _ (Permutation_sym (Hperm l))).
    apply in_or_app. right. now left. }
  destruct (list_index_in _ _ Hin) as (i & -> & Hnth).
  eexists; split; [reflexivity|].
  assert (Hlt : i < List.length (shuffle l))
    by (apply nth_error_Some; congruence).
  unfold question_of. cbn [question answers correct].
  repeat split; try lia; [apply Hperm|].
  unfold list_getitem.
  destruct (Z.ltb_spec (Z.of_nat i + 1 - 1) 0); [lia|].
  destruct (Z.ltb_spec (Z.of_nat i + 1 - 1) 0); [lia|].
  destruct (Z.leb_spec (Z.of_nat (List.length (shuffle l)))
              (Z.of_nat i + 1 - 1)); [lia|].
  cbn [orb]. replace (Z.to_nat (Z.of_nat i + 1 - 1)) with i by lia.
  now rewrite Hnth.
Qed.

Lemma set_absent_Z {V : Type} (d : PyDict.dict Z V) (k : Z) (v : V) :
  ~ In k (PyDict.keys d) -> PyDict.set d k v = (d ++ [(k, v)])%list.
Proof.
  unfold PyDict.keys; induction d as [|[k0 v0] d IH]; simpl;
    [reflexivity|].
  intros Hnot. destruct (Z.eqb_spec k0 k) as [->|Hne]; [tauto|].
  rewrite IH by tauto. reflexivity.
Qed.

Lemma load_question_items_ok (shuffle : nat -> list string -> list string)
  (items : list trivia_item) (idx : nat)
  (acc : PyDict.dict Z question_data) :
  (forall n l, Permutation (shuffle n l) l) ->
  (forall k, In k (PyDict.keys acc) -> (k < Z.of_nat idx)%Z) ->
  exists qs,
    load_question_items shuffle idx items acc = (Ok tt, (acc ++ qs)%list)
    /\ PyDict.keys qs = map Z.of_nat (seq idx (List.length items))
    /\ Forall2 (fun item e => question_of item (snd e)) items qs.
Proof.
  intros Hperm. revert idx acc.
  induction items as [|item items IH]; intros idx acc Hkeys.
  - exists []. simpl. rewrite app_nil_r. repeat split. constructor.
  - cbn [load_question_items].
    destruct (load_question_ok (shuffle idx) item (Hperm idx))
      as (q_data & -> & Hq).
    rewrite set_absent_Z
      by (intros Hin; apply Hkeys in Hin; lia).
    destruct (IH (S idx) (acc ++ [(Z.of_nat idx, q_data)])%list)
      as (qs & Hload & Hk & Hall).
    { intros k Hin. unfold PyDict.keys in Hin. rewrite map_app in Hin.
      apply in_app_or in Hin as [Hin|[<-|[]]];
        [apply Hkeys in Hin; lia | simpl; lia]. }
    exists ((Z.of_nat idx, q_data) :: qs). repeat split.
    + rewrite Hload. now rewrite <- app_assoc.
    + cbn [PyDict.keys map List.length seq] in *.
      unfold PyDict.keys in Hk. now rewrite Hk.
    + constructor; assumption.
Qed.

(** X28: when the trivia service answers with response code 0, the bank
    gets one question per item, numbered from 1 in the order of the
    items.  Whatever the shuffle does, the answers of a question are
    those of its item, the correct index is one of their positions, and
    the answer at that position is the correct answer of the item. *)
Theorem loaded_bank_is_well_formed
  (shuffle : nat -> list string -> list string)
  (items : list trivia_item) :
  (forall n l, Permutation (shuffle n l) l) ->
  exists qs,
    load_questions_from_web shuffle (Ok (0%Z, items)) = (true, qs)
    /\ PyDict.keys qs = map Z.of_nat (seq 1 (List.length items))
    /\ Forall2 (fun item e => question_of item (snd e)) items qs
    /\ forall q_num q_data,
         PyDict.get qs q_num = Some q_data ->
         (1 <= correct q_data <= Z.of_nat (List.length (answers q_data)))%Z.
Proof.
  intros Hperm.
  destruct (load_question_items_ok shuffle items 1 [] Hperm)
    as (qs & Hload & Hkeys & Hall); [intros k []|].
  exists qs. unfold load_questions_from_web. cbn [Z.eqb negb].
  rewrite Hload.
  split; [reflexivity|]. split; [exact Hkeys|]. split; [exact Hall|].
  intros q_num q_data Hget.
  assert (Hin : exists item, question_of item q_data).
  { clear - Hall Hget. revert Hget.
    induction Hall as [|item [k v] items qs Hq Hall IH]; simpl;
      [discriminate|].
    destruct (k =? q_num)%Z; [intros [= <-]; eauto | exact IH]. }
  destruct Hin as (item & _ & _ & Hb & _). exact Hb.
Qed.

Lemma loaded_bank_is_well_formed_witness :
  exists qs,
    load_questions_from_web (fun _ l => rev l)
      (Ok (0%Z, [mkItem "2 + 2 = ?" "4" ["3"; "5"; "22"]]))
    = (true, qs)
    /\ PyDict.keys qs = map Z.of_nat (seq 1 1)
    /\ Forall2 (fun item e => question_of item (snd e))
         [mkItem "2 + 2 = ?" "4" ["3"; "5"; "22"]] qs
    /\ forall q_num q_data,
         PyDict.get qs q_num = Some q_data ->
         (1 <= correct q_data <= Z.of_nat (List.length (answers q_data)))%Z.
Proof.
  apply (loaded_bank_is_well_formed (fun _ l => rev l)
           [mkItem "2 + 2 = ?" "4" ["3"; "5"; "22"]]).
  intros _ l. apply Permutation_sym, Permutation_rev.
Defined.

End QuestionBank.

(** * What a crash can lose *)

Section Crash.

Local Arguments chatlib.build_message : simpl never.

Variable floor : PyDict.dict string user.

Lemma record_behind_refl (e : string * user) : record_behind e e.
Proof. repeat split. exists 0%nat. simpl. lia. Qed.

Lemma Forall2_record_behind_refl (us : list (string * user)) :
  Forall2 record_behind us us.
Proof. induction us; constructor; [apply record_behind_refl | assumption]. Qed.

Lemma keeps_disk_refl (s : state) : keeps_disk floor s s.
Proof. intros H; exact H. Qed.

Lemma keeps_disk_trans (a b c : state) :
  keeps_disk floor a b -> keeps_disk floor b c -> keeps_disk floor a c.
Proof. intros Hab Hbc H. auto. Qed.

Lemma keeps_disk_same (s s' : state) :
  users s' = users s -> users_txt s' = users_txt s -> keeps_disk floor s s'.
Proof.
  intros Hu Ht (saved & Hd & Hb). exists saved. now rewrite Hu, Ht.
Qed.

(** What is in memory is not below what is on disk. *)
Lemma score_above_behind (fl saved us : PyDict.dict string user) :
  Forall2 score_above fl saved -> Forall2 record_behind saved us ->
  Forall2 score_above fl us.
Proof.
  intros Hf; revert us.
  induction Hf as [|e0 e fl saved Hle Hf IH]; intros us Hb;
    inversion Hb as [|? e' ? us' (_ & _ & _ & k & Hk) Hb']; subst;
    constructor; [|now apply IH].
  unfold score_above in *. lia.
Qed.

Lemma score_above_set (fl us : PyDict.dict string user)
  (username : string) (old new : user) :
  Forall2 score_above fl us ->
  PyDict.get us username = Some old ->
  (score old <= score new)%Z ->
  Forall2 score_above fl (PyDict.set us username new).
Proof.
  intros Hall Hget Hs.
  induction Hall as [|e0 [k' v'] fl us Hr Hall IH]; simpl in *;
    [discriminate|].
  destruct (String.eqb_spec k' username) as [->|Hne].
  - injection Hget as ->. constructor; [|exact Hall].
    unfold score_above in *. cbn [snd] in *. lia.
  - constructor; [exact Hr | now apply IH].
Qed.

(** After a save the file is the memory. *)
Lemma disk_behind_saved (s : state) :
  hd_error (users_txt s) = Some (users_file (users s)) ->
  Forall2 score_above floor (users s) ->
  disk_behind floor s.
Proof.
  intros Hd Hf. exists (users s). split; [exact Hd|].
  split; [apply Forall2_record_behind_refl | exact Hf].
Qed.

Lemma disk_behind_above (s : state) :
  disk_behind floor s -> Forall2 score_above floor (users s).
Proof.
  intros (saved & _ & Hb & Hf). now apply (score_above_behind floor saved).
Qed.

Lemma Forall2_record_behind_set (saved us : PyDict.dict string user)
  (username : string) (old new : user) :
  Forall2 record_behind saved us ->
  PyDict.get us username = Some old ->
  password new = password old ->
  questions_asked new = questions_asked old ->
  score new = (score old + 5)%Z ->
  Forall2 record_behind saved (PyDict.set us username new).
Proof.
  intros Hall Hget Hp Hq Hs.
  induction Hall as [|[k v] [k' v'] saved us Hr Hall IH]; simpl in *;
    [discriminate|].
  destruct (String.eqb_spec k' username) as [->|Hne].
  - injection Hget as ->. constructor; [|exact Hall].
    destruct Hr as (Hn & Hp' & Hq' & (n & Hn')).
    cbn [fst snd] in Hn, Hp', Hq', Hn'.
    repeat split; cbn [fst snd]; try congruence.
    exists (S n). rewrite Nat2Z.inj_succ. lia.
  - constructor; [exact Hr | now apply IH].
Qed.

Ltac disk := preserve_with keeps_disk_refl keeps_disk_trans.

Ltac disk_leaves :=
  disk; try (intros st; apply keeps_disk_same; reflexivity).

Lemma build_and_send_message_disk (conn : socket) (code data : string) :
  preserves (keeps_disk floor) (build_and_send_message conn code data).
Proof. intros s. now apply keeps_disk_same. Qed.

Lemma save_user_database_disk :
  preserves (keeps_disk floor) save_user_database.
Proof.
  intros s Hd. apply disk_behind_saved; [reflexivity|].
  change (Forall2 score_above floor (users s)).
  now apply disk_behind_above.
Qed.

Lemma handle_login_message_disk (conn : socket) (data : string) :
  preserves (keeps_disk floor) (handle_login_message conn data).
Proof.
  pose proof build_and_send_message_disk as Hsend.
  unfold handle_login_message. disk_leaves.
Qed.

Lemma handle_logout_message_disk (conn : socket) :
  preserves (keeps_disk floor) (handle_logout_message conn).
Proof.
  pose proof save_user_database_disk as Hsave.
  unfold handle_logout_message. disk_leaves.
Qed.

Lemma add_score_disk (username : string) :
  preserves (keeps_disk floor) (add_score username 5).
Proof.
  unfold add_score. apply preserves_gets_bind; intros s.
  unfold bind, lift, PyDict.getitem.
  destruct (PyDict.get (users s) username) as [udata|] eqn:Hu;
    [|apply keeps_disk_refl].
  intros (saved & Hd & Hb & Hf). exists saved. split; [exact Hd|].
  split; [|exact Hf]. simpl.
  now apply (Forall2_record_behind_set saved (users s) username udata).
Qed.

Lemma handle_answer_message_disk (conn : socket) (username data : string) :
  preserves (keeps_disk floor) (handle_answer_message conn username data).
Proof.
  pose proof build_and_send_message_disk as Hsend.
  pose proof add_score_disk as Hadd.
  unfold handle_answer_message. disk_leaves.
  all: apply Hadd.
Qed.

(** Issuing a question changes a history, and saves at once. *)
Lemma handle_question_message_disk (conn : socket) (username : string)
  (rnd : nat) :
  preserves (keeps_disk floor) (handle_question_message conn username rnd).
Proof.
  intros s. unfold handle_question_message. unfold bind at 1.
  pose proof (create_random_question_state username rnd s) as Hstate.
  destruct (create_random_question username rnd s)
    as [[[[question_str q_num]|]|e] s1];
    cbn [snd] in Hstate; subst s1.
  - run_monad.
    destruct (PyDict.get (users s) username) as [udata|] eqn:Hu;
      [|apply keeps_disk_refl].
    intros Hd. apply disk_behind_saved; [reflexivity|].
    cbn [snd users set_users set_messages_to_send set_users_txt].
    apply (score_above_set floor (users s) username udata);
      [now apply disk_behind_above | exact Hu | simpl; lia].
  - now apply keeps_disk_same.
  - apply keeps_disk_refl.
Qed.

Lemma handle_client_message_disk (conn : socket) (cmd data : string)
  (rnd : nat) :
  preserves (keeps_disk floor) (handle_client_message conn cmd data rnd).
Proof.
  pose proof build_and_send_message_disk as Hsend.
  pose proof handle_login_message_disk as Hlogin.
  pose proof handle_logout_message_disk as Hlogout.
  pose proof handle_question_message_disk as Hquestion.
  pose proof handle_answer_message_disk as Hanswer.
  unfold handle_client_message, handle_getscore_message,
    handle_highscore_message, handle_logged_message.
  disk_leaves.
Qed.

Lemma step_disk (e : event) (s : state) : keeps_disk floor s (step e s).
Proof.
  pose proof build_and_send_message_disk as Hsend.
  pose proof handle_logout_message_disk as Hlogout.
  pose proof handle_client_message_disk as Hclient.
  destruct e as [sock received rnd | tracked send_raises]; simpl.
  - revert s.
    change (preserves (keeps_disk floor) (client_turn sock received rnd)).
    unfold client_turn. disk_leaves.
  - revert s.
    change (preserves (keeps_disk floor)
              (send_queued_messages tracked send_raises)).
    unfold send_queued_messages, send_queued. disk_leaves.
Qed.

Lemma run_disk (es : list event) (s : state) :
  keeps_disk floor s (run es s).
Proof.
  revert s; induction es as [|e es IH]; intros s; simpl.
  - apply keeps_disk_refl.
  - eapply keeps_disk_trans; [apply step_disk | apply IH].
Qed.

End Crash.

Section CrashLoss.

Lemma score_above_refl (us : PyDict.dict string user) :
  Forall2 score_above us us.
Proof.
  induction us; constructor; [unfold score_above; lia | assumption].
Qed.

Lemma clean_users_behind (saved us : PyDict.dict string user) :
  Forall2 record_behind saved us -> clean_users us -> clean_users saved.
Proof.
  intros Hall [Hnd Hclean]. split.
  - replace (PyDict.keys saved) with (PyDict.keys us); [exact Hnd|].
    unfold PyDict.keys. clear - Hall.
    induction Hall as [|x y saved us (Hn & _) Hall IH]; simpl; congruence.
  - clear Hnd. induction Hall as [|x y saved us (Hn & Hp & _) Hall IH];
      [constructor|].
    inversion Hclean as [|? ? [Hc1 Hc2] Hrest]; subst.
    constructor; [|now apply IH].
    rewrite <- Hn, <- Hp. now split.
Qed.

Lemma clean_users_kept (us us' : PyDict.dict string user) :
  Forall2 user_grows us us' -> clean_users us -> clean_users us'.
Proof.
  intros Hall [Hnd Hclean]. split.
  - now rewrite (Forall2_user_grows_keys us us' Hall).
  - clear Hnd. induction Hall as [|x y us us' (Hn & Hp & _) Hall IH];
      [constructor|].
    inversion Hclean as [|? ? [Hc1 Hc2] Hrest]; subst.
    constructor; [|now apply IH].
    rewrite Hn, Hp. now split.
Qed.

(** What is on disk lies between the users at the start and the users
    in memory, and has the histories of the latter. *)
Lemma users_within_limit_behind (fl saved us : PyDict.dict string user) :
  Forall2 score_above fl saved ->
  Forall2 record_behind saved us ->
  users_within_limit fl -> users_within_limit us ->
  users_within_limit saved.
Proof.
  intros Hf; revert us.
  induction Hf as [|e0 e fl saved Hle Hf IH]; intros us Hb Hl0 Hl;
    [constructor|].
  inversion Hb as [|? e' ? us' (_ & _ & Hq & k & Hk) Hb']; subst.
  inversion Hl0 as [|? ? [Hs0 _] Hl0']; subst.
  inversion Hl as [|? ? [Hs Ha] Hl']; subst.
  constructor; [|now apply (IH us')].
  split.
  - apply (within_int_limit_between (score (snd e0)) _ (score (snd e')));
      [unfold score_above in Hle; lia | assumption | assumption].
  - now rewrite <- Hq.
Qed.

(** X29: after any sequence of events of a run that starts with
    [users.txt] holding the users (names and passwords without comma,
    line break or whitespace at their ends), the file can be loaded, and
    what it holds differs from the users in memory in scores only: every
    user, password and asked history is on disk, and a score on disk is
    the score in memory or less, by a multiple of 5.  Restarting the
    server from the file can lose points, and nothing else.  This holds
    while the scores and the question ids, at the start and in memory,
    have no more digits than [int] converts. *)
Theorem crash_loses_scores_only (es : list event) (s : state) :
  clean_users (users s) ->
  users_within_limit (users s) ->
  users_within_limit (users (run es s)) ->
  hd_error (users_txt s) = Some (users_file (users s)) ->
  exists content saved,
    hd_error (users_txt (run es s)) = Some content
    /\ load_user_database (Some content) = Ok saved
    /\ Forall2 record_behind saved (users (run es s)).
Proof.
  intros Hclean Hlim Hlim' Hdisk.
  destruct (run_disk (users s) es s
              (disk_behind_saved (users s) s Hdisk
                 (score_above_refl (users s))))
    as (saved & Hd & Hb & Hf).
  exists (users_file saved), saved. repeat split; try assumption.
  apply load_users_file.
  - apply (clean_users_behind saved (users (run es s)) Hb).
    destruct (run_kept es s) as [_ Hk].
    now apply (clean_users_kept (users s)).
  - now apply (users_within_limit_behind (users s) saved
                 (users (run es s))).
Qed.

Lemma crash_loses_scores_only_witness :
  let es :=
    [Readable yossi_sock (Ok "LOGIN           |0009|yossi#123") 0;
     Readable yossi_sock (Ok "GET_QUESTION    |0000|") 0;
     Readable yossi_sock (Ok "SEND_ANSWER     |0003|1#2") 0] in
  PyDict.get (users (run es started)) "yossi" = Some (mkUser "123" 55 [1%Z])
  /\ exists content saved,
       hd_error (users_txt (run es started)) = Some content
       /\ load_user_database (Some content) = Ok saved
       /\ Forall2 record_behind saved (users (run es started)).
Proof.
  intros es. split; [reflexivity|].
  apply (crash_loses_scores_only es started).
  - split.
    + repeat constructor; simpl; intuition discriminate.
    + repeat constructor; unfold occurs; simpl; intuition discriminate.
  - repeat constructor; vm_compute; reflexivity.
  - repeat constructor; vm_compute; reflexivity.
  - reflexivity.
Defined.

End CrashLoss.
